(** * Attendance extraction and daily-metrics engine (dtr-new)

    A shallow embedding of the attendance parsers and of the daily metrics
    calculators of [app/routes/utils.js], [app/routes/biometricParserSimple.js]
    and [controllers/attendanceController.js], and the properties that the
    design document states about them.

    Conventions of the embedding.
    - A JavaScript number that holds an integer is a [Z]; [NaN] is [None] in
      [option Z].  Fractional arithmetic (durations in hours and minutes) is
      carried out on binary64 floats, the kernel's [PrimFloat], with the
      operations in the order of the source.
    - Strings are [string]; white space and letter case are the ASCII ones.
    - [undefined] is [None]; a property that may be missing is an [option].
    - A [Date] is its local time value in milliseconds ([None] is an invalid
      date).  The host's time zone is taken to have a fixed offset, so local
      calendar fields are read off the local time value.
    - What the host's [Date] string parser, the SQL [LIKE] operator and the
      spreadsheet library's row reader return is not code of this repository:
      they are parameters of the sections that use them.
    - A thrown exception is [None] in the result of a parser. *)

From Stdlib Require Import ZArith String Ascii List Floats Uint63 Lia DecimalString Bool.
From stdpp Require Import gmap strings list sorting.
Import ListNotations.
Local Open Scope string_scope.
Local Open Scope Z_scope.

(* ===================================================================== *)
(** * Part I: the program                                                 *)
(* ===================================================================== *)

(** ** JavaScript string and number primitives *)
Module JS.

(** A value that may be [undefined]. *)
Definition truthy (v : option string) : bool :=
  match v with
  | Some s => negb (String.eqb s "")
  | None => false
  end.

(** [v || ""] for a string-or-undefined [v]. *)
Definition orEmpty (v : option string) : string :=
  match v with
  | Some s => s
  | None => ""
  end.

Definition isWhite (a : ascii) : bool :=
  let n := Z.of_nat (nat_of_ascii a) in
  (n =? 32) || ((9 <=? n) && (n <=? 13)).

Definition isDigit (a : ascii) : bool :=
  let n := Z.of_nat (nat_of_ascii a) in
  (48 <=? n) && (n <=? 57).

Definition digitVal (a : ascii) : Z := Z.of_nat (nat_of_ascii a) - 48.

Fixpoint trimStart (s : string) : string :=
  match s with
  | String a r => if isWhite a then trimStart r else s
  | EmptyString => EmptyString
  end.

Fixpoint trimEnd (s : string) : string :=
  match s with
  | String a r =>
      match trimEnd r with
      | EmptyString => if isWhite a then EmptyString else String a EmptyString
      | r' => String a r'
      end
  | EmptyString => EmptyString
  end.

Definition trim (s : string) : string := trimEnd (trimStart s).

Definition lowerChar (a : ascii) : ascii :=
  let n := nat_of_ascii a in
  if ((65 <=? n) && (n <=? 90))%nat then ascii_of_nat (n + 32) else a.

Definition upperChar (a : ascii) : ascii :=
  let n := nat_of_ascii a in
  if ((97 <=? n) && (n <=? 122))%nat then ascii_of_nat (n - 32) else a.

Fixpoint mapChars (f : ascii -> ascii) (s : string) : string :=
  match s with
  | String a r => String (f a) (mapChars f r)
  | EmptyString => EmptyString
  end.

Definition toLowerCase : string -> string := mapChars lowerChar.
Definition toUpperCase : string -> string := mapChars upperChar.

(** [String(n)] for an integer [n]. *)
Definition showZ (n : Z) : string := NilZero.string_of_int (Z.to_int n).

(** The double nearest to the non-negative integer [n], as the integer that
    it holds: [n] itself below [2^53], beyond it the nearer of the two
    multiples of the spacing around [n], the one with the even significand
    when they are as near; [None] is [Infinity]. *)
Definition toDouble (n : Z) : option Z :=
  if n <? 2 ^ 53 then Some n
  else
    let e := Z.log2 n - 52 in
    let q := n / 2 ^ e in
    let r := n mod 2 ^ e in
    let half := 2 ^ (e - 1) in
    let q' :=
      if r <? half then q
      else if half <? r then q + 1
      else if Z.even q then q else q + 1 in
    if q' * 2 ^ e <? 2 ^ 1024 then Some (q' * 2 ^ e) else None.

(** The decimal [v] reads back as the double that holds [d]. *)
Definition readsAs (d v : Z) : bool :=
  match toDouble v with
  | Some x => x =? d
  | None => false
  end.

(** The decimal that [Number::toString] chooses for the double that holds
    the integer [d] of [n] digits: with [k] significant digits, [k] as small
    as possible, a value that reads back as [d]; the closest to [d] when
    there are several, and the one with the even last digit when two are as
    close. *)
Fixpoint shortestFrom (fuel : nat) (k n d : Z) : Z :=
  match fuel with
  | O => d
  | S fuel' =>
      let p := 10 ^ (n - k) in
      let lo := d / p * p in
      let hi := lo + p in
      match readsAs d lo, readsAs d hi with
      | true, true =>
          if d - lo <? hi - d then lo
          else if hi - d <? d - lo then hi
          else if Z.even (lo / p) then lo else hi
      | true, false => lo
      | false, true => hi
      | false, false => shortestFrom fuel' (k + 1) n d
      end
  end.

Fixpoint dropZeros (s : string) : string :=
  match s with
  | String a r =>
      match dropZeros r with
      | EmptyString => if Ascii.eqb a "0" then EmptyString else String a EmptyString
      | r' => String a r'
      end
  | EmptyString => EmptyString
  end.

(** [String(x)] for the double [x] that holds the integer [d]: the digits of
    [d] below [2^53]; beyond, the shortest decimal that reads back as [x],
    in exponent form from [1e21]. *)
Definition showDouble (d : Z) : string :=
  if Z.abs d <? 2 ^ 53 then showZ d
  else
    let sign := if d <? 0 then "-" else "" in
    let a := Z.abs d in
    let n := Z.of_nat (String.length (showZ a)) in
    let v := shortestFrom (Z.to_nat n) 1 n a in
    if v <? 10 ^ 21 then sign +:+ showZ v
    else
      let digits := dropZeros (showZ v) in
      let mantissa :=
        match digits with
        | String a (String b r) => String a ("." +:+ String b r)
        | _ => digits
        end in
      sign +:+ mantissa +:+ "e+" +:+ showZ (Z.of_nat (String.length (showZ v)) - 1).

(** [String(n)] for a number that may be [NaN]. *)
Definition showNum (n : option Z) : string :=
  match n with
  | Some z => showZ z
  | None => "NaN"
  end.

(** [s.padStart(2, "0")]. *)
Definition padStart2 (s : string) : string :=
  match s with
  | EmptyString => "00"
  | String a EmptyString => String "0" (String a EmptyString)
  | _ => s
  end.

(** The digits at the head of [s], as a number, and the rest of [s];
    [None] when [s] does not start with a digit. *)
Fixpoint digitsFrom (acc : Z) (s : string) : Z * string :=
  match s with
  | String a r => if isDigit a then digitsFrom (10 * acc + digitVal a) r else (acc, s)
  | EmptyString => (acc, EmptyString)
  end.

Definition leadingDigits (s : string) : option (Z * string) :=
  match s with
  | String a _ => if isDigit a then Some (digitsFrom 0 s) else None
  | EmptyString => None
  end.

Definition hexVal (a : ascii) : option Z :=
  let n := Z.of_nat (nat_of_ascii a) in
  if (48 <=? n) && (n <=? 57) then Some (n - 48)
  else if (97 <=? n) && (n <=? 102) then Some (n - 87)
  else if (65 <=? n) && (n <=? 70) then Some (n - 55)
  else None.

Fixpoint hexFrom (acc : option Z) (s : string) : option Z :=
  match s with
  | String a r =>
      match hexVal a with
      | Some d => hexFrom (Some (16 * default 0 acc + d)) r
      | None => acc
      end
  | EmptyString => acc
  end.

(** [parseInt(s, 10)]. *)
Definition parseInt10 (s : string) : option Z :=
  match trimStart s with
  | String "-" r => option_map Z.opp (option_map fst (leadingDigits r))
  | String "+" r => option_map fst (leadingDigits r)
  | r => option_map fst (leadingDigits r)
  end.

(** [parseInt(s)]: as [parseInt10], but a [0x] prefix selects radix 16. *)
Definition parseInt (s : string) : option Z :=
  let unsigned (r : string) : option Z :=
    match r with
    | String "0" (String "x" h) | String "0" (String "X" h) => hexFrom None h
    | _ => option_map fst (leadingDigits r)
    end in
  match trimStart s with
  | String "-" r => option_map Z.opp (unsigned r)
  | String "+" r => unsigned r
  | r => unsigned r
  end.

(** [s.split(sep)] for a one-character separator. *)
Fixpoint split (sep : ascii) (s : string) : list string :=
  match s with
  | String a r =>
      if Ascii.eqb a sep then EmptyString :: split sep r
      else match split sep r with
           | h :: t => String a h :: t
           | [] => [String a EmptyString]
           end
  | EmptyString => [EmptyString]
  end.

(** [s.startsWith(p)]. *)
Definition startsWith (p s : string) : bool := String.prefix p s.


(** [xs[i]] for an array of strings: [undefined] out of range. *)
Definition at_ (xs : list string) (i : nat) : option string := nth_error xs i.

End JS.

(** ** The calendar of [Date] *)
Module Calendar.

(** ECMAScript's [DayFromYear]: the day number of January 1st of [y],
    counted from 1970-01-01. *)
Definition DayFromYear (y : Z) : Z :=
  365 * (y - 1970) + (y - 1969) / 4 - (y - 1901) / 100 + (y - 1601) / 400.

Definition InLeapYear (y : Z) : bool :=
  (y mod 4 =? 0) && (negb (y mod 100 =? 0) || (y mod 400 =? 0)).

Definition DaysInYear (y : Z) : Z := if InLeapYear y then 366 else 365.

(** Days before the first of month [m] (0-based) within its year. *)
Definition monthStart (leap : bool) (m : Z) : Z :=
  let l := if leap then 1 else 0 in
  match m with
  | 0 => 0 | 1 => 31 | 2 => 59 + l | 3 => 90 + l | 4 => 120 + l
  | 5 => 151 + l | 6 => 181 + l | 7 => 212 + l | 8 => 243 + l
  | 9 => 273 + l | 10 => 304 + l | 11 => 334 + l
  | _ => 365 + l
  end.

(** ECMAScript's [MakeDay]: months and dates out of range carry over. *)
Definition MakeDay (year month date : Z) : Z :=
  let ym := year + month / 12 in
  let mn := month mod 12 in
  DayFromYear ym + monthStart (InLeapYear ym) mn + date - 1.

(** Walk from a candidate year to the year that holds day [d]. *)
Fixpoint settleYear (fuel : nat) (d y : Z) : Z :=
  match fuel with
  | O => y
  | S k =>
      if d <? DayFromYear y then settleYear k d (y - 1)
      else if DayFromYear (y + 1) <=? d then settleYear k d (y + 1)
      else y
  end.

(** ECMAScript's [YearFromTime], on day numbers. *)
Definition YearFromDay (d : Z) : Z :=
  settleYear 4 d (1970 + (d * 10000) / 3652425).

(** ECMAScript's [MonthFromTime] (0-based), on day numbers. *)
Definition MonthFromDay (d : Z) : Z :=
  let y := YearFromDay d in
  let w := d - DayFromYear y in
  let leap := InLeapYear y in
  if w <? monthStart leap 1 then 0
  else if w <? monthStart leap 2 then 1
  else if w <? monthStart leap 3 then 2
  else if w <? monthStart leap 4 then 3
  else if w <? monthStart leap 5 then 4
  else if w <? monthStart leap 6 then 5
  else if w <? monthStart leap 7 then 6
  else if w <? monthStart leap 8 then 7
  else if w <? monthStart leap 9 then 8
  else if w <? monthStart leap 10 then 9
  else if w <? monthStart leap 11 then 10
  else 11.

(** ECMAScript's [DateFromTime], on day numbers. *)
Definition DateFromDay (d : Z) : Z :=
  let y := YearFromDay d in
  d - DayFromYear y - monthStart (InLeapYear y) (MonthFromDay d) + 1.

(** ECMAScript's [WeekDay]: 0 is Sunday; 1970-01-01 was a Thursday. *)
Definition WeekDay (d : Z) : Z := (d + 4) mod 7.

Definition msPerDay : Z := 86400000.

(** [TimeClip]: a time value beyond 8.64e15 ms is [NaN]. *)
Definition TimeClip (t : Z) : option Z :=
  if Z.abs t <=? 8640000000000000 then Some t else None.

(** A [Date]: its local time value in milliseconds, [None] when invalid. *)
Definition Date : Type := option Z.

(** [new Date(year, month, date)], local midnight; a year in [0..99] is
    taken in the 1900s. *)
Definition newDate (year month : option Z) (date : Z) : Date :=
  match year, month with
  | Some y, Some m =>
      let yr := if (0 <=? y) && (y <=? 99) then 1900 + y else y in
      TimeClip (MakeDay yr m date * msPerDay)
  | _, _ => None
  end.

Definition dayOf (t : Z) : Z := t / msPerDay.

Definition getFullYear (d : Date) : option Z := option_map (fun t => YearFromDay (dayOf t)) d.
Definition getMonth (d : Date) : option Z := option_map (fun t => MonthFromDay (dayOf t)) d.
Definition getDate (d : Date) : option Z := option_map (fun t => DateFromDay (dayOf t)) d.
Definition getDay (d : Date) : option Z := option_map (fun t => WeekDay (dayOf t)) d.
Definition getTime (d : Date) : option Z := d.

(** [d.toLocaleString("en-US", {weekday: "short"})]. *)
Definition weekdayShort (d : Date) : string :=
  match getDay d with
  | Some 0 => "Sun" | Some 1 => "Mon" | Some 2 => "Tue" | Some 3 => "Wed"
  | Some 4 => "Thu" | Some 5 => "Fri" | Some 6 => "Sat"
  | _ => "Invalid Date"
  end.

(** [d.toLocaleString("en-US", {weekday: "long"})]. *)
Definition weekdayLong (d : Date) : string :=
  match getDay d with
  | Some 0 => "Sunday" | Some 1 => "Monday" | Some 2 => "Tuesday"
  | Some 3 => "Wednesday" | Some 4 => "Thursday" | Some 5 => "Friday"
  | Some 6 => "Saturday"
  | _ => "Invalid Date"
  end.

(** [new Date(year, monthNum, 0).getDate()]: the source's expression for
    the number of days of the 1-based month [monthNum]. *)
Definition daysInMonth (year monthNum : option Z) : option Z :=
  getDate (newDate year monthNum 0).

(** The Gregorian month lengths, for reference. *)
Definition gregorianLength (y m : Z) : Z :=
  match m with
  | 2 => if InLeapYear y then 29 else 28
  | 4 | 6 | 9 | 11 => 30
  | _ => 31
  end.

End Calendar.

(** ** binary64 arithmetic of the metrics *)
Module Num.

Local Open Scope float_scope.

(** The double nearest to a non-negative integer below [2^63]. *)
Definition ofZ (z : Z) : float := PrimFloat.of_uint63 (Uint63.of_Z z).

(** A finite double as [m * 2^e]. *)
Definition dyadic (f : float) : option (Z * Z) :=
  match Prim2SF f with
  | S754_zero _ => Some (0, 0)%Z
  | S754_finite s m e => Some (if s then Z.neg m else Z.pos m, e)
  | _ => None
  end.

Definition floorD (d : Z * Z) : Z :=
  let '(m, e) := d in
  (if 0 <=? e then m * 2 ^ e else m / 2 ^ (- e))%Z.

(** Round half up, as [Math.round] does. *)
Definition roundD (d : Z * Z) : Z :=
  let '(m, e) := d in
  (if 0 <=? e then m * 2 ^ e else (2 * m + 2 ^ (- e)) / 2 ^ (1 - e))%Z.

(** [x % k] for [x >= 0] and an integer [k > 0]; the remainder is exact. *)
Definition modD (k : Z) (d : Z * Z) : Z * Z :=
  let '(m, e) := d in
  (if 0 <=? e then ((m * 2 ^ e) mod k, 0) else (m mod (k * 2 ^ (- e)), e))%Z.

(** [Math.floor(x)] for a finite [x]. *)
Definition floor (x : float) : Z :=
  match dyadic x with
  | Some d => floorD d
  | None => 0%Z
  end.

(** [Math.round(x)] for a finite [x]. *)
Definition round (x : float) : Z :=
  match dyadic x with
  | Some d => roundD d
  | None => 0%Z
  end.

(** [Math.round(x % 60)] for a finite [x >= 0]. *)
Definition roundMod60 (x : float) : Z :=
  match dyadic x with
  | Some d => roundD (modD 60 d)
  | None => 0%Z
  end.

(** [x % 1] for a finite [0 <= x < 2^53]: the subtraction is exact. *)
Definition frac (x : float) : float := x - ofZ (floor x).

(** [Math.max(x, 0)] for a finite [x]. *)
Definition max0 (x : float) : float := if x <? 0 then 0 else x.

(** The template [`${Math.floor(h)}h ${String(Math.round((h % 1) * 60)).padStart(2, "0")}m`]
    of overtime and total hours, for a duration [h] in hours. *)
Definition formatHours (h : float) : string :=
  JS.showZ (floor h) +:+ "h " +:+ JS.padStart2 (JS.showZ (round (frac h * 60))) +:+ "m".

(** The template [`${Math.floor(m / 60)}h ${String(Math.round(m % 60)).padStart(2, "0")}m`]
    of late and early-out, for a duration [m] in minutes. *)
Definition formatMinutes (m : float) : string :=
  JS.showZ (floor (m / 60)) +:+ "h " +:+ JS.padStart2 (JS.showZ (roundMod60 m)) +:+ "m".

End Num.

(** ** Records of the data model *)

(** [RawDailyRecord]: the fields of a day's record that the calculators read.
    Each may be missing ([{}] is [Raw.empty]). *)
Module Raw.
Record t : Type := mk {
  am_arrival : option string;
  am_departure : option string;
  pm_arrival : option string;
  pm_departure : option string;
  ot_arrival : option string;
  ot_departure : option string;
  late_excel : option string;
  undertime_excel : option string;
  overtime_hours_excel : option string;
  total_hours_excel : option string
}.

Definition empty : t := mk None None None None None None None None None None.
End Raw.

(** [DailyMetrics]: what a calculator returns. *)
Module Daily.
Record t : Type := mk {
  am_arrival : option string;
  am_departure : option string;
  pm_arrival : option string;
  pm_departure : option string;
  ot_arrival : option string;
  ot_departure : option string;
  total_hours : string;
  late : string;
  early_out : string;
  overtime : string;
  remarks : string;
  undertime_hours : string;
  undertime_minutes : string
}.
End Daily.

(** An entry of a [timeCard]. *)
Module Card.
Record t : Type := mk {
  day : Z;
  dateWeekday : string;
  am_arrival : option string;
  am_departure : option string;
  pm_arrival : option string;
  pm_departure : option string;
  ot_arrival : option string;
  ot_departure : option string;
  total_hours : string;
  late : string;
  early_out : string;
  overtime : string;
  remarks : string;
  undertime_hours : string;
  undertime_minutes : string
}.

(** [{day, dateWeekday, ...dailyMetrics}]. *)
Definition ofMetrics (d : Z) (w : string) (m : Daily.t) : t :=
  mk d w (Daily.am_arrival m) (Daily.am_departure m) (Daily.pm_arrival m)
     (Daily.pm_departure m) (Daily.ot_arrival m) (Daily.ot_departure m)
     (Daily.total_hours m) (Daily.late m) (Daily.early_out m) (Daily.overtime m)
     (Daily.remarks m) (Daily.undertime_hours m) (Daily.undertime_minutes m).

(** The entry as a calculator reads it: it has no [*_excel] property. *)
Definition toRaw (c : t) : Raw.t :=
  Raw.mk (am_arrival c) (am_departure c) (pm_arrival c) (pm_departure c)
         (ot_arrival c) (ot_departure c) None None None None.

(** The entry of a day without data. *)
Definition blank (d : Z) (w : string) (uh um : string) : t :=
  mk d w (Some "") (Some "") (Some "") (Some "") (Some "") (Some "")
     "" "" "" "" "" uh um.

(** The test that guards the insertion of a [time_records] row. *)
Definition hasRawTime (c : t) : bool :=
  JS.truthy (am_arrival c) || JS.truthy (am_departure c) ||
  JS.truthy (pm_arrival c) || JS.truthy (pm_departure c) ||
  JS.truthy (ot_arrival c) || JS.truthy (ot_departure c).
End Card.

(** [EmployeeAttendance]. *)
Module Employee.
Record t : Type := mk {
  userId : string;
  name : string;
  department : string;
  month : string;
  attendanceDateRange : string;
  tablingDate : string;
  timeCard : list Card.t
}.

Definition withTimeCard (e : t) (tc : list Card.t) : t :=
  mk (userId e) (name e) (department e) (month e) (attendanceDateRange e)
     (tablingDate e) tc.
End Employee.

(** ** The daily metrics calculators *)
Module Metrics.

(** An undertime half while it is computed: [""] or a label, or a number:
    a double that holds the integer [n], or [Infinity]. *)
Inductive undertime : Type :=
| UStr (s : string)
| UNum (n : Z)
| UInf.

(** [u === ""]. *)
Definition isEmptyStr (u : undertime) : bool :=
  match u with
  | UStr s => String.eqb s ""
  | UNum _ => false
  | UInf => false
  end.

(** [String(u)]. *)
Definition show (u : undertime) : string :=
  match u with
  | UStr s => s
  | UNum n => JS.showDouble n
  | UInf => "Infinity"
  end.

(** [parseInt(digits)] for the integer [n] that the digits denote: the
    nearest double (beyond 20 digits a host may read the rest as zeros). *)
Definition numberOf (n : Z) : undertime :=
  match JS.toDouble n with
  | Some d => UNum d
  | None => UInf
  end.

(** [s.match(/^(\d+):(\d+)$/)]: the integers that the digits of the two
    groups denote. *)
Definition matchHM (s : string) : option (Z * Z) :=
  match JS.leadingDigits s with
  | Some (h, String ":" r) =>
      match JS.leadingDigits r with
      | Some (m, EmptyString) => Some (h, m)
      | _ => None
      end
  | _ => None
  end.

(** A time of the day as the calculators hold it: [null] ([None]) when the
    field is empty, else a [Date] that may be invalid. *)
Definition stamp : Type := option Calendar.Date.

Definition isObject (d : stamp) : bool :=
  match d with
  | Some _ => true
  | None => false
  end.

(** [!isNaN(d)]; [null] counts as the number 0. *)
Definition notNaN (d : stamp) : bool :=
  match d with
  | Some None => false
  | _ => true
  end.

(** [a > b] on time values; false when either is invalid. *)
Definition later (a b : stamp) : bool :=
  match a, b with
  | Some (Some x), Some (Some y) => y <? x
  | _, _ => false
  end.

(** [b.getTime() - a.getTime()] as a double, for [b] later than [a]. *)
Definition elapsed (a b : stamp) : float :=
  match a, b with
  | Some (Some x), Some (Some y) => Num.ofZ (y - x)
  | _, _ => PrimFloat.nan
  end.

(** [(remarks ? remarks + ", " : "") + tag]. *)
Definition addRemark (remarks tag : string) : string :=
  (if String.eqb remarks "" then "" else remarks +:+ ", ") +:+ tag.

Definition nonEmpty (s : string) : bool := negb (String.eqb s "").

Section Calculators.

(** The host's [new Date(string)], as a local time value. *)
Variable parseDate : string -> option Z.

Definition newDateOfString (s : string) : Calendar.Date :=
  match parseDate s with
  | Some t => Calendar.TimeClip t
  | None => None
  end.

(** [`${year}-${String(monthNum).padStart(2, "0")}-${String(day).padStart(2, "0")}`]. *)
Definition dateStringOf (year monthNum : option Z) (day : Z) : string :=
  JS.showNum year +:+ "-" +:+ JS.padStart2 (JS.showNum monthNum) +:+ "-" +:+
  JS.padStart2 (JS.showZ day).

(** [v ? new Date(`${dateString} ${v}`) : null]. *)
Definition timeOf (dateString : string) (v : option string) : stamp :=
  if JS.truthy v then Some (newDateOfString (dateString +:+ " " +:+ JS.orEmpty v))
  else None.

Local Open Scope float_scope.

(** [calculateDailyMetricsFromTimes] of utils.js. *)
Definition calculateDailyMetricsFromTimes
    (record : Raw.t) (year monthNum : option Z) (day : Z) : Daily.t :=
  let amArrival := Raw.am_arrival record in
  let amDeparture := Raw.am_departure record in
  let pmArrival := Raw.pm_arrival record in
  let pmDeparture := Raw.pm_departure record in
  let otArrival := Raw.ot_arrival record in
  let otDeparture := Raw.ot_departure record in
  let late := JS.orEmpty (Raw.late_excel record) in
  let overtime := JS.orEmpty (Raw.overtime_hours_excel record) in
  let totalHours := JS.orEmpty (Raw.total_hours_excel record) in
  let earlyOut := "" in
  let '(undertime_hours, undertime_minutes) :=
    if JS.truthy (Raw.undertime_excel record) then
      match matchHM (JS.orEmpty (Raw.undertime_excel record)) with
      | Some (h, m) => (numberOf h, numberOf m)
      | None => (UStr "", UStr "")
      end
    else (UStr "", UStr "") in
  let hasActualWorkEntries :=
    JS.truthy amArrival || JS.truthy amDeparture || JS.truthy pmArrival ||
    JS.truthy pmDeparture || JS.truthy otArrival || JS.truthy otDeparture in
  let remarks := "" in
  let dateString := dateStringOf year monthNum day in
  let amInTime := timeOf dateString amArrival in
  let amOutTime := timeOf dateString amDeparture in
  let pmInTime := timeOf dateString pmArrival in
  let pmOutTime := timeOf dateString pmDeparture in
  let otInTime := timeOf dateString otArrival in
  let otOutTime := timeOf dateString otDeparture in
  let morningDuration :=
    if isObject amInTime && isObject amOutTime && notNaN amInTime &&
       notNaN amInTime && later amOutTime amInTime
    then elapsed amInTime amOutTime / 3600000 else 0 in
  let afternoonDuration :=
    if isObject pmInTime && isObject pmOutTime && notNaN pmInTime &&
       notNaN pmOutTime && later pmOutTime pmInTime
    then elapsed pmInTime pmOutTime / 3600000 else 0 in
  let overtimeCalculatedDuration :=
    if isObject otInTime && isObject otOutTime && notNaN otInTime &&
       notNaN otOutTime && later otOutTime otInTime
    then elapsed otInTime otOutTime / 3600000 else 0 in
  let totalWorkDurationHours := morningDuration + afternoonDuration in
  let standardStartTime : stamp := Some (newDateOfString (dateString +:+ " 08:00")) in
  let standardEndTime : stamp := Some (newDateOfString (dateString +:+ " 17:00")) in
  let standardDailyHours := 8 in
  let standardWorkMinutes := 480 in
  let date := Calendar.newDate year (option_map (fun m => (m - 1)%Z) monthNum) day in
  let dayOfWeek := Calendar.getDay date in
  let '(undertime_hours, undertime_minutes) :=
    if isEmptyStr undertime_hours || isEmptyStr undertime_minutes then
      if hasActualWorkEntries then
        let workedMinutes := 0 in
        let workedMinutes :=
          if isObject amInTime && isObject amOutTime && notNaN amInTime &&
             notNaN amOutTime && later amOutTime amInTime
          then workedMinutes + elapsed amInTime amOutTime / 60000
          else workedMinutes in
        let workedMinutes :=
          if isObject pmInTime && isObject pmOutTime && notNaN pmInTime &&
             notNaN pmOutTime && later pmOutTime pmInTime
          then workedMinutes + elapsed pmInTime pmOutTime / 60000
          else workedMinutes in
        let calculatedUndertimeMinutes :=
          Num.max0 (standardWorkMinutes - workedMinutes) in
        if 0 <? calculatedUndertimeMinutes then
          (UNum (Num.floor (calculatedUndertimeMinutes / 60)),
           UNum (Num.roundMod60 calculatedUndertimeMinutes))
        else (UStr "", UStr "")
      else
        match dayOfWeek with
        | Some 6%Z => (UStr "Saturday", UStr "Saturday")
        | Some 0%Z => (UStr "Sunday", UStr "Sunday")
        | _ => (UStr "", UStr "")
        end
    else (undertime_hours, undertime_minutes) in
  let '(late, remarks) :=
    if negb (nonEmpty late) && isObject amInTime && notNaN amInTime &&
       later amInTime standardStartTime then
      let lateMinutes := elapsed standardStartTime amInTime / 60000 in
      (Num.formatMinutes lateMinutes, addRemark remarks "Late")
    else (late, remarks) in
  let '(earlyOut, remarks) :=
    if negb (nonEmpty earlyOut) && isObject pmOutTime && notNaN pmOutTime &&
       later standardEndTime pmOutTime then
      let earlyOutMinutes := elapsed pmOutTime standardEndTime / 60000 in
      (Num.formatMinutes earlyOutMinutes, addRemark remarks "Early Out")
    else (earlyOut, remarks) in
  let '(overtime, remarks) :=
    if negb (nonEmpty overtime) then
      let totalWorkHoursForOTCalc := totalWorkDurationHours + overtimeCalculatedDuration in
      if standardDailyHours <? totalWorkHoursForOTCalc then
        let otCalculated := totalWorkHoursForOTCalc - standardDailyHours in
        (Num.formatHours otCalculated, addRemark remarks "Overtime")
      else ("", remarks)
    else (overtime, remarks) in
  let totalHours :=
    if negb (nonEmpty totalHours) && hasActualWorkEntries &&
       (0 <? totalWorkDurationHours + overtimeCalculatedDuration) then
      let totalWorkHoursIncludingOT := totalWorkDurationHours + overtimeCalculatedDuration in
      Num.formatHours totalWorkHoursIncludingOT
    else if negb (nonEmpty totalHours) then ""
    else totalHours in
  Daily.mk amArrival amDeparture pmArrival pmDeparture otArrival otDeparture
           totalHours late earlyOut overtime remarks
           (show undertime_hours) (show undertime_minutes).

(** [calculateDailyMetricsFromTimesForSimpleParser] of
    biometricParserSimple.js. *)
Definition calculateDailyMetricsFromTimesForSimpleParser
    (record : Raw.t) (year monthNum : option Z) (day : Z) : Daily.t :=
  let amArrival := Raw.am_arrival record in
  let amDeparture := Raw.am_departure record in
  let pmArrival := Raw.pm_arrival record in
  let pmDeparture := Raw.pm_departure record in
  let otArrival := Raw.ot_arrival record in
  let otDeparture := Raw.ot_departure record in
  let late := JS.orEmpty (Raw.late_excel record) in
  let overtime := JS.orEmpty (Raw.overtime_hours_excel record) in
  let totalHours := JS.orEmpty (Raw.total_hours_excel record) in
  let earlyOut := "" in
  let '(undertime_hours, undertime_minutes) :=
    if JS.truthy (Raw.undertime_excel record) then
      match matchHM (JS.orEmpty (Raw.undertime_excel record)) with
      | Some (h, m) => (numberOf h, numberOf m)
      | None => (UStr "", UStr "")
      end
    else (UStr "", UStr "") in
  let hasActualWorkEntries :=
    JS.truthy amArrival || JS.truthy amDeparture || JS.truthy pmArrival ||
    JS.truthy pmDeparture || JS.truthy otArrival || JS.truthy otDeparture in
  let remarks := "" in
  let dateString := dateStringOf year monthNum day in
  let amInTime := timeOf dateString amArrival in
  let amOutTime := timeOf dateString amDeparture in
  let pmInTime := timeOf dateString pmArrival in
  let pmOutTime := timeOf dateString pmDeparture in
  let otInTime := timeOf dateString otArrival in
  let otOutTime := timeOf dateString otDeparture in
  let morningDuration :=
    if isObject amInTime && isObject amOutTime && notNaN amInTime &&
       notNaN amOutTime && later amOutTime amInTime
    then elapsed amInTime amOutTime / 3600000 else 0 in
  let afternoonDuration :=
    if isObject pmInTime && isObject pmOutTime && notNaN pmInTime &&
       notNaN pmOutTime && later pmOutTime pmInTime
    then elapsed pmInTime pmOutTime / 3600000 else 0 in
  let overtimeCalculatedDuration :=
    if isObject otInTime && isObject otOutTime && notNaN otInTime &&
       notNaN otOutTime && later otOutTime otInTime
    then elapsed otInTime otOutTime / 3600000 else 0 in
  let totalWorkDurationHours := morningDuration + afternoonDuration in
  let standardStartTime : stamp := Some (newDateOfString (dateString +:+ " 08:00")) in
  let standardEndTime : stamp := Some (newDateOfString (dateString +:+ " 17:00")) in
  let standardDailyHours := 8 in
  let standardWorkMinutes := 480 in
  let date := Calendar.newDate year (option_map (fun m => (m - 1)%Z) monthNum) day in
  let dayOfWeek := Calendar.getDay date in
  let isSunday := match dayOfWeek with Some 0%Z => true | _ => false end in
  let isSaturday := match dayOfWeek with Some 6%Z => true | _ => false end in
  let '(undertime_hours, undertime_minutes) :=
    if (isEmptyStr undertime_hours || isEmptyStr undertime_minutes) &&
       negb isSunday && negb isSaturday then
      if hasActualWorkEntries then
        let workedMinutes := 0 in
        let workedMinutes :=
          if isObject amInTime && isObject amOutTime && notNaN amInTime &&
             notNaN amOutTime && later amOutTime amInTime
          then workedMinutes + elapsed amInTime amOutTime / 60000
          else workedMinutes in
        let workedMinutes :=
          if isObject pmInTime && isObject pmOutTime && notNaN pmInTime &&
             notNaN pmInTime && later pmOutTime pmInTime
          then workedMinutes + elapsed pmInTime pmOutTime / 60000
          else workedMinutes in
        let calculatedUndertimeMinutes :=
          Num.max0 (standardWorkMinutes - workedMinutes) in
        if 0 <? calculatedUndertimeMinutes then
          (UNum (Num.floor (calculatedUndertimeMinutes / 60)),
           UNum (Num.roundMod60 calculatedUndertimeMinutes))
        else (UStr "", UStr "")
      else (UStr "", UStr "")
    else if isSunday || isSaturday then (UStr "", UStr "")
    else (undertime_hours, undertime_minutes) in
  let '(late, remarks) :=
    if negb (nonEmpty late) && isObject amInTime && notNaN amInTime &&
       later amInTime standardStartTime then
      let lateMinutes := elapsed standardStartTime amInTime / 60000 in
      (Num.formatMinutes lateMinutes, addRemark remarks "Late")
    else (late, remarks) in
  let '(earlyOut, remarks) :=
    if negb (nonEmpty earlyOut) && isObject pmOutTime && notNaN pmOutTime &&
       later standardEndTime pmOutTime then
      let earlyOutMinutes := elapsed pmOutTime standardEndTime / 60000 in
      (Num.formatMinutes earlyOutMinutes, addRemark remarks "Early Out")
    else (earlyOut, remarks) in
  let '(overtime, remarks) :=
    if negb (nonEmpty overtime) then
      let totalWorkHoursForOTCalc := totalWorkDurationHours + overtimeCalculatedDuration in
      if standardDailyHours <? totalWorkHoursForOTCalc then
        let otCalculated := totalWorkHoursForOTCalc - standardDailyHours in
        (Num.formatHours otCalculated, addRemark remarks "Overtime")
      else ("", remarks)
    else (overtime, remarks) in
  let totalHours :=
    if negb (nonEmpty totalHours) && hasActualWorkEntries &&
       (0 <? totalWorkDurationHours + overtimeCalculatedDuration) then
      let totalWorkHoursIncludingOT := totalWorkDurationHours + overtimeCalculatedDuration in
      Num.formatHours totalWorkHoursIncludingOT
    else if negb (nonEmpty totalHours) then ""
    else totalHours in
  Daily.mk amArrival amDeparture pmArrival pmDeparture otArrival otDeparture
           totalHours late earlyOut overtime remarks
           (show undertime_hours) (show undertime_minutes).

End Calculators.

(** A reading of ["YYYY-MM-DD HH:MM"] as the local time it names, the
    format in which the calculators build their arguments (a day beyond the
    month's last carries over, as in [MakeDay]); any other text is an
    invalid date.  It stands for the host's parser in the examples. *)
Definition twoDigits (s : string) : option (Z * string) :=
  match s with
  | String a (String b r) =>
      if JS.isDigit a && JS.isDigit b then Some (10 * JS.digitVal a + JS.digitVal b, r)
      else None
  | _ => None
  end.

Definition clockParser (s : string) : option Z :=
  match JS.leadingDigits s with
  | Some (y, String "-" r1) =>
      match twoDigits r1 with
      | Some (mo, String "-" r2) =>
          match twoDigits r2 with
          | Some (d, String " " r3) =>
              match twoDigits r3 with
              | Some (h, String ":" r4) =>
                  match twoDigits r4 with
                  | Some (mi, EmptyString) =>
                      if (1 <=? mo) && (mo <=? 12) && (1 <=? d) && (d <=? 31) &&
                         (h <=? 23) && (mi <=? 59)
                      then Some (Calendar.MakeDay y (mo - 1) d * Calendar.msPerDay
                                 + (h * 60 + mi) * 60000)
                      else None
                  | _ => None
                  end
              | _ => None
              end
          | _ => None
          end
      | _ => None
      end
  | _ => None
  end.

End Metrics.

(** ** Worksheets *)
Module Xlsx.

(** The value [v] of a cell: a string or a number (an integer here). *)
Inductive value : Type :=
| VStr (s : string)
| VNum (n : Z).

Record coord : Type := Coord { r : Z; c : Z }.
Record range : Type := Range { s : coord; e : coord }.

(** A worksheet: its used range [!ref] (missing on an empty sheet), its
    cells by (row, column), 0-based, and its merged ranges [!merges]. *)
Record Sheet : Type := mkSheet {
  ref : option range;
  cells : gmap (Z * Z) value;
  merges : list range
}.

(** [sheet[encode_cell({r, c})]?.v]. *)
Definition cellAt (sheet : Sheet) (row col : Z) : option value :=
  cells sheet !! (row, col).

(** [typeof v === "string"]. *)
Definition isString (v : option value) : bool :=
  match v with
  | Some (VStr _) => true
  | _ => false
  end.

(** [String(v)]. *)
Definition toStr (v : value) : string :=
  match v with
  | VStr x => x
  | VNum n => JS.showZ n
  end.

Definition truthy (v : option value) : bool :=
  match v with
  | Some (VStr x) => negb (String.eqb x "")
  | Some (VNum n) => negb (n =? 0)
  | None => false
  end.

(** [String(v || "")]. *)
Definition strOrEmpty (v : option value) : string :=
  match v with
  | Some x => if truthy v then toStr x else ""
  | None => ""
  end.

(** The cells of a range in row-major order, as the nested [for] loops
    visit them. *)
Definition cellsIn (rg : range) : list coord :=
  List.flat_map
    (fun row => List.map (fun col => Coord row col)
                  (seqZ (c (s rg)) (c (e rg) - c (s rg) + 1)))
    (seqZ (r (s rg)) (r (e rg) - r (s rg) + 1)).

Definition inRange (rg : range) (p : coord) : bool :=
  (r (s rg) <=? r p) && (r p <=? r (e rg)) && (c (s rg) <=? c p) && (c p <=? c (e rg)).

End Xlsx.

(** ** The block-format parser of utils.js *)
Module Block.
Import Xlsx.

Definition GLOBAL_DATE_RANGE_TEXT : string := "Date".
Definition TABLING_DATE_TEXT : string := "Tabling date:".

Module HEADER_NAMES.
Definition DEPARTMENT : string := "Dept.".
Definition NAME : string := "Name".
Definition USER_ID : string := "User ID".
Definition DAY : string := "Date/Weekday".
Definition AM_IN_OUT : string := "In".
Definition PM_IN_OUT : string := "Out".
Definition OT_IN_OUT : string := "In".
End HEADER_NAMES.

Module RELATIVE_OFFSETS.
Definition AM_IN : Z := 1.
Definition AM_OUT : Z := 3.
Definition PM_IN : Z := 6.
Definition PM_OUT : Z := 8.
Definition OT_IN : Z := 10.
Definition OT_OUT : Z := 12.
Definition LATE : Z := 13.
Definition UNDERTIME : Z := 14.
Definition OVERTIME_HOURS : Z := 19.
Definition TOTAL_HOURS : Z := 20.
End RELATIVE_OFFSETS.

Definition HEADER_SEARCH_START_ROW : Z := 0.
Definition HEADER_SEARCH_END_ROW : Z := 100.

(** The rest of [x] after the prefix [p]. *)
Fixpoint dropPrefix (p x : string) : option string :=
  match p, x with
  | EmptyString, _ => Some x
  | String a p', String b x' => if Ascii.eqb a b then dropPrefix p' x' else None
  | String _ _, EmptyString => None
  end.

(** [/^date([\s\r\n]*\/[\s\r\n]*weekday)?$/i]. *)
Definition dayAnchorRegex (x : string) : bool :=
  match dropPrefix "date" (JS.toLowerCase x) with
  | Some EmptyString => true
  | Some rest =>
      match JS.trimStart rest with
      | String "/" rest' => String.eqb (JS.trimStart rest') "weekday"
      | _ => false
      end
  | None => false
  end.

(** [new RegExp("^" + escaped(label) + "$", "i")] for a label of letters,
    digits, spaces, dots and colons: the escaped pattern is the label
    itself, letter case apart. *)
Definition exactRegex (label x : string) : bool :=
  String.eqb (JS.toLowerCase label) (JS.toLowerCase x).

(** [new RegExp("^" + escaped(label), "i")]. *)
Definition prefixRegex (label x : string) : bool :=
  JS.startsWith (JS.toLowerCase label) (JS.toLowerCase x).

(** The pattern that [findAllCellsByValue] builds for [value]. *)
Definition regexFor (value : string) : string -> bool :=
  let lowerCaseSearchValue := JS.toLowerCase (JS.trim value) in
  if String.eqb value HEADER_NAMES.DAY then dayAnchorRegex
  else if String.eqb value GLOBAL_DATE_RANGE_TEXT || String.eqb value TABLING_DATE_TEXT
  then prefixRegex lowerCaseSearchValue
  else exactRegex lowerCaseSearchValue.

(** [findAllCellsByValue]. *)
Definition findAllCellsByValue (sheet : Sheet) (value : string) (searchRange : range)
    : list coord :=
  let regexValue := regexFor value in
  List.filter
    (fun p =>
       let cellValue := cellAt sheet (r p) (c p) in
       match cellValue with
       | None => false
       | Some x =>
           if String.eqb (JS.trim (toStr x)) "" then false
           else
             let cellValueToTest := JS.toLowerCase (JS.trim (toStr x)) in
             isString cellValue && regexValue cellValueToTest
       end)
    (cellsIn searchRange).

(** The test that [findCellByValue] applies to a cell. *)
Definition cellMatches (sheet : Sheet) (value : string) (p : coord) : bool :=
  let cell := cellAt sheet (r p) (c p) in
  let cellValueToTest := JS.toLowerCase (JS.trim (strOrEmpty cell)) in
  isString cell && exactRegex (JS.toLowerCase (JS.trim value)) cellValueToTest.

(** [findCellByValue]: the merged ranges first, then cell by cell. *)
Definition findCellByValue (sheet : Sheet) (value : string) (searchRange : range)
    : option coord :=
  match List.find (fun merge => inRange searchRange (s merge) && cellMatches sheet value (s merge))
                  (merges sheet) with
  | Some merge => Some (s merge)
  | None => List.find (cellMatches sheet value) (cellsIn searchRange)
  end.

(** [x] has the shape of [pat], where [d] in [pat] stands for a digit and
    any other character for itself. *)
Fixpoint hasShape (pat x : string) : bool :=
  match pat, x with
  | EmptyString, EmptyString => true
  | String p pat', String a x' =>
      (if Ascii.eqb p "d" then JS.isDigit a else Ascii.eqb p a) && hasShape pat' x'
  | _, _ => false
  end.

(** Zero-padding of a non-negative number to [n] digits. *)
Definition padZeros (n : nat) (x : string) : string :=
  String.concat "" (List.repeat "0" (n - String.length x)) +:+ x.

(** [new Date(t).toISOString().split("T")[0]] for a valid time value [t]. *)
Definition isoDate (t : Z) : string :=
  let d := Calendar.dayOf t in
  let y := Calendar.YearFromDay d in
  let year :=
    if (0 <=? y) && (y <=? 9999) then padZeros 4 (JS.showZ y)
    else (if y <? 0 then "-" else "+") +:+ padZeros 6 (JS.showZ (Z.abs y)) in
  year +:+ "-" +:+ JS.padStart2 (JS.showZ (Calendar.MonthFromDay d + 1)) +:+ "-" +:+
  JS.padStart2 (JS.showZ (Calendar.DateFromDay d)).

(** [set.add(x)] on a [Set] kept in insertion order. *)
Definition setAdd (x : Z) (set : list Z) : list Z :=
  if List.existsb (Z.eqb x) set then set else (set ++ [x])%list.

Section Parser.

(** The host's [new Date(string)], the calendar month of [new Date()]
    (year and 0-based month), and [getTimezoneOffset()] in minutes. *)
Variable parseDate : string -> option Z.
Variable todayYear todayMonth : Z.
Variable timezoneOffset : Z.

(** [parseExcelDate] on a number: the time value of the result. *)
Definition parseExcelDate (excelDate : Z) : option Z :=
  match Calendar.TimeClip ((excelDate - 25569) * 86400 * 1000) with
  | Some t =>
      let offsetMs := timezoneOffset * 60 * 1000 in
      Calendar.TimeClip (t + offsetMs)
  | None => None
  end.

Definition globalHeaderSearchRange (sheetFullRange : range) : range :=
  Range (Coord 0 0) (Coord HEADER_SEARCH_END_ROW (c (e sheetFullRange))).

Definition attendanceDateRangeOf (sheet : Sheet) (sheetFullRange : range) : string :=
  match findAllCellsByValue sheet GLOBAL_DATE_RANGE_TEXT
          (globalHeaderSearchRange sheetFullRange) with
  | loc :: _ => JS.trim (strOrEmpty (cellAt sheet (r loc) (c loc + 1)))
  | [] => ""
  end.

(** The tabling date; [None] when [toISOString] throws on an invalid date. *)
Definition tablingDateOf (sheet : Sheet) (sheetFullRange : range) : option string :=
  match findAllCellsByValue sheet TABLING_DATE_TEXT
          (globalHeaderSearchRange sheetFullRange) with
  | loc :: _ =>
      match cellAt sheet (r loc) (c loc + 1) with
      | Some (VNum n) => option_map isoDate (parseExcelDate n)
      | tablingDateRaw => Some (JS.trim (strOrEmpty tablingDateRaw))
      end
  | [] => Some ""
  end.

(** The month of the report: the head of a [YYYY-MM-DD~YYYY-MM-DD] range,
    or else the current month. *)
Definition reportMonthOf (attendanceDateRange : string) : string :=
  if hasShape "dddd-dd-dd~dddd-dd-dd" attendanceDateRange
  then String.substring 0 7 attendanceDateRange
  else JS.showZ todayYear +:+ "-" +:+ JS.padStart2 (JS.showZ (todayMonth + 1)).

Definition dayHeaderSearchRange (sheetFullRange : range) : range :=
  Range (Coord HEADER_SEARCH_START_ROW 0)
        (Coord (r (e sheetFullRange)) (c (e sheetFullRange))).

Definition dayHeaderLocations (sheet : Sheet) (sheetFullRange : range) : list coord :=
  findAllCellsByValue sheet HEADER_NAMES.DAY (dayHeaderSearchRange sheetFullRange).

Definition discoveredDayColumnIndices (locs : list coord) : list Z :=
  fold_left (fun set loc => setAdd (c loc) set) locs [].

Definition maxDayHeaderRowOf (locs : list coord) : Z :=
  fold_left (fun maxDayHeaderRow loc =>
               if maxDayHeaderRow <? r loc then r loc else maxDayHeaderRow)
            locs (-1).

(** [Array.from(set).sort((a, b) => a - b)]. *)
Definition sortedDayColumnIndices (locs : list coord) : list Z :=
  merge_sort Z.le (discoveredDayColumnIndices locs).

Definition nextBlockDayColIndex (sorted : list Z) (index : nat) (sheetFullRange : range) : Z :=
  match sorted !! S index with
  | Some col => col
  | None => c (e sheetFullRange) + 1
  end.

Definition blockHeaderSearchRange (dayColIndex next : Z) : range :=
  Range (Coord HEADER_SEARCH_START_ROW dayColIndex)
        (Coord HEADER_SEARCH_END_ROW (next - 1)).

(** The value next to a header cell, or [""] when the header is not found. *)
Definition headerValue (sheet : Sheet) (label : string) (searchRange : range) : string :=
  match findCellByValue sheet label searchRange with
  | Some loc => JS.trim (strOrEmpty (cellAt sheet (r loc) (c loc + 1)))
  | None => ""
  end.

Definition timecardDataStartRowOf (sheet : Sheet) (maxDayHeaderRow dayColIndex next : Z) : Z :=
  let subHeaderSearchRange :=
    Range (Coord maxDayHeaderRow dayColIndex) (Coord (maxDayHeaderRow + 5) (next - 1)) in
  let inHeaders := findAllCellsByValue sheet HEADER_NAMES.AM_IN_OUT subHeaderSearchRange in
  let outHeaders := findAllCellsByValue sheet HEADER_NAMES.PM_IN_OUT subHeaderSearchRange in
  let allSubHeaders := (inHeaders ++ outHeaders)%list in
  match allSubHeaders with
  | [] => maxDayHeaderRow + 2
  | _ => fold_left (fun maxRow cell => Z.max maxRow (r cell)) allSubHeaders (-1) + 1
  end.

(** [parseInt(x)] of a part that may be missing. *)
Definition parseIntOf (x : option string) : option Z :=
  match x with
  | Some y => JS.parseInt y
  | None => None
  end.

Definition yearOf (month : string) : option Z := parseIntOf (JS.split "-" month !! 0%nat).
Definition monthNumOf (month : string) : option Z := parseIntOf (JS.split "-" month !! 1%nat).

(** The text of the cell at a fixed offset from the day column. *)
Definition fieldAt (sheet : Sheet) (R dayColIndex offset : Z) : string :=
  JS.trim (strOrEmpty (cellAt sheet R (dayColIndex + offset))).

(** The loop over the data rows of a block; it stops at the first empty
    day cell below the first data row. *)
Fixpoint readRows (sheet : Sheet) (reportMonth : string)
    (timecardDataStartRow dayColIndex : Z) (rows : list Z)
    (dailyExcelRecords : gmap Z Raw.t) : gmap Z Raw.t :=
  match rows with
  | [] => dailyExcelRecords
  | R :: rest =>
      let dateWeekdayRaw := cellAt sheet R dayColIndex in
      if negb (truthy dateWeekdayRaw) && (timecardDataStartRow <? R)
      then dailyExcelRecords
      else
        let day : option Z :=
          if truthy dateWeekdayRaw then
            match dateWeekdayRaw with
            | Some (VStr x) => option_map fst (JS.leadingDigits x)
            | Some (VNum n) => Some n
            | None => None
            end
          else None in
        let limit := Calendar.daysInMonth (yearOf reportMonth) (monthNumOf reportMonth) in
        let valid :=
          match day, limit with
          | Some d, Some n => (1 <=? d) && (d <=? n)
          | _, _ => false
          end in
        let records :=
          match day with
          | Some d =>
              if valid then
                <[ d := Raw.mk
                     (Some (fieldAt sheet R dayColIndex RELATIVE_OFFSETS.AM_IN))
                     (Some (fieldAt sheet R dayColIndex RELATIVE_OFFSETS.AM_OUT))
                     (Some (fieldAt sheet R dayColIndex RELATIVE_OFFSETS.PM_IN))
                     (Some (fieldAt sheet R dayColIndex RELATIVE_OFFSETS.PM_OUT))
                     (Some (fieldAt sheet R dayColIndex RELATIVE_OFFSETS.OT_IN))
                     (Some (fieldAt sheet R dayColIndex RELATIVE_OFFSETS.OT_OUT))
                     (Some (fieldAt sheet R dayColIndex RELATIVE_OFFSETS.LATE))
                     (Some (fieldAt sheet R dayColIndex RELATIVE_OFFSETS.UNDERTIME))
                     (Some (fieldAt sheet R dayColIndex RELATIVE_OFFSETS.OVERTIME_HOURS))
                     (Some (fieldAt sheet R dayColIndex RELATIVE_OFFSETS.TOTAL_HOURS)) ]>
                  dailyExcelRecords
              else dailyExcelRecords
          | None => dailyExcelRecords
          end in
        readRows sheet reportMonth timecardDataStartRow dayColIndex rest records
  end.

(** The days [1..daysInMonth] of the loop that builds a time card; none
    when [daysInMonth] is [NaN]. *)
Definition daysOf (daysInMonth : option Z) : list Z :=
  match daysInMonth with
  | Some n => seqZ 1 n
  | None => []
  end.

(** [`${String(day).padStart(2, "0")} ${weekday}`]. *)
Definition formatDateWeekday (year monthNum : option Z) (day : Z) : string :=
  JS.padStart2 (JS.showZ day) +:+ " " +:+
  Calendar.weekdayShort (Calendar.newDate year (option_map (fun m => m - 1) monthNum) day).

Definition buildTimeCard (month : string) (dailyExcelRecords : gmap Z Raw.t) : list Card.t :=
  let year := yearOf month in
  let monthNum := monthNumOf month in
  let daysInMonth := Calendar.daysInMonth year monthNum in
  List.map
    (fun day =>
       let excelRecord := default Raw.empty (dailyExcelRecords !! day) in
       let dailyMetrics :=
         Metrics.calculateDailyMetricsFromTimes parseDate excelRecord year monthNum day in
       Card.ofMetrics day (formatDateWeekday year monthNum day) dailyMetrics)
    (daysOf daysInMonth).

(** The body of the loop over the blocks: the employee of the block, or
    [None] when the block is skipped. *)
Definition processBlock (sheet : Sheet) (sheetFullRange : range)
    (attendanceDateRange tablingDate reportMonth : string) (maxDayHeaderRow : Z)
    (sorted : list Z) (index : nat) (dayColIndex : Z) : option Employee.t :=
  let next := nextBlockDayColIndex sorted index sheetFullRange in
  let searchRange := blockHeaderSearchRange dayColIndex next in
  let name := headerValue sheet HEADER_NAMES.NAME searchRange in
  let userId := headerValue sheet HEADER_NAMES.USER_ID searchRange in
  let department := headerValue sheet HEADER_NAMES.DEPARTMENT searchRange in
  if String.eqb name "" || String.eqb userId "" then None
  else
    let timecardDataStartRow :=
      timecardDataStartRowOf sheet maxDayHeaderRow dayColIndex next in
    let dailyExcelRecords :=
      readRows sheet reportMonth timecardDataStartRow dayColIndex
        (seqZ timecardDataStartRow (r (e sheetFullRange) - timecardDataStartRow + 1)) ∅ in
    Some (Employee.mk userId name department reportMonth attendanceDateRange
            tablingDate (buildTimeCard reportMonth dailyExcelRecords)).

(** The [forEach] over the sorted day columns, pushing onto
    [parsedEmployees]. *)
Definition processBlocks (sheet : Sheet) (sheetFullRange : range)
    (attendanceDateRange tablingDate reportMonth : string) (maxDayHeaderRow : Z)
    (sorted : list Z) : list Employee.t :=
  fold_left
    (fun parsedEmployees '(index, dayColIndex) =>
       match processBlock sheet sheetFullRange attendanceDateRange tablingDate
               reportMonth maxDayHeaderRow sorted index dayColIndex with
       | Some employeeData => (parsedEmployees ++ [employeeData])%list
       | None => parsedEmployees
       end)
    (imap pair sorted) [].

(** [parseSingleEmployeeAttendanceSheet]; [None] when it throws. *)
Definition parseSingleEmployeeAttendanceSheet (sheet : Sheet) : option (list Employee.t) :=
  match ref sheet with
  | None => None
  | Some sheetFullRange =>
      let attendanceDateRange := attendanceDateRangeOf sheet sheetFullRange in
      match tablingDateOf sheet sheetFullRange with
      | None => None
      | Some tablingDate =>
          let reportMonth := reportMonthOf attendanceDateRange in
          let locs := dayHeaderLocations sheet sheetFullRange in
          if (length locs =? 0)%nat then Some []
          else
            let maxDayHeaderRow := maxDayHeaderRowOf locs in
            let sorted := sortedDayColumnIndices locs in
            if (length sorted =? 0)%nat then Some []
            else Some (processBlocks sheet sheetFullRange attendanceDateRange
                         tablingDate reportMonth maxDayHeaderRow sorted)
      end
  end.

(** The column spans of the blocks that the loop visits: for each sorted
    day column, the columns of its [blockHeaderSearchRange]. *)
Definition blockSpans (sheet : Sheet) (sheetFullRange : range) : list (Z * Z) :=
  let sorted := sortedDayColumnIndices (dayHeaderLocations sheet sheetFullRange) in
  imap (fun index dayColIndex =>
          let rg := blockHeaderSearchRange dayColIndex
                      (nextBlockDayColIndex sorted index sheetFullRange) in
          (c (s rg), c (e rg)))
       sorted.

End Parser.

End Block.

(** ** The simple-format parser of biometricParserSimple.js *)
Module Simple.

(** The [Date] column of a row: a text, or a [Date] object. *)
Inductive dateCell : Type :=
| DText (x : string)
| DDate (d : Calendar.Date).

(** A row as the spreadsheet library's [sheet_to_json] returns it: an
    object keyed by the header texts. *)
Record Row : Type := mkRow {
  Name : option string;
  Date : option dateCell;
  Timetable : option string;
  ClockIn : option string;
  ClockOut : option string
}.

(** [parseDdMmYyyyDateString]: [None] is [null]. *)
Definition parseDdMmYyyyDateString (dateString : string) : option Z :=
  match JS.split "/" dateString with
  | [p0; p1; p2] =>
      match JS.parseInt10 p0, JS.parseInt10 p1, JS.parseInt10 p2 with
      | Some day, Some month, Some year =>
          if (1 <=? month) && (month <=? 12) && (1 <=? day) && (day <=? 31) &&
             (1900 <=? year) && (year <=? 2100) then
            let date := Calendar.newDate (Some year) (Some (month - 1)) day in
            match date, Calendar.getFullYear date, Calendar.getMonth date,
                  Calendar.getDate date with
            | Some t, Some y, Some m, Some d =>
                if (y =? year) && (m + 1 =? month) && (d =? day) then Some t else None
            | _, _, _, _ => None
            end
          else None
      | _, _, _ => None
      end
  | _ => None
  end.

(** A [Map] with string keys, in insertion order. *)
Definition mapHas {A : Type} (key : string) (m : list (string * A)) : bool :=
  List.existsb (fun kv => String.eqb (fst kv) key) m.

Definition mapSet {A : Type} (key : string) (x : A) (m : list (string * A))
    : list (string * A) :=
  if mapHas key m
  then List.map (fun kv => if String.eqb (fst kv) key then (key, x) else kv) m
  else (m ++ [(key, x)])%list.

(** A change made in place to the object stored under [key]. *)
Definition mapUpdate {A : Type} (key : string) (f : A -> A) (m : list (string * A))
    : list (string * A) :=
  List.map (fun kv => if String.eqb (fst kv) key then (fst kv, f (snd kv)) else kv) m.

Definition mapValues {A : Type} (m : list (string * A)) : list A := List.map snd m.

Definition formatDateWeekday (year monthNum : option Z) (day : Z) : string :=
  JS.padStart2 (JS.showZ day) +:+ " " +:+
  Calendar.weekdayShort (Calendar.newDate year (option_map (fun m => m - 1) monthNum) day).

(** [Array(31).fill(null).map((_, idx) => ...)]. *)
Definition initialTimeCard (year monthNum : option Z) : list Card.t :=
  List.map
    (fun idx => Card.blank (idx + 1) (formatDateWeekday year monthNum (idx + 1)) "" "")
    (seqZ 0 31).

(** The assignment of a row's clock times to its day's record. *)
Definition setClock (timetable clockIn clockOut : string) (record : Card.t) : Card.t :=
  if String.eqb timetable "AM" then
    Card.mk (Card.day record) (Card.dateWeekday record) (Some clockIn) (Some clockOut)
      (Card.pm_arrival record) (Card.pm_departure record) (Card.ot_arrival record)
      (Card.ot_departure record) (Card.total_hours record) (Card.late record)
      (Card.early_out record) (Card.overtime record) (Card.remarks record)
      (Card.undertime_hours record) (Card.undertime_minutes record)
  else if String.eqb timetable "PM" then
    Card.mk (Card.day record) (Card.dateWeekday record) (Card.am_arrival record)
      (Card.am_departure record) (Some clockIn) (Some clockOut) (Card.ot_arrival record)
      (Card.ot_departure record) (Card.total_hours record) (Card.late record)
      (Card.early_out record) (Card.overtime record) (Card.remarks record)
      (Card.undertime_hours record) (Card.undertime_minutes record)
  else record.

Section Parser.

(** The host's [new Date(string)]. *)
Variable parseDate : string -> option Z.

(** The date of a row; [None] when the row is skipped for its date. *)
Definition rowDate (dateValue : dateCell) : option Calendar.Date :=
  match dateValue with
  | DDate d => Some d
  | DText x =>
      let dateStrForLogging := JS.trim x in
      match parseDdMmYyyyDateString dateStrForLogging with
      | Some t => Some (Some t)
      | None =>
          match Metrics.newDateOfString parseDate dateStrForLogging with
          | Some t => Some (Some t)
          | None => None
          end
      end
  end.

(** The part of the loop's body that follows the check of the essential
    fields: the row is filed under its employee and month. *)
Definition fileRow (employeeMap : list (string * Employee.t))
    (name timetable clockIn clockOut : string) (dateValue : dateCell)
    : list (string * Employee.t) :=
  match rowDate dateValue with
  | None => employeeMap
  | Some date =>
      let year := Calendar.getFullYear date in
      let monthNum := option_map (fun m => m + 1) (Calendar.getMonth date) in
      let month := JS.padStart2 (JS.showNum monthNum) in
      let day := Calendar.getDate date in
      let key := name +:+ "-" +:+ JS.showNum year +:+ "-" +:+ month in
      let employeeMap :=
        if negb (mapHas key employeeMap) then
          mapSet key
            (Employee.mk name name "" (JS.showNum year +:+ "-" +:+ month) "" ""
               (initialTimeCard year monthNum))
            employeeMap
        else employeeMap in
      match day with
      | Some d =>
          mapUpdate key
            (fun employeeData =>
               if (1 <=? d) && (d <=? Z.of_nat (length (Employee.timeCard employeeData)))
               then Employee.withTimeCard employeeData
                      (alter (setClock timetable clockIn clockOut) (Z.to_nat (d - 1))
                         (Employee.timeCard employeeData))
               else employeeData)
            employeeMap
      | None => employeeMap
      end
  end.

(** The body of the loop over the rows. *)
Definition processRow (employeeMap : list (string * Employee.t)) (row : Row)
    : list (string * Employee.t) :=
  let name := JS.trim (JS.orEmpty (Name row)) in
  let timetable := JS.toUpperCase (JS.trim (JS.orEmpty (Timetable row))) in
  let clockIn := JS.trim (JS.orEmpty (ClockIn row)) in
  let clockOut := JS.trim (JS.orEmpty (ClockOut row)) in
  match Date row with
  | None => employeeMap
  | Some (DText "") => employeeMap
  | Some dateValue =>
      if String.eqb name "" || String.eqb timetable "" then employeeMap
      else fileRow employeeMap name timetable clockIn clockOut dateValue
  end.

(** The metrics of every slot of an employee's time card. *)
Definition withMetrics (employee : Employee.t) : Employee.t :=
  let parts := JS.split "-" (Employee.month employee) in
  let year := Block.parseIntOf (parts !! 0%nat) in
  let monthNum := Block.parseIntOf (parts !! 1%nat) in
  Employee.withTimeCard employee
    (List.map
       (fun record =>
          let day := Card.day record in
          let dateWeekday := Card.dateWeekday record in
          let calculatedMetrics :=
            Metrics.calculateDailyMetricsFromTimesForSimpleParser parseDate
              (Card.toRaw record) year monthNum day in
          Card.ofMetrics day dateWeekday calculatedMetrics)
       (Employee.timeCard employee)).

(** [parseSimpleBiometric], on the rows of the first sheet. *)
Definition parseSimpleBiometric (rows : list Row) : list Employee.t :=
  let employeeMap := fold_left processRow rows [] in
  List.map withMetrics (mapValues employeeMap).

End Parser.

(** The cells of row 1, columns A to Z, as
    [sheet_to_json(sheet, {header: 1, range: "A1:Z1", raw: false})] lists
    them: no row for a sheet without a used range, and a hole ([None]) for
    a missing cell. *)
Definition rawHeadersOf (sheet : Xlsx.Sheet) : list (list (option string)) :=
  match Xlsx.ref sheet with
  | None => []
  | Some _ =>
      [List.map (fun col => option_map Xlsx.toStr (Xlsx.cellAt sheet 0 col)) (seqZ 0 26)]
  end.

Definition requiredSimpleHeaders : list string :=
  ["name"; "date"; "timetable"; "clock in"; "clock out"].

(** [rawHeaders[0].map(h => String(h || "").trim().toLowerCase())],
    holes kept. *)
Definition normalizeHeaders (row : list (option string)) : list (option string) :=
  List.map (option_map (fun h => JS.toLowerCase (JS.trim h))) row.

(** [headers.includes(reqHeader)]. *)
Definition headersInclude (headers : list (option string)) (reqHeader : string) : bool :=
  List.existsb
    (fun h => match h with Some x => String.eqb x reqHeader | None => false end)
    headers.

(** [isSimpleBiometricFormat]. *)
Definition isSimpleBiometricFormat (sheet : Xlsx.Sheet) : bool :=
  match rawHeadersOf sheet with
  | [] => false
  | row :: _ =>
      let headers := normalizeHeaders row in
      List.forallb (headersInclude headers) requiredSimpleHeaders
  end.

End Simple.

(** ** The store: tables [employees] and [time_records] *)
Module Db.

Record employeeRow : Type := mkEmployee {
  id : Z;
  userId : string;
  name : string;
  department : string;
  month : string;
  attendanceDateRange : string;
  tablingDate : string
}.

(** A row of [time_records]: its own id, its employee, and the columns of
    the day. *)
Record timeRecord : Type := mkRecord {
  record_id : Z;
  employee_id : Z;
  entry : Card.t
}.

(** The two tables and the last row id that each [AUTOINCREMENT] column
    has given out. *)
Record t : Type := mk {
  employees : list employeeRow;
  time_records : list timeRecord;
  employees_seq : Z;
  time_records_seq : Z
}.

Definition empty : t := mk [] [] 0 0.

(** The composite key [(userId, name, month)]. *)
Definition key : Type := string * string * string.

Definition keyOfRow (row : employeeRow) : key := (userId row, name row, month row).
Definition keyOf (employee : Employee.t) : key :=
  (Employee.userId employee, Employee.name employee, Employee.month employee).

Definition keyEqb (a b : key) : bool :=
  let '(u1, n1, m1) := a in
  let '(u2, n2, m2) := b in
  String.eqb u1 u2 && String.eqb n1 n2 && String.eqb m1 m2.

(** [SELECT id FROM employees WHERE userId = ? AND name = ? AND month = ?],
    first row. *)
Definition findEmployee (k : key) (rows : list employeeRow) : option Z :=
  option_map id (List.find (fun row => keyEqb (keyOfRow row) k) rows).

(** [UPDATE employees SET department, attendanceDateRange, tablingDate WHERE id = ?]. *)
Definition updateEmployee (employee : Employee.t) (employeeId : Z)
    (rows : list employeeRow) : list employeeRow :=
  List.map
    (fun row =>
       if id row =? employeeId
       then mkEmployee (id row) (userId row) (name row) (Employee.department employee)
              (month row) (Employee.attendanceDateRange employee)
              (Employee.tablingDate employee)
       else row)
    rows.

Definition rowOf (employeeId : Z) (employee : Employee.t) : employeeRow :=
  mkEmployee employeeId (Employee.userId employee) (Employee.name employee)
    (Employee.department employee) (Employee.month employee)
    (Employee.attendanceDateRange employee) (Employee.tablingDate employee).

(** [DELETE FROM time_records WHERE employee_id = ?]. *)
Definition deleteRecords (employeeId : Z) (records : list timeRecord) : list timeRecord :=
  List.filter (fun rec => negb (employee_id rec =? employeeId)) records.

(** The loop over an employee's time card: a row for each day that has a
    raw time. *)
Definition insertRecords (employeeId : Z) (timeCard : list Card.t)
    (records : list timeRecord) (seq : Z) : list timeRecord * Z :=
  fold_left
    (fun '(recs, n) record =>
       if Card.hasRawTime record
       then ((recs ++ [mkRecord (n + 1) employeeId record])%list, n + 1)
       else (recs, n))
    timeCard (records, seq).

(** What the transaction logs for an employee. *)
Inductive action : Type :=
| Updated (employeeId : Z)
| Inserted (employeeId : Z).

(** The body of the loop of the transaction, for one employee. *)
Definition persistEmployee (employee : Employee.t) (db : t) : t * action :=
  let existingEmployee := findEmployee (keyOf employee) (employees db) in
  let '(rows, seq, employeeId, act) :=
    match existingEmployee with
    | Some employeeId =>
        (updateEmployee employee employeeId (employees db), employees_seq db,
         employeeId, Updated employeeId)
    | None =>
        let employeeId := employees_seq db + 1 in
        ((employees db ++ [rowOf employeeId employee])%list, employeeId,
         employeeId, Inserted employeeId)
    end in
  let remaining := deleteRecords employeeId (time_records db) in
  let '(records, rseq) :=
    insertRecords employeeId (Employee.timeCard employee) remaining (time_records_seq db) in
  (mk rows records seq rseq, act).

(** The transaction over all the parsed employees, with its log. *)
Definition persistAll (employees : list Employee.t) (db : t) : t * list action :=
  fold_left
    (fun '(d, log) employee =>
       let '(d', act) := persistEmployee employee d in
       (d', (log ++ [act])%list))
    employees (db, []).

(** The entries stored for an employee, in table order. *)
Definition dayRecords (employeeId : Z) (db : t) : list Card.t :=
  List.map entry (List.filter (fun rec => employee_id rec =? employeeId) (time_records db)).

End Db.

(** ** Loading a workbook and reading back *)
Module Load.

(** A workbook: its sheets with their names, in order. *)
Definition Workbook : Type := list (string * Xlsx.Sheet).

Section Load.

Variable parseDate : string -> option Z.
Variable todayYear todayMonth : Z.
Variable timezoneOffset : Z.
(** The spreadsheet library's
    [sheet_to_json(sheet, {defval: "", raw: false, cellDates: true})]. *)
Variable sheet_to_json : Xlsx.Sheet -> list Simple.Row.

(** The loop over the first 20 sheets of a block-format workbook;
    [None] when a sheet makes the parser throw. *)
Fixpoint parseSheets (sheets : list (string * Xlsx.Sheet))
    (allParsedEmployeesData : list Employee.t) : option (list Employee.t) :=
  match sheets with
  | [] => Some allParsedEmployeesData
  | (sheetName, sheet) :: rest =>
      if String.eqb sheetName "" then Some allParsedEmployeesData
      else
        match Block.parseSingleEmployeeAttendanceSheet parseDate todayYear todayMonth
                timezoneOffset sheet with
        | Some parsedDataFromSheet =>
            parseSheets rest (allParsedEmployeesData ++ parsedDataFromSheet)%list
        | None => None
        end
  end.

(** The format that the loader detects, and the employees it parses. *)
Inductive format : Type := SimpleFormat | BlockFormat.

Definition detect (firstSheet : Xlsx.Sheet) : format :=
  if Simple.isSimpleBiometricFormat firstSheet then SimpleFormat else BlockFormat.

Definition parseWorkbook (workbook : Workbook) (firstSheet : Xlsx.Sheet)
    : option (list Employee.t) :=
  match detect firstSheet with
  | SimpleFormat => Some (Simple.parseSimpleBiometric parseDate (sheet_to_json firstSheet))
  | BlockFormat => parseSheets (take 20 workbook) []
  end.

(** [loadMultiSheetEmployeeAttendance]: the store after the load, and the
    log of the transaction.  Nothing is stored when the file has no sheet
    or when parsing throws. *)
Definition loadMultiSheetEmployeeAttendance (workbook : Workbook) (db : Db.t)
    : Db.t * list Db.action :=
  match workbook with
  | [] => (db, [])
  | (firstSheetName, firstSheet) :: _ =>
      if String.eqb firstSheetName "" then (db, [])
      else
        match parseWorkbook workbook firstSheet with
        | Some allParsedEmployeesData => Db.persistAll allParsedEmployeesData db
        | None => (db, [])
        end
  end.

End Load.

(** An entry of the form data read back: a stored row, or the default
    record of a day without one. *)
Inductive formEntry : Type :=
| Stored (row : Db.timeRecord)
| Default (record : Card.t).

Record result : Type := mkResult {
  empId : string;
  empName : string;
  department : string;
  months : list string;
  formData : string * list (Z * formEntry);
  attendanceDateRange : string;
  tablingDate : string
}.

Section ReadBack.

(** [name LIKE '%' || nameQuery || '%' COLLATE NOCASE]. *)
Variable nameLike : string -> string -> bool.

Definition selectEmployees (nameQuery monthQuery : string) (db : Db.t)
    : list Db.employeeRow :=
  List.filter
    (fun emp =>
       (if Metrics.nonEmpty nameQuery then nameLike nameQuery (Db.name emp) else true) &&
       (if Metrics.nonEmpty monthQuery then String.eqb (Db.month emp) monthQuery else true))
    (Db.employees db).

(** [SELECT * FROM time_records WHERE employee_id = ? ORDER BY day ASC]. *)
Definition selectRecords (employeeId : Z) (db : Db.t) : list Db.timeRecord :=
  merge_sort (fun a b => Card.day (Db.entry a) <= Card.day (Db.entry b))
    (H := fun a b => Z_le_dec (Card.day (Db.entry a)) (Card.day (Db.entry b)))
    (List.filter (fun rec => Db.employee_id rec =? employeeId) (Db.time_records db)).

Definition dailyRecordMapOf (timeCards : list Db.timeRecord) : gmap Z Db.timeRecord :=
  fold_left (fun m record => <[ Card.day (Db.entry record) := record ]> m) timeCards ∅.

Definition formDataForDisplay (year monthNum : option Z)
    (dailyRecordMap : gmap Z Db.timeRecord) : list (Z * formEntry) :=
  let daysInMonth :=
    match year, monthNum with
    | Some _, Some m =>
        if (1 <=? m) && (m <=? 12) then Calendar.daysInMonth year monthNum else Some 31
    | _, _ => Some 31
    end in
  List.map
    (fun day =>
       let currentDate :=
         Calendar.newDate year (option_map (fun m => m - 1) monthNum) day in
       let dayName := Calendar.weekdayLong currentDate in
       let shortDayName := Calendar.weekdayShort currentDate in
       let isWeekend :=
         match Calendar.getDay currentDate with
         | Some 0 | Some 6 => true
         | _ => false
         end in
       (day,
        match dailyRecordMap !! day with
        | Some row => Stored row
        | None =>
            Default
              (Card.blank day (JS.padStart2 (JS.showZ day) +:+ " " +:+ shortDayName)
                 (if isWeekend then dayName else "")
                 (if isWeekend then dayName else ""))
        end))
    (Block.daysOf daysInMonth).

(** [getEmployeeDataFromDb]. *)
Definition getEmployeeDataFromDb (nameQuery monthQuery : string) (db : Db.t)
    : list result :=
  List.map
    (fun emp =>
       let timeCards := selectRecords (Db.id emp) db in
       let dailyRecordMap := dailyRecordMapOf timeCards in
       let parts := JS.split "-" (Db.month emp) in
       let year := Block.parseIntOf (parts !! 0%nat) in
       let monthNum := Block.parseIntOf (parts !! 1%nat) in
       mkResult (Db.userId emp) (Db.name emp) (Db.department emp) [Db.month emp]
         (Db.month emp, formDataForDisplay year monthNum dailyRecordMap)
         (Db.attendanceDateRange emp) (Db.tablingDate emp))
    (selectEmployees nameQuery monthQuery db).

End ReadBack.

End Load.

(** ** The time summary of attendanceController.js *)
Module Controller.

(** A record of an employee's time card as the controller reads it: its
    day and the fields of the calculator. *)
Record dayRecord : Type := mkDay { day : Z; raw : Raw.t }.

Record summary : Type := mkSummary {
  timeSummary : list Card.t;
  daysInMonth : option Z
}.

Section Summary.

(** The controller's [calculateDailyMetricsFromTimes]; the source gives
    its head and its result and elides the rest of its body. *)
Variable calculateDailyMetricsFromTimes : Raw.t -> option Z -> option Z -> Z -> Daily.t.

(** [calculateEmployeeTimeSummary(employee, month)]; a missing employee
    is [None], a missing month is [""]. *)
Definition calculateEmployeeTimeSummary (employee : option (list dayRecord))
    (month : string) : summary :=
  match employee with
  | None => mkSummary [] (Some 0)
  | Some timeCard =>
      if String.eqb month "" then mkSummary [] (Some 0)
      else
        let parts := JS.split "-" month in
        let year := Block.parseIntOf (parts !! 0%nat) in
        let monthNum := Block.parseIntOf (parts !! 1%nat) in
        let daysInMonth := Calendar.daysInMonth year monthNum in
        let dailyRecordMap : gmap Z Raw.t :=
          fold_left (fun m record => <[ day record := raw record ]> m) timeCard ∅ in
        mkSummary
          (List.map
             (fun day =>
                let rawRecord := default Raw.empty (dailyRecordMap !! day) in
                let dailyMetrics :=
                  calculateDailyMetricsFromTimes rawRecord year monthNum day in
                Card.ofMetrics day (Block.formatDateWeekday year monthNum day) dailyMetrics)
             (Block.daysOf daysInMonth))
          daysInMonth
  end.

End Summary.

End Controller.

(* ===================================================================== *)
(** * Part II: the notions of the statements                              *)
(* ===================================================================== *)

(** ** Employees, anchors and blocks *)

(** The facts that the loop over the rows keeps for every employee of its
    map. *)
Definition simpleShape (e : Employee.t) : Prop :=
  Employee.userId e = Employee.name e /\
  Employee.department e = "" /\
  Employee.attendanceDateRange e = "" /\
  Employee.tablingDate e = "" /\
  List.map Card.day (Employee.timeCard e) = seqZ 1 31.

(** A cell that holds the day-anchor label: a string that reads ["Date"] or
    ["Date/Weekday"] once trimmed, letter case and the white space around
    the slash apart. *)
Definition dayAnchorCell (sheet : Xlsx.Sheet) (row col : Z) : bool :=
  match Xlsx.cellAt sheet row col with
  | Some (Xlsx.VStr x) => Block.dayAnchorRegex (JS.toLowerCase (JS.trim x))
  | _ => false
  end.

(** The number of days of a month [YYYY-MM], as the parsers compute it: the
    two parts of the text read by [parseInt], then
    [new Date(year, monthNum, 0).getDate()]. *)
Definition monthDays (month : string) : option Z :=
  Calendar.daysInMonth (Block.yearOf month) (Block.monthNumOf month).

(** A time card with exactly [n] entries, numbered 1, 2, ..., [n] in this
    order; no entry when [n] is not a number. *)
Definition numberedDays (n : option Z) (timeCard : list Card.t) : Prop :=
  match n with
  | Some k => List.map Card.day timeCard = seqZ 1 k /\ length timeCard = Z.to_nat k
  | None => timeCard = []
  end.

(** The blocks that the loop visits: the sorted day columns with their
    positions. *)
Definition blocksOf (sheet : Xlsx.Sheet) (full : Xlsx.range) : list (nat * Z) :=
  imap pair (Block.sortedDayColumnIndices (Block.dayHeaderLocations sheet full)).

(** The Name and User ID values extracted for a block. *)
Definition blockName (sheet : Xlsx.Sheet) (full : Xlsx.range) (block : nat * Z) : string :=
  let sorted := Block.sortedDayColumnIndices (Block.dayHeaderLocations sheet full) in
  Block.headerValue sheet Block.HEADER_NAMES.NAME
    (Block.blockHeaderSearchRange (snd block)
       (Block.nextBlockDayColIndex sorted (fst block) full)).

Definition blockUserId (sheet : Xlsx.Sheet) (full : Xlsx.range) (block : nat * Z) : string :=
  let sorted := Block.sortedDayColumnIndices (Block.dayHeaderLocations sheet full) in
  Block.headerValue sheet Block.HEADER_NAMES.USER_ID
    (Block.blockHeaderSearchRange (snd block)
       (Block.nextBlockDayColIndex sorted (fst block) full)).

Section BlockNotions.

Variable parseDate : string -> option Z.
Variables todayYear todayMonth : Z.

(** What the loop's body does with one block of a sheet. *)
Definition blockResult (sheet : Xlsx.Sheet) (full : Xlsx.range) (tablingDate : string)
    (block : nat * Z) : option Employee.t :=
  let locs := Block.dayHeaderLocations sheet full in
  let attendanceDateRange := Block.attendanceDateRangeOf sheet full in
  Block.processBlock parseDate sheet full attendanceDateRange tablingDate
    (Block.reportMonthOf todayYear todayMonth attendanceDateRange)
    (Block.maxDayHeaderRowOf locs) (Block.sortedDayColumnIndices locs)
    (fst block) (snd block).

End BlockNotions.

(** ** The fields of the daily metrics, as functions of the record *)

Section FieldNotions.

Variable parseDate : string -> option Z.
Local Open Scope float_scope.

(** The time value that a non-empty clock field names on the day [ds]. *)
Definition clockOf (ds : string) (v : option string) : option Z :=
  if JS.truthy v then Metrics.newDateOfString parseDate (ds +:+ " " +:+ JS.orEmpty v)
  else None.

(** The milliseconds between the two clock fields of a pair: both must be
    present and valid, and the second later than the first. *)
Definition pairMs (ds : string) (i o : option string) : option Z :=
  match clockOf ds i, clockOf ds o with
  | Some a, Some b => if (a <? b)%Z then Some (b - a)%Z else None
  | _, _ => None
  end.

(** The hours worked in a pair. *)
Definition pairHours (ds : string) (i o : option string) : float :=
  match pairMs ds i o with
  | Some ms => Num.ofZ ms / 3600000
  | None => 0
  end.

(** AM-worked hours + PM-worked hours + OT-pair duration. *)
Definition workedHours (record : Raw.t) (year monthNum : option Z) (day : Z) : float :=
  let ds := Metrics.dateStringOf year monthNum day in
  pairHours ds (Raw.am_arrival record) (Raw.am_departure record)
  + pairHours ds (Raw.pm_arrival record) (Raw.pm_departure record)
  + pairHours ds (Raw.ot_arrival record) (Raw.ot_departure record).

(** A precomputed value: the field when it is present and not empty. *)
Definition supplied (v : option string) : option string :=
  if JS.truthy v then v else None.

(** The minutes of a pair added to a running sum. *)
Definition addMinutes (w : float) (ds : string) (i o : option string) : float :=
  match pairMs ds i o with
  | Some ms => w + Num.ofZ ms / 60000
  | None => w
  end.

(** The minutes from the clock time [a] to the later clock time [b]. *)
Definition minutesBetween (a b : option Z) : option float :=
  match a, b with
  | Some x, Some y => if (x <? y)%Z then Some (Num.ofZ (y - x) / 60000) else None
  | _, _ => None
  end.

Definition standardStart (ds : string) : option Z :=
  Metrics.newDateOfString parseDate (ds +:+ " 08:00").
Definition standardEnd (ds : string) : option Z :=
  Metrics.newDateOfString parseDate (ds +:+ " 17:00").

(** Minutes of arrival after 08:00, and of departure before 17:00. *)
Definition lateMinutes (record : Raw.t) (ds : string) : option float :=
  minutesBetween (standardStart ds) (clockOf ds (Raw.am_arrival record)).
Definition earlyMinutes (record : Raw.t) (ds : string) : option float :=
  minutesBetween (clockOf ds (Raw.pm_departure record)) (standardEnd ds).

Definition hasTime (record : Raw.t) : bool :=
  JS.truthy (Raw.am_arrival record) || JS.truthy (Raw.am_departure record) ||
  JS.truthy (Raw.pm_arrival record) || JS.truthy (Raw.pm_departure record) ||
  JS.truthy (Raw.ot_arrival record) || JS.truthy (Raw.ot_departure record).

Definition lateOf (record : Raw.t) (ds : string) : string :=
  match supplied (Raw.late_excel record) with
  | Some x => x
  | None =>
      match lateMinutes record ds with
      | Some mins => Num.formatMinutes mins
      | None => ""
      end
  end.

Definition earlyOutOf (record : Raw.t) (ds : string) : string :=
  match earlyMinutes record ds with
  | Some mins => Num.formatMinutes mins
  | None => ""
  end.

Definition overtimeOf (record : Raw.t) (year monthNum : option Z) (day : Z) : string :=
  match supplied (Raw.overtime_hours_excel record) with
  | Some x => x
  | None =>
      if 8 <? workedHours record year monthNum day
      then Num.formatHours (workedHours record year monthNum day - 8)
      else ""
  end.

Definition totalHoursOf (record : Raw.t) (year monthNum : option Z) (day : Z) : string :=
  match supplied (Raw.total_hours_excel record) with
  | Some x => x
  | None =>
      if hasTime record && (0 <? workedHours record year monthNum day)
      then Num.formatHours (workedHours record year monthNum day)
      else ""
  end.

(** The remarks: the tags of the fields that were computed, in the order
    Late, Early Out, Overtime. *)
Definition remarksFrom (late early over : bool) : string :=
  let r := if late then Metrics.addRemark "" "Late" else "" in
  let r := if early then Metrics.addRemark r "Early Out" else r in
  if over then Metrics.addRemark r "Overtime" else r.

Definition lateTag (record : Raw.t) (ds : string) : bool :=
  match supplied (Raw.late_excel record), lateMinutes record ds with
  | None, Some _ => true
  | _, _ => false
  end.

Definition earlyTag (record : Raw.t) (ds : string) : bool :=
  match earlyMinutes record ds with
  | Some _ => true
  | None => false
  end.

Definition overtimeTag (record : Raw.t) (year monthNum : option Z) (day : Z) : bool :=
  match supplied (Raw.overtime_hours_excel record) with
  | None => 8 <? workedHours record year monthNum day
  | Some _ => false
  end.

Definition remarksOf (record : Raw.t) (year monthNum : option Z) (day : Z) : string :=
  let ds := Metrics.dateStringOf year monthNum day in
  remarksFrom (lateTag record ds) (earlyTag record ds) (overtimeTag record year monthNum day).

(** The undertime that a record supplies: a value of the form [H:M]. *)
Definition suppliedUndertime (record : Raw.t) : option (Z * Z) :=
  match supplied (Raw.undertime_excel record) with
  | Some x => Metrics.matchHM x
  | None => None
  end.

Definition workedMinutes (record : Raw.t) (ds : string) : float :=
  addMinutes (addMinutes 0 ds (Raw.am_arrival record) (Raw.am_departure record))
    ds (Raw.pm_arrival record) (Raw.pm_departure record).

(** The undertime of utils.js. *)
Definition undertimeOf (record : Raw.t) (year monthNum : option Z) (day : Z)
    : string * string :=
  let ds := Metrics.dateStringOf year monthNum day in
  match suppliedUndertime record with
  | Some (h, m) => (Metrics.show (Metrics.numberOf h), Metrics.show (Metrics.numberOf m))
  | None =>
      if hasTime record then
        let short := Num.max0 (480 - workedMinutes record ds) in
        if 0 <? short
        then (Metrics.show (Metrics.UNum (Num.floor (short / 60))),
              Metrics.show (Metrics.UNum (Num.roundMod60 short)))
        else ("", "")
      else
        match Calendar.getDay
                (Calendar.newDate year (option_map (fun m => (m - 1)%Z) monthNum) day) with
        | Some 6%Z => ("Saturday", "Saturday")
        | Some 0%Z => ("Sunday", "Sunday")
        | _ => ("", "")
        end
  end.

(** An arrival after 08:00, whatever the record supplies. *)
Definition arrivedLate (record : Raw.t) (ds : string) : bool :=
  match lateMinutes record ds with
  | Some _ => true
  | None => false
  end.

End FieldNotions.


(** The name of a weekend day, from [getDay]. *)
Definition weekendName (dayOfWeek : option Z) : option string :=
  match dayOfWeek with
  | Some 6 => Some "Saturday"
  | Some 0 => Some "Sunday"
  | _ => None
  end.

(** The day of the week of a calendar day, as the calculators compute it. *)
Definition dayOfWeekOf (year monthNum : option Z) (day : Z) : option Z :=
  Calendar.getDay (Calendar.newDate year (option_map (fun m => m - 1) monthNum) day).

(** A record without a value in one of its precomputed fields. *)
Definition withoutLate (r : Raw.t) : Raw.t :=
  Raw.mk (Raw.am_arrival r) (Raw.am_departure r) (Raw.pm_arrival r) (Raw.pm_departure r)
    (Raw.ot_arrival r) (Raw.ot_departure r) None (Raw.undertime_excel r)
    (Raw.overtime_hours_excel r) (Raw.total_hours_excel r).

Definition withoutUndertime (r : Raw.t) : Raw.t :=
  Raw.mk (Raw.am_arrival r) (Raw.am_departure r) (Raw.pm_arrival r) (Raw.pm_departure r)
    (Raw.ot_arrival r) (Raw.ot_departure r) (Raw.late_excel r) None
    (Raw.overtime_hours_excel r) (Raw.total_hours_excel r).

Definition withoutOvertime (r : Raw.t) : Raw.t :=
  Raw.mk (Raw.am_arrival r) (Raw.am_departure r) (Raw.pm_arrival r) (Raw.pm_departure r)
    (Raw.ot_arrival r) (Raw.ot_departure r) (Raw.late_excel r) (Raw.undertime_excel r)
    None (Raw.total_hours_excel r).

Definition withoutTotalHours (r : Raw.t) : Raw.t :=
  Raw.mk (Raw.am_arrival r) (Raw.am_departure r) (Raw.pm_arrival r) (Raw.pm_departure r)
    (Raw.ot_arrival r) (Raw.ot_departure r) (Raw.late_excel r) (Raw.undertime_excel r)
    (Raw.overtime_hours_excel r) None.

(** ** The store *)

(** The employee row that an entry of the log is about. *)
Definition actionId (act : Db.action) : Z :=
  match act with
  | Db.Updated employeeId => employeeId
  | Db.Inserted employeeId => employeeId
  end.

(** The six raw time fields of an entry. *)
Definition rawTimes (c : Card.t) : list (option string) :=
  [Card.am_arrival c; Card.am_departure c; Card.pm_arrival c; Card.pm_departure c;
   Card.ot_arrival c; Card.ot_departure c].

(** The entries of a time card that the loader stores. *)
Definition storedDays (employee : Employee.t) : list Card.t :=
  List.filter Card.hasRawTime (Employee.timeCard employee).

(** The days that the form data of a month shows: those of the month, or 31
    when the month text does not give a year and a month from 1 to 12. *)
Definition shownDays (month : string) : list Z :=
  match Block.yearOf month, Block.monthNumOf month with
  | Some year, Some monthNum =>
      if (1 <=? monthNum) && (monthNum <=? 12)
      then Block.daysOf (Calendar.daysInMonth (Some year) (Some monthNum))
      else seqZ 1 31
  | _, _ => seqZ 1 31
  end.

(** The constraints of the schema on the table [employees]: [id] is a
    primary key, [(userId, name, month)] is unique, and no id is beyond the
    last one that [AUTOINCREMENT] gave out. *)
Definition wellFormed (db : Db.t) : Prop :=
  List.NoDup (List.map Db.id (Db.employees db)) /\
  List.NoDup (List.map Db.keyOfRow (Db.employees db)) /\
  Forall (fun row => Db.id row <= Db.employees_seq db) (Db.employees db).

(** The store after all the parsed employees are persisted. *)
Definition persisted (employees : list Employee.t) (db : Db.t) : Db.t :=
  fst (Db.persistAll employees db).

(** The columns of an employee row that a load writes. *)
Definition payload (row : Db.employeeRow) : string * string * string :=
  (Db.department row, Db.attendanceDateRange row, Db.tablingDate row).

Definition payloadOf (employee : Employee.t) : string * string * string :=
  (Employee.department employee, Employee.attendanceDateRange employee,
   Employee.tablingDate employee).

(** [employee] is the last of [employees] with its key. *)
Definition lastWithKey (employee : Employee.t) (employees : list Employee.t) : Prop :=
  exists before after,
    employees = (before ++ employee :: after)%list /\
    Forall (fun other => Db.keyOf other <> Db.keyOf employee) after.

(** Every employee that is the last with its key has its row, its columns
    and its days in the store. *)
Definition settled (employees : list Employee.t) (db : Db.t) : Prop :=
  forall employee, lastWithKey employee employees ->
    exists row, In row (Db.employees db) /\
                Db.keyOfRow row = Db.keyOf employee /\
                payload row = payloadOf employee /\
                Db.dayRecords (Db.id row) db = storedDays employee.

(** While the employees [pending] are still to be persisted again, a row of
    the store is as it was before, unless an employee with its key is
    pending. *)
Definition sameRowUnless (pending : list Employee.t) (now before : Db.employeeRow) : Prop :=
  Db.id now = Db.id before /\
  Db.keyOfRow now = Db.keyOfRow before /\
  (now = before \/ exists e, In e pending /\ Db.keyOf e = Db.keyOfRow before).

Definition agreesUnless (pending : list Employee.t) (now before : Db.t) : Prop :=
  Forall2 (sameRowUnless pending) (Db.employees now) (Db.employees before) /\
  Db.employees_seq now = Db.employees_seq before /\
  forall i,
    Db.dayRecords i now = Db.dayRecords i before \/
    exists e, In e pending /\ Db.findEmployee (Db.keyOf e) (Db.employees before) = Some i.

(** ** Loading a file again *)

(** The employees that a load persists: those parsed from the workbook, none
    when the file has no sheet or when parsing throws. *)
Definition parsedOf (parseDate : string -> option Z) (todayYear todayMonth timezoneOffset : Z)
    (sheet_to_json : Xlsx.Sheet -> list Simple.Row) (workbook : Load.Workbook)
    : list Employee.t :=
  match workbook with
  | [] => []
  | (firstSheetName, firstSheet) :: _ =>
      if String.eqb firstSheetName "" then []
      else default []
             (Load.parseWorkbook parseDate todayYear todayMonth timezoneOffset sheet_to_json
                workbook firstSheet)
  end.

(** A sheet that carries the date range of its report, in the form
    [YYYY-MM-DD~YYYY-MM-DD] from which the block parser takes the month. *)
Definition datedSheet (sheet : Xlsx.Sheet) : Prop :=
  forall full, Xlsx.ref sheet = Some full ->
    Block.hasShape "dddd-dd-dd~dddd-dd-dd" (Block.attendanceDateRangeOf sheet full) = true.

(** A file that gives the month of its report: it is in the simple format,
    where the month is that of each row's date, or each of its sheets
    carries its date range. *)
Definition givesItsMonth (workbook : Load.Workbook) : Prop :=
  match workbook with
  | [] => True
  | (_, firstSheet) :: _ =>
      Simple.isSimpleBiometricFormat firstSheet = true \/
      Forall (fun sheet => datedSheet (snd sheet)) workbook
  end.

(** The constraint of the schema on the table [time_records]: no row id is
    beyond the last one that [AUTOINCREMENT] gave out. *)
Definition recordsNumbered (db : Db.t) : Prop :=
  Forall (fun rec => Db.record_id rec <= Db.time_records_seq db) (Db.time_records db).

(** The entry that the log of a load has for an employee whose key
    resolves among [rows]: an update of the row that the key finds. *)
Definition updates (rows : list Db.employeeRow) (employee : Employee.t) (act : Db.action)
    : Prop :=
  exists i, act = Db.Updated i /\ Db.findEmployee (Db.keyOf employee) rows = Some i.

(** ** Sample inputs *)
Module Sample.

(** Tuesday 2025-04-01, and Saturday 2025-04-05. *)
Definition year : option Z := Some 2025.
Definition monthNum : option Z := Some 4.
Definition tuesday : Z := 1.
Definition saturday : Z := 5.

(** AM 08:00-12:00 and PM 13:00-18:30, nothing precomputed. *)
Definition overtimeDay : Raw.t :=
  Raw.mk (Some "08:00") (Some "12:00") (Some "13:00") (Some "18:30") (Some "") (Some "")
    (Some "") (Some "") (Some "") (Some "").

(** A day with late arrival and early departure, and a value in each of the
    four precomputed fields. *)
Definition suppliedDay : Raw.t :=
  Raw.mk (Some "08:15") (Some "12:00") (Some "13:00") (Some "16:30") (Some "") (Some "")
    (Some "0h 20m") (Some "1:05") (Some "2h 00m") (Some "9h 00m").

(** The same day with an undertime value that is not of the form [H:M]. *)
Definition minutesUndertimeDay : Raw.t :=
  Raw.mk (Some "08:15") (Some "12:00") (Some "13:00") (Some "16:30") (Some "") (Some "")
    (Some "") (Some "30") (Some "") (Some "").

(** The same day with an undertime whose hours are beyond [2^53]. *)
Definition hugeUndertimeDay : Raw.t :=
  Raw.mk (Some "08:15") (Some "12:00") (Some "13:00") (Some "16:30") (Some "") (Some "")
    (Some "") (Some "99999999999999999999:7") (Some "") (Some "").

(** The record of a day without any entry, as the simple-format parser
    passes it to its calculator. *)
Definition blankSaturday : Raw.t := Card.toRaw (Card.blank 5 "05 Sat" "" "").

(** A worksheet with three blocks, anchored in the columns B, Q and AF
    (1, 16 and 31); the block in Q has no User ID. *)
Definition sheetRange : Xlsx.range := Xlsx.Range (Xlsx.Coord 0 0) (Xlsx.Coord 9 51).

Definition sheetCells : list (Z * Z * Xlsx.value) :=
  [ ((0, 1), Xlsx.VStr "Date:"); ((0, 2), Xlsx.VStr "2025-04-01~2025-04-30");
    ((1, 1), Xlsx.VStr "Name"); ((1, 2), Xlsx.VStr "Alice");
    ((1, 5), Xlsx.VStr "User ID"); ((1, 6), Xlsx.VNum 7);
    ((1, 16), Xlsx.VStr "Name"); ((1, 17), Xlsx.VStr "Bob");
    ((1, 31), Xlsx.VStr "Name"); ((1, 32), Xlsx.VStr "Carol");
    ((1, 35), Xlsx.VStr "User ID"); ((1, 36), Xlsx.VStr "9");
    ((1, 38), Xlsx.VStr "Dept."); ((1, 39), Xlsx.VStr "IT");
    ((2, 1), Xlsx.VStr "Date/Weekday"); ((2, 16), Xlsx.VStr "Date / Weekday");
    ((2, 31), Xlsx.VStr "DATE");
    ((3, 2), Xlsx.VStr "In"); ((3, 4), Xlsx.VStr "Out");
    ((4, 1), Xlsx.VStr "01 Tue"); ((4, 2), Xlsx.VStr "08:10"); ((4, 4), Xlsx.VStr "12:00");
    ((4, 7), Xlsx.VStr "13:00"); ((4, 9), Xlsx.VStr "17:30");
    ((4, 31), Xlsx.VStr "03 Thu"); ((4, 32), Xlsx.VStr "07:00"); ((4, 34), Xlsx.VStr "12:00") ].

Definition sheet : Xlsx.Sheet :=
  Xlsx.mkSheet (Some sheetRange) (list_to_map sheetCells) [].

(** The host of the samples: the reference parser, November 2026, UTC+8. *)
Definition parseSheet : Xlsx.Sheet -> option (list Employee.t) :=
  Block.parseSingleEmployeeAttendanceSheet Metrics.clockParser 2026 10 (-480).

Definition parsedSheet : list Employee.t := default [] (parseSheet sheet).

(** Two clock events of one employee on Thursday 2025-02-13. *)
Definition rows : list Simple.Row :=
  [ Simple.mkRow (Some "Ann") (Some (Simple.DText "13/02/2025")) (Some "AM")
      (Some "08:05") (Some "12:00");
    Simple.mkRow (Some "Ann") (Some (Simple.DText "13/02/2025")) (Some "PM")
      (Some "13:00") (Some "18:00") ].

(** A worksheet in the simple format, with its headers in mixed case and in
    an order of their own, and the workbook that holds it. *)
Definition simpleSheet : Xlsx.Sheet :=
  Xlsx.mkSheet (Some (Xlsx.Range (Xlsx.Coord 0 0) (Xlsx.Coord 2 4)))
    (list_to_map
       [ ((0, 0), Xlsx.VStr "Clock Out"); ((0, 1), Xlsx.VStr " Date");
         ((0, 2), Xlsx.VStr "NAME"); ((0, 3), Xlsx.VStr "Clock In");
         ((0, 4), Xlsx.VStr "Timetable") ])
    [].

(** A worksheet in the simple format that holds the two clock events of
    [rows] below its header row. *)
Definition clockSheet : Xlsx.Sheet :=
  Xlsx.mkSheet (Some (Xlsx.Range (Xlsx.Coord 0 0) (Xlsx.Coord 2 4)))
    (list_to_map
       [ ((0, 0), Xlsx.VStr "Name"); ((0, 1), Xlsx.VStr "Date");
         ((0, 2), Xlsx.VStr "Timetable"); ((0, 3), Xlsx.VStr "Clock In");
         ((0, 4), Xlsx.VStr "Clock Out");
         ((1, 0), Xlsx.VStr "Ann"); ((1, 1), Xlsx.VStr "13/02/2025");
         ((1, 2), Xlsx.VStr "AM"); ((1, 3), Xlsx.VStr "08:05"); ((1, 4), Xlsx.VStr "12:00");
         ((2, 0), Xlsx.VStr "Ann"); ((2, 1), Xlsx.VStr "13/02/2025");
         ((2, 2), Xlsx.VStr "PM"); ((2, 3), Xlsx.VStr "13:00"); ((2, 4), Xlsx.VStr "18:00") ])
    [].

(** The rows of a worksheet of text cells as
    [sheet_to_json(sheet, {defval: "", raw: false})] lists them: the first
    row of the used range gives the keys, each later row that holds a cell
    gives an object, and a cell that is missing under a key reads [""].  It
    stands for the spreadsheet library in the examples. *)
Definition columnsOf (full : Xlsx.range) : list Z :=
  seqZ (Xlsx.c (Xlsx.s full)) (Xlsx.c (Xlsx.e full) - Xlsx.c (Xlsx.s full) + 1).

Definition headerColumn (sheet : Xlsx.Sheet) (full : Xlsx.range) (key : string) : option Z :=
  List.find
    (fun col =>
       match Xlsx.cellAt sheet (Xlsx.r (Xlsx.s full)) col with
       | Some v => String.eqb (Xlsx.toStr v) key
       | None => false
       end)
    (columnsOf full).

Definition fieldOf (sheet : Xlsx.Sheet) (full : Xlsx.range) (row : Z) (key : string)
    : option string :=
  match headerColumn sheet full key with
  | Some col =>
      Some (match Xlsx.cellAt sheet row col with
            | Some v => Xlsx.toStr v
            | None => ""
            end)
  | None => None
  end.

Definition rowsOf (sheet : Xlsx.Sheet) : list Simple.Row :=
  match Xlsx.ref sheet with
  | None => []
  | Some full =>
      omap
        (fun row =>
           if List.existsb
                (fun col => match Xlsx.cellAt sheet row col with Some _ => true | None => false end)
                (columnsOf full)
           then Some (Simple.mkRow (fieldOf sheet full row "Name")
                        (option_map Simple.DText (fieldOf sheet full row "Date"))
                        (fieldOf sheet full row "Timetable")
                        (fieldOf sheet full row "Clock In")
                        (fieldOf sheet full row "Clock Out"))
           else None)
        (seqZ (Xlsx.r (Xlsx.s full) + 1) (Xlsx.r (Xlsx.e full) - Xlsx.r (Xlsx.s full)))
  end.

(** A worksheet of one block, Alice's, that carries no date range: its
    month is the current one. *)
Definition undatedSheet : Xlsx.Sheet :=
  Xlsx.mkSheet (Some (Xlsx.Range (Xlsx.Coord 0 0) (Xlsx.Coord 4 21)))
    (list_to_map
       [ ((1, 1), Xlsx.VStr "Name"); ((1, 2), Xlsx.VStr "Alice");
         ((1, 5), Xlsx.VStr "User ID"); ((1, 6), Xlsx.VNum 7);
         ((2, 1), Xlsx.VStr "Date/Weekday");
         ((3, 2), Xlsx.VStr "In"); ((3, 4), Xlsx.VStr "Out");
         ((4, 1), Xlsx.VStr "02 Mon"); ((4, 2), Xlsx.VStr "08:10"); ((4, 4), Xlsx.VStr "12:00") ])
    [].

Definition clockWorkbook : Load.Workbook := [("Sheet1", clockSheet)].
Definition blockWorkbook : Load.Workbook := [("Sheet1", sheet)].
Definition undatedWorkbook : Load.Workbook := [("Sheet1", undatedSheet)].

Definition load : Load.Workbook -> Db.t -> Db.t * list Db.action :=
  Load.loadMultiSheetEmployeeAttendance Metrics.clockParser 2026 10 (-480) rowsOf.

(** The same host a month later, in December 2026. *)
Definition loadNextMonth : Load.Workbook -> Db.t -> Db.t * list Db.action :=
  Load.loadMultiSheetEmployeeAttendance Metrics.clockParser 2026 11 (-480) rowsOf.

End Sample.
(* ===================================================================== *)
(** * Part III: properties                                                *)
(* ===================================================================== *)

(** ** Loops as folds *)

Lemma fold_left_invariant {A B : Type} (P : A -> Prop) (f : A -> B -> A) (l : list B) (a : A) :
  P a -> (forall x b, P x -> P (f x b)) -> P (fold_left f l a).
Proof.
  intros Ha Hstep. revert a Ha.
  induction l as [|b l IH]; intros a Ha; simpl; [exact Ha|].
  apply IH, Hstep, Ha.
Qed.

Lemma map_day_alter (f : Card.t -> Card.t) (i : nat) (tc : list Card.t) :
  (forall x, Card.day (f x) = Card.day x) ->
  List.map Card.day (alter f i tc) = List.map Card.day tc.
Proof.
  intros Hf. revert i.
  induction tc as [|x tc IH]; intros [|i]; simpl; try reflexivity.
  - now rewrite Hf.
  - f_equal. apply IH.
Qed.

Lemma setClock_day (timetable clockIn clockOut : string) (record : Card.t) :
  Card.day (Simple.setClock timetable clockIn clockOut record) = Card.day record.
Proof.
  unfold Simple.setClock.
  destruct (String.eqb timetable "AM"); [reflexivity|].
  destruct (String.eqb timetable "PM"); reflexivity.
Qed.

Lemma length_daysOf (n : Z) : length (Block.daysOf (Some n)) = Z.to_nat n.
Proof. apply length_seqZ. Qed.

Lemma lookup_daysOf (n : Z) (i : nat) :
  (Z.of_nat i < n) -> Block.daysOf (Some n) !! i = Some (Z.of_nat i + 1).
Proof.
  intros Hi. unfold Block.daysOf. rewrite lookup_seqZ_lt by lia. f_equal. lia.
Qed.

(** ** The simple-format parser: what every employee record carries *)

Lemma initialTimeCard_days (year monthNum : option Z) :
  List.map Card.day (Simple.initialTimeCard year monthNum) = seqZ 1 31.
Proof. unfold Simple.initialTimeCard. rewrite List.map_map. reflexivity. Qed.

Lemma mapUpdate_shape (key : string) (f : Employee.t -> Employee.t)
    (m : list (string * Employee.t)) :
  (forall e, simpleShape e -> simpleShape (f e)) ->
  Forall (fun kv => simpleShape (snd kv)) m ->
  Forall (fun kv => simpleShape (snd kv)) (Simple.mapUpdate key f m).
Proof.
  intros Hf Hm. unfold Simple.mapUpdate.
  induction Hm as [|kv m Hkv Hm IH]; simpl; constructor; auto.
  destruct (String.eqb (fst kv) key); simpl; auto.
Qed.

Lemma mapSet_shape (key : string) (e : Employee.t) (m : list (string * Employee.t)) :
  simpleShape e ->
  Forall (fun kv => simpleShape (snd kv)) m ->
  Forall (fun kv => simpleShape (snd kv)) (Simple.mapSet key e m).
Proof.
  intros He Hm. unfold Simple.mapSet.
  destruct (Simple.mapHas key m).
  - induction Hm as [|kv m Hkv Hm IH]; simpl; constructor; auto.
    destruct (String.eqb (fst kv) key); simpl; auto.
  - apply Forall_app; split; [exact Hm|]. constructor; [exact He|constructor].
Qed.

Lemma fileRow_shape (parseDate : string -> option Z) (m : list (string * Employee.t))
    (name timetable clockIn clockOut : string) (dateValue : Simple.dateCell) :
  Forall (fun kv => simpleShape (snd kv)) m ->
  Forall (fun kv => simpleShape (snd kv))
    (Simple.fileRow parseDate m name timetable clockIn clockOut dateValue).
Proof.
  intros Hm. unfold Simple.fileRow.
  destruct (Simple.rowDate parseDate dateValue) as [date|]; [|exact Hm].
  cbv zeta. set (key := _ +:+ _).
  match goal with
  | |- context [if negb (Simple.mapHas key m) then ?new else m] =>
      assert (Hnew : Forall (fun kv => simpleShape (snd kv))
                       (if negb (Simple.mapHas key m) then new else m))
  end.
  { destruct (negb _); [|exact Hm].
    apply mapSet_shape; [|exact Hm].
    repeat split; simpl; try reflexivity. }
  destruct (Calendar.getDate date) as [d|]; [|exact Hnew].
  apply mapUpdate_shape; [|exact Hnew].
  intros e (H1 & H2 & H3 & H4 & H5).
  destruct (_ && _); [|repeat split; assumption].
  repeat split; simpl; try assumption.
  rewrite map_day_alter; [exact H5|]. intros x. apply setClock_day.
Qed.

Lemma processRow_shape (parseDate : string -> option Z)
    (m : list (string * Employee.t)) (row : Simple.Row) :
  Forall (fun kv => simpleShape (snd kv)) m ->
  Forall (fun kv => simpleShape (snd kv)) (Simple.processRow parseDate m row).
Proof.
  intros Hm. unfold Simple.processRow.
  destruct (Simple.Date row) as [[[|a x]|d]|]; try exact Hm;
    (destruct (_ || _); [exact Hm|now apply fileRow_shape]).
Qed.

Lemma withMetrics_shape (parseDate : string -> option Z) (e : Employee.t) :
  simpleShape e -> simpleShape (Simple.withMetrics parseDate e).
Proof.
  intros (H1 & H2 & H3 & H4 & H5).
  unfold Simple.withMetrics. repeat split; simpl; try assumption.
  rewrite List.map_map. simpl. exact H5.
Qed.

Lemma parseSimpleBiometric_shape (parseDate : string -> option Z) (rows : list Simple.Row) :
  Forall simpleShape (Simple.parseSimpleBiometric parseDate rows).
Proof.
  unfold Simple.parseSimpleBiometric, Simple.mapValues.
  assert (Hm : Forall (fun kv => simpleShape (snd kv))
                 (fold_left (Simple.processRow parseDate) rows [])).
  { apply fold_left_invariant; [constructor|].
    intros m row Hm. now apply processRow_shape. }
  induction Hm as [|kv m Hkv Hm IH]; simpl; constructor; auto.
  now apply withMetrics_shape.
Qed.

(** ** Block discovery *)

Lemma In_cellsIn (rg : Xlsx.range) (p : Xlsx.coord) :
  In p (Xlsx.cellsIn rg) <->
  Xlsx.r (Xlsx.s rg) <= Xlsx.r p <= Xlsx.r (Xlsx.e rg) /\
  Xlsx.c (Xlsx.s rg) <= Xlsx.c p <= Xlsx.c (Xlsx.e rg).
Proof.
  unfold Xlsx.cellsIn. rewrite in_flat_map. split.
  - intros (row & Hrow & Hp). apply in_map_iff in Hp as (col & <- & Hcol).
    apply list_elem_of_In, elem_of_seqZ in Hrow.
    apply list_elem_of_In, elem_of_seqZ in Hcol. simpl. lia.
  - intros [Hr Hc]. exists (Xlsx.r p). split.
    + apply list_elem_of_In, elem_of_seqZ. lia.
    + apply in_map_iff. exists (Xlsx.c p). split; [now destruct p|].
      apply list_elem_of_In, elem_of_seqZ. lia.
Qed.

Lemma In_dayHeaderLocations (sheet : Xlsx.Sheet) (full : Xlsx.range) (p : Xlsx.coord) :
  In p (Block.dayHeaderLocations sheet full) <->
  0 <= Xlsx.r p <= Xlsx.r (Xlsx.e full) /\
  0 <= Xlsx.c p <= Xlsx.c (Xlsx.e full) /\
  dayAnchorCell sheet (Xlsx.r p) (Xlsx.c p) = true.
Proof.
  unfold Block.dayHeaderLocations, Block.findAllCellsByValue.
  rewrite filter_In, In_cellsIn. unfold dayAnchorCell. simpl.
  change (Block.regexFor Block.HEADER_NAMES.DAY) with Block.dayAnchorRegex.
  destruct (Xlsx.cellAt sheet (Xlsx.r p) (Xlsx.c p)) as [[x|n]|]; simpl.
  - destruct (String.eqb (JS.trim x) "") eqn:E.
    + apply String.eqb_eq in E. rewrite E. simpl. intuition discriminate.
    + unfold Block.HEADER_SEARCH_START_ROW. intuition.
  - destruct (String.eqb _ ""); intuition discriminate.
  - intuition discriminate.
Qed.

Lemma setAdd_spec (x y : Z) (set : list Z) :
  In y (Block.setAdd x set) <-> y = x \/ In y set.
Proof.
  unfold Block.setAdd. destruct (List.existsb (Z.eqb x) set) eqn:E.
  - apply existsb_exists in E as (z & Hz & Hxz). apply Z.eqb_eq in Hxz. subst z.
    split; [auto|]. intros [->|H]; assumption.
  - rewrite in_app_iff. simpl. intuition.
Qed.

Lemma setAdd_NoDup (x : Z) (set : list Z) :
  List.NoDup set -> List.NoDup (Block.setAdd x set).
Proof.
  intros Hset. unfold Block.setAdd. destruct (List.existsb (Z.eqb x) set) eqn:E; [exact Hset|].
  apply NoDup_ListNoDup, NoDup_app. repeat split.
  - now apply NoDup_ListNoDup.
  - intros y Hy Hy'. apply list_elem_of_In in Hy. apply list_elem_of_In in Hy'.
    destruct Hy' as [<-|[]].
    assert (List.existsb (Z.eqb x) set = true) as Hex; [|congruence].
    apply existsb_exists. exists x. split; [exact Hy|apply Z.eqb_refl].
  - apply NoDup_ListNoDup. constructor; [intros []|constructor].
Qed.

Lemma discovered_spec (locs : list Xlsx.coord) (acc : list Z) (x : Z) :
  In x (fold_left (fun set loc => Block.setAdd (Xlsx.c loc) set) locs acc) <->
  In x acc \/ exists loc, In loc locs /\ Xlsx.c loc = x.
Proof.
  revert acc. induction locs as [|loc locs IH]; intros acc; simpl.
  - split; [auto|]. intros [H|(loc & [] & _)]. exact H.
  - rewrite IH, setAdd_spec. split.
    + intros [[->|H]|(l & Hl & Hx)]; eauto.
    + intros [H|(l & [<-|Hl] & Hx)]; eauto.
Qed.

Lemma discovered_NoDup (locs : list Xlsx.coord) (acc : list Z) :
  List.NoDup acc ->
  List.NoDup (fold_left (fun set loc => Block.setAdd (Xlsx.c loc) set) locs acc).
Proof.
  revert acc. induction locs as [|loc locs IH]; intros acc Hacc; simpl; [exact Hacc|].
  apply IH, setAdd_NoDup, Hacc.
Qed.

(** The sorted day columns are the columns that hold an anchor, each once,
    in ascending order. *)
Lemma sortedDayColumnIndices_spec (sheet : Xlsx.Sheet) (full : Xlsx.range) :
  let sorted := Block.sortedDayColumnIndices (Block.dayHeaderLocations sheet full) in
  Sorted Z.le sorted /\ List.NoDup sorted /\
  forall col, In col sorted <->
    exists row, 0 <= row <= Xlsx.r (Xlsx.e full) /\ 0 <= col <= Xlsx.c (Xlsx.e full) /\
                dayAnchorCell sheet row col = true.
Proof.
  unfold Block.sortedDayColumnIndices, Block.discoveredDayColumnIndices.
  set (locs := Block.dayHeaderLocations sheet full).
  set (found := fold_left _ locs []).
  assert (Hperm : merge_sort Z.le found ≡ₚ found) by apply merge_sort_Permutation.
  split; [apply Sorted_merge_sort; apply _|]. split.
  - apply NoDup_ListNoDup. rewrite Hperm. apply NoDup_ListNoDup.
    apply discovered_NoDup. constructor.
  - intros col. rewrite <- list_elem_of_In, Hperm, list_elem_of_In.
    unfold found. rewrite discovered_spec. split.
    + intros [[]|(loc & Hloc & <-)].
      apply In_dayHeaderLocations in Hloc as (Hr & Hc & Hcell). eauto.
    + intros (row & Hr & Hc & Hcell). right. exists (Xlsx.Coord row col).
      split; [|reflexivity]. apply In_dayHeaderLocations. simpl. auto.
Qed.

(** C6.  On a worksheet where the day-anchor label occurs in exactly the
    three columns B, Q and AF (columns 1, 16 and 31 counted from 0), block
    discovery yields exactly three blocks, whose column spans are [B, P],
    [Q, AE] and [AF, last column of the worksheet]: the anchor columns in
    ascending order, each block reaching to the column before the next
    anchor and the last one to the last column. *)
Theorem block_spans_B_Q_AF (sheet : Xlsx.Sheet) (full : Xlsx.range) :
  (forall col,
     (exists row, 0 <= row <= Xlsx.r (Xlsx.e full) /\ 0 <= col <= Xlsx.c (Xlsx.e full) /\
                  dayAnchorCell sheet row col = true) <->
     col = 1 \/ col = 16 \/ col = 31) ->
  Block.sortedDayColumnIndices (Block.dayHeaderLocations sheet full) = [1; 16; 31] /\
  Block.blockSpans sheet full = [(1, 15); (16, 30); (31, Xlsx.c (Xlsx.e full))].
Proof.
  intros Hcols.
  destruct (sortedDayColumnIndices_spec sheet full) as (Hsorted & Hnodup & Hin).
  assert (Heq : Block.sortedDayColumnIndices (Block.dayHeaderLocations sheet full) = [1; 16; 31]).
  { apply (Sorted_unique Z.le); [exact Hsorted|repeat constructor; lia|].
    apply NoDup_Permutation.
    - now apply NoDup_ListNoDup.
    - apply NoDup_ListNoDup. repeat constructor; simpl; intuition lia.
    - intros col. rewrite !list_elem_of_In, Hin, Hcols. simpl. intuition. }
  split; [exact Heq|].
  unfold Block.blockSpans. rewrite Heq. simpl.
  unfold Block.nextBlockDayColIndex. simpl.
  repeat f_equal. lia.
Qed.

(** ** The loop over the blocks *)

Lemma fold_push_omap {A B : Type} (g : A -> option B) (f : list B -> A -> list B)
    (l : list A) (init : list B) :
  (forall acc x, f acc x = match g x with Some y => (acc ++ [y])%list | None => acc end) ->
  fold_left f l init = (init ++ omap g l)%list.
Proof.
  intros Hf. revert init.
  induction l as [|x l IH]; intros init; simpl.
  - now rewrite app_nil_r.
  - rewrite IH, Hf. destruct (g x) as [y|]; [|reflexivity].
    now rewrite <- app_assoc.
Qed.

Section BlockLoop.

Variable parseDate : string -> option Z.
Variables todayYear todayMonth timezoneOffset : Z.

Lemma parseSingle_blocks (sheet : Xlsx.Sheet) (emps : list Employee.t) :
  Block.parseSingleEmployeeAttendanceSheet parseDate todayYear todayMonth timezoneOffset sheet
    = Some emps ->
  exists full tablingDate,
    Xlsx.ref sheet = Some full /\
    Block.tablingDateOf timezoneOffset sheet full = Some tablingDate /\
    emps = omap (blockResult parseDate todayYear todayMonth sheet full tablingDate) (blocksOf sheet full).
Proof.
  unfold Block.parseSingleEmployeeAttendanceSheet.
  destruct (Xlsx.ref sheet) as [full|] eqn:Eref; [|discriminate].
  destruct (Block.tablingDateOf timezoneOffset sheet full) as [tablingDate|] eqn:Etab;
    [|discriminate].
  intros H. exists full, tablingDate. split; [reflexivity|]. split; [exact Etab|].
  unfold blocksOf.
  destruct (length (Block.dayHeaderLocations sheet full) =? 0)%nat eqn:Hlen.
  { apply Nat.eqb_eq, List.length_zero_iff_nil in Hlen. rewrite Hlen.
    inversion H. reflexivity. }
  destruct (length (Block.sortedDayColumnIndices (Block.dayHeaderLocations sheet full)) =? 0)%nat
    eqn:Hlen'.
  { apply Nat.eqb_eq, List.length_zero_iff_nil in Hlen'. rewrite Hlen'.
    inversion H. reflexivity. }
  inversion H as [Hemps]. clear H Hemps.
  unfold Block.processBlocks.
  rewrite (fold_push_omap (blockResult parseDate todayYear todayMonth sheet full tablingDate)); [reflexivity|].
  intros acc [index dayColIndex]. reflexivity.
Qed.

Lemma blockResult_None (sheet : Xlsx.Sheet) (full : Xlsx.range) (tablingDate : string)
    (block : nat * Z) :
  blockResult parseDate todayYear todayMonth sheet full tablingDate block = None <->
  blockName sheet full block = "" \/ blockUserId sheet full block = "".
Proof.
  unfold blockResult, Block.processBlock, blockName, blockUserId. cbv zeta.
  set (n := Block.headerValue sheet Block.HEADER_NAMES.NAME _).
  set (u := Block.headerValue sheet Block.HEADER_NAMES.USER_ID _).
  destruct (String.eqb_spec n ""), (String.eqb_spec u ""); simpl;
    split; try tauto; discriminate.
Qed.

Lemma blockResult_Some (sheet : Xlsx.Sheet) (full : Xlsx.range) (tablingDate : string)
    (block : nat * Z) (e : Employee.t) :
  blockResult parseDate todayYear todayMonth sheet full tablingDate block = Some e ->
  Employee.name e = blockName sheet full block /\
  Employee.userId e = blockUserId sheet full block /\
  Employee.month e =
    Block.reportMonthOf todayYear todayMonth (Block.attendanceDateRangeOf sheet full) /\
  exists records, Employee.timeCard e = Block.buildTimeCard parseDate (Employee.month e) records.
Proof.
  unfold blockResult, Block.processBlock, blockName, blockUserId.
  destruct (_ || _); [discriminate|].
  intros H. inversion H; subst e; clear H. simpl.
  repeat split. eexists. reflexivity.
Qed.

(** The parser returns once the used range and the tabling date of the
    sheet are read, whatever its blocks hold: the result is the list, in
    block order, of the employees of the blocks that are not skipped. *)
Lemma parseSingle_returns (sheet : Xlsx.Sheet) (full : Xlsx.range) (tablingDate : string) :
  Xlsx.ref sheet = Some full ->
  Block.tablingDateOf timezoneOffset sheet full = Some tablingDate ->
  Block.parseSingleEmployeeAttendanceSheet parseDate todayYear todayMonth timezoneOffset sheet
    = Some (omap (blockResult parseDate todayYear todayMonth sheet full tablingDate)
              (blocksOf sheet full)).
Proof.
  intros Href Htab. unfold Block.parseSingleEmployeeAttendanceSheet.
  rewrite Href, Htab. unfold blocksOf.
  destruct (length (Block.dayHeaderLocations sheet full) =? 0)%nat eqn:Hlen.
  { apply Nat.eqb_eq, List.length_zero_iff_nil in Hlen. rewrite Hlen. reflexivity. }
  destruct (length (Block.sortedDayColumnIndices (Block.dayHeaderLocations sheet full)) =? 0)%nat
    eqn:Hlen'.
  { apply Nat.eqb_eq, List.length_zero_iff_nil in Hlen'. rewrite Hlen'. reflexivity. }
  unfold Block.processBlocks.
  rewrite (fold_push_omap (blockResult parseDate todayYear todayMonth sheet full tablingDate));
    [reflexivity|].
  intros acc [index dayColIndex]. reflexivity.
Qed.

(** The parser throws on a sheet without a used range or with a tabling date
    that is not a valid date, and on no other sheet. *)
Lemma parseSingle_throws (sheet : Xlsx.Sheet) :
  Block.parseSingleEmployeeAttendanceSheet parseDate todayYear todayMonth timezoneOffset sheet
    = None <->
  Xlsx.ref sheet = None \/
  exists full, Xlsx.ref sheet = Some full /\ Block.tablingDateOf timezoneOffset sheet full = None.
Proof.
  split.
  - intros H. destruct (Xlsx.ref sheet) as [full|] eqn:Href; [|now left].
    right. exists full. split; [reflexivity|].
    destruct (Block.tablingDateOf timezoneOffset sheet full) as [tablingDate|] eqn:Htab;
      [|reflexivity].
    rewrite (parseSingle_returns sheet full tablingDate Href Htab) in H. discriminate.
  - unfold Block.parseSingleEmployeeAttendanceSheet.
    intros [->|(full & -> & ->)]; reflexivity.
Qed.

(** C8.  In the block-format parser every discovered block whose
    extracted Name or User ID is empty is skipped: no error is raised, the
    block adds no employee to the result, and the remaining blocks of the
    sheet are processed.  On a sheet whose used range and tabling date are
    read (they are read before the blocks), the parser returns, and its
    result is the list, in block order, of the employees of the blocks that
    have both values: a block without one of them gives no employee, and
    every other block gives the employee of its Name and User ID. *)
Theorem malformed_blocks_are_skipped (sheet : Xlsx.Sheet) (full : Xlsx.range)
    (tablingDate : string) :
  Xlsx.ref sheet = Some full ->
  Block.tablingDateOf timezoneOffset sheet full = Some tablingDate ->
  Block.parseSingleEmployeeAttendanceSheet parseDate todayYear todayMonth timezoneOffset sheet
    = Some (omap (blockResult parseDate todayYear todayMonth sheet full tablingDate)
              (blocksOf sheet full)) /\
  (forall block,
     blockName sheet full block = "" \/ blockUserId sheet full block = "" ->
     blockResult parseDate todayYear todayMonth sheet full tablingDate block = None) /\
  (forall block,
     blockName sheet full block <> "" -> blockUserId sheet full block <> "" ->
     exists e, blockResult parseDate todayYear todayMonth sheet full tablingDate block = Some e /\
               Employee.name e = blockName sheet full block /\
               Employee.userId e = blockUserId sheet full block).
Proof.
  intros Href Htab. split; [now apply parseSingle_returns|]. split.
  - intros block Hblock. now apply blockResult_None.
  - intros block Hn Hu.
    destruct (blockResult parseDate todayYear todayMonth sheet full tablingDate block) as [e|] eqn:E.
    + exists e. apply blockResult_Some in E as (H1 & H2 & _). auto.
    + apply blockResult_None in E. tauto.
Qed.

(** Every time card that the block parser builds has the days
    [1..daysInMonth] of its month. *)
Lemma buildTimeCard_days (month : string) (records : gmap Z Raw.t) :
  List.map Card.day (Block.buildTimeCard parseDate month records) =
  Block.daysOf (Calendar.daysInMonth (Block.yearOf month) (Block.monthNumOf month)).
Proof.
  unfold Block.buildTimeCard. rewrite List.map_map. simpl. apply List.map_id.
Qed.

Lemma parseSingle_days (sheet : Xlsx.Sheet) (emps : list Employee.t) :
  Block.parseSingleEmployeeAttendanceSheet parseDate todayYear todayMonth timezoneOffset sheet
    = Some emps ->
  Forall
    (fun e =>
       List.map Card.day (Employee.timeCard e) =
       Block.daysOf (Calendar.daysInMonth (Block.yearOf (Employee.month e))
                       (Block.monthNumOf (Employee.month e))))
    emps.
Proof.
  intros H. apply parseSingle_blocks in H as (full & tablingDate & _ & _ & ->).
  apply List.Forall_forall. intros e He.
  apply list_elem_of_In, list_elem_of_omap in He as (block & _ & Hblock).
  apply blockResult_Some in Hblock as (_ & _ & _ & records & ->).
  apply buildTimeCard_days.
Qed.

End BlockLoop.

(** ** The daily metrics, field by field *)

(** One case for each tuple that the calculators thread through their steps. *)
Ltac split_pair_lets :=
  repeat match goal with
  | |- context [match ?p with _ => _ end] =>
      lazymatch type of p with
      | (_ * _)%type =>
          let a := fresh "a" in
          let b := fresh "b" in
          let E := fresh "E" in
          destruct p as [a b] eqn:E
      end
  end.

Ltac pair_eq H := inversion H; subst; clear H.

Section MetricsFacts.

Variable parseDate : string -> option Z.

Local Abbreviation calc := (Metrics.calculateDailyMetricsFromTimes parseDate).
Local Abbreviation calcSimple := (Metrics.calculateDailyMetricsFromTimesForSimpleParser parseDate).
Local Open Scope float_scope.

Lemma hours_of_pair (ds : string) (i o : option string) :
  (if Metrics.isObject (Metrics.timeOf parseDate ds i) &&
      Metrics.isObject (Metrics.timeOf parseDate ds o) &&
      Metrics.notNaN (Metrics.timeOf parseDate ds i) &&
      Metrics.notNaN (Metrics.timeOf parseDate ds o) &&
      Metrics.later (Metrics.timeOf parseDate ds o) (Metrics.timeOf parseDate ds i)
   then Metrics.elapsed (Metrics.timeOf parseDate ds i) (Metrics.timeOf parseDate ds o) / 3600000
   else 0) = pairHours parseDate ds i o.
Proof.
  unfold pairHours, pairMs, clockOf, Metrics.timeOf.
  destruct (JS.truthy i), (JS.truthy o); simpl; try reflexivity;
    repeat match goal with
           | |- context [Metrics.newDateOfString ?p ?x] =>
               destruct (Metrics.newDateOfString p x); simpl
           end; try reflexivity.
  match goal with |- context [(?a <? ?b)%Z] => destruct (a <? b)%Z end; reflexivity.
Qed.

(** The morning pair of utils.js tests its arrival twice; the comparison of
    the two times makes up for the test that is missing. *)
Lemma hours_of_pair_slip (ds : string) (i o : option string) :
  (if Metrics.isObject (Metrics.timeOf parseDate ds i) &&
      Metrics.isObject (Metrics.timeOf parseDate ds o) &&
      Metrics.notNaN (Metrics.timeOf parseDate ds i) &&
      Metrics.notNaN (Metrics.timeOf parseDate ds i) &&
      Metrics.later (Metrics.timeOf parseDate ds o) (Metrics.timeOf parseDate ds i)
   then Metrics.elapsed (Metrics.timeOf parseDate ds i) (Metrics.timeOf parseDate ds o) / 3600000
   else 0) = pairHours parseDate ds i o.
Proof.
  unfold pairHours, pairMs, clockOf, Metrics.timeOf.
  destruct (JS.truthy i), (JS.truthy o); simpl; try reflexivity;
    repeat match goal with
           | |- context [Metrics.newDateOfString ?p ?x] =>
               destruct (Metrics.newDateOfString p x); simpl
           end; try reflexivity.
  match goal with |- context [(?a <? ?b)%Z] => destruct (a <? b)%Z end; reflexivity.
Qed.

Lemma supplied_Some (v : option string) (x : string) :
  supplied v = Some x <-> v = Some x /\ x <> "".
Proof.
  unfold supplied, JS.truthy. destruct v as [y|]; [|intuition discriminate].
  destruct (String.eqb_spec y ""); simpl; split.
  - discriminate.
  - intros [[= ->] H]. contradiction.
  - intros [= ->]. auto.
  - intros [H _]. exact H.
Qed.

Lemma supplied_None (v : option string) :
  supplied v = None <-> JS.truthy v = false.
Proof.
  unfold supplied. destruct v as [y|]; simpl; [|tauto].
  destruct (negb (String.eqb y "")); split; congruence.
Qed.

Lemma nonEmpty_orEmpty (v : option string) :
  Metrics.nonEmpty (JS.orEmpty v) = JS.truthy v.
Proof. destruct v; reflexivity. Qed.

Lemma minutes_of_pair (w : float) (ds : string) (i o : option string) :
  (if Metrics.isObject (Metrics.timeOf parseDate ds i) &&
      Metrics.isObject (Metrics.timeOf parseDate ds o) &&
      Metrics.notNaN (Metrics.timeOf parseDate ds i) &&
      Metrics.notNaN (Metrics.timeOf parseDate ds o) &&
      Metrics.later (Metrics.timeOf parseDate ds o) (Metrics.timeOf parseDate ds i)
   then w + Metrics.elapsed (Metrics.timeOf parseDate ds i) (Metrics.timeOf parseDate ds o) / 60000
   else w) = addMinutes parseDate w ds i o.
Proof.
  unfold addMinutes, pairMs, clockOf, Metrics.timeOf.
  destruct (JS.truthy i), (JS.truthy o); simpl; try reflexivity;
    repeat match goal with
           | |- context [Metrics.newDateOfString ?p ?x] =>
               destruct (Metrics.newDateOfString p x); simpl
           end; try reflexivity.
  match goal with |- context [(?a <? ?b)%Z] => destruct (a <? b)%Z end; reflexivity.
Qed.

Lemma late_test (g : bool) (ds : string) (v : option string) (std : option Z)
    (A : Type) (f : float -> A) (x : A) :
  (if g && Metrics.isObject (Metrics.timeOf parseDate ds v) &&
      Metrics.notNaN (Metrics.timeOf parseDate ds v) &&
      Metrics.later (Metrics.timeOf parseDate ds v) (Some std)
   then f (Metrics.elapsed (Some std) (Metrics.timeOf parseDate ds v) / 60000)
   else x) =
  match (if g then minutesBetween std (clockOf parseDate ds v) else None) with
  | Some mins => f mins
  | None => x
  end.
Proof.
  destruct g; [|reflexivity]. rewrite andb_true_l.
  unfold minutesBetween, clockOf, Metrics.timeOf.
  destruct (JS.truthy v); simpl; [|now destruct std].
  destruct (Metrics.newDateOfString parseDate (ds +:+ " " +:+ JS.orEmpty v)) as [a|];
    destruct std as [b|]; simpl; try reflexivity.
  destruct (b <? a)%Z; reflexivity.
Qed.

Lemma early_test (g : bool) (ds : string) (v : option string) (std : option Z)
    (A : Type) (f : float -> A) (x : A) :
  (if g && Metrics.isObject (Metrics.timeOf parseDate ds v) &&
      Metrics.notNaN (Metrics.timeOf parseDate ds v) &&
      Metrics.later (Some std) (Metrics.timeOf parseDate ds v)
   then f (Metrics.elapsed (Metrics.timeOf parseDate ds v) (Some std) / 60000)
   else x) =
  match (if g then minutesBetween (clockOf parseDate ds v) std else None) with
  | Some mins => f mins
  | None => x
  end.
Proof.
  destruct g; [|reflexivity]. rewrite andb_true_l.
  unfold minutesBetween, clockOf, Metrics.timeOf.
  destruct (JS.truthy v); simpl; [|reflexivity].
  destruct (Metrics.newDateOfString parseDate (ds +:+ " " +:+ JS.orEmpty v)) as [a|];
    destruct std as [b|]; simpl; try reflexivity.
  destruct (a <? b)%Z; reflexivity.
Qed.

(** *** The fields of the result, each as a function of the record *)

Lemma numberOf_isNumber (n : Z) : Metrics.isEmptyStr (Metrics.numberOf n) = false.
Proof. unfold Metrics.numberOf. destruct (JS.toDouble n); reflexivity. Qed.

Lemma undertime_start (record : Raw.t) :
  (if JS.truthy (Raw.undertime_excel record)
   then match Metrics.matchHM (JS.orEmpty (Raw.undertime_excel record)) with
        | Some (h, m) => (Metrics.numberOf h, Metrics.numberOf m)
        | None => (Metrics.UStr "", Metrics.UStr "")
        end
   else (Metrics.UStr "", Metrics.UStr "")) =
  match suppliedUndertime record with
  | Some (h, m) => (Metrics.numberOf h, Metrics.numberOf m)
  | None => (Metrics.UStr "", Metrics.UStr "")
  end.
Proof.
  unfold suppliedUndertime, supplied.
  destruct (Raw.undertime_excel record) as [x|]; simpl; [|reflexivity].
  destruct (negb (String.eqb x "")); reflexivity.
Qed.

(** The calculator of utils.js, field by field. *)
Lemma calc_fields (record : Raw.t) (year monthNum : option Z) (day : Z) :
  calc record year monthNum day =
  let ds := Metrics.dateStringOf year monthNum day in
  Daily.mk (Raw.am_arrival record) (Raw.am_departure record) (Raw.pm_arrival record)
    (Raw.pm_departure record) (Raw.ot_arrival record) (Raw.ot_departure record)
    (totalHoursOf parseDate record year monthNum day) (lateOf parseDate record ds) (earlyOutOf parseDate record ds)
    (overtimeOf parseDate record year monthNum day) (remarksOf parseDate record year monthNum day)
    (fst (undertimeOf parseDate record year monthNum day))
    (snd (undertimeOf parseDate record year monthNum day)).
Proof.
  unfold Metrics.calculateDailyMetricsFromTimes. cbv zeta.
  rewrite !hours_of_pair, !hours_of_pair_slip, !minutes_of_pair, undertime_start.
  rewrite !nonEmpty_orEmpty.
  rewrite (late_test _ _ _ _ _ (fun mins => (Num.formatMinutes mins, Metrics.addRemark "" "Late"))).
  fold (standardStart parseDate (Metrics.dateStringOf year monthNum day)).
  fold (standardEnd parseDate (Metrics.dateStringOf year monthNum day)).
  fold (hasTime record). fold (workedHours parseDate record year monthNum day).
  fold (workedMinutes parseDate record (Metrics.dateStringOf year monthNum day)).
  split_pair_lets.
  rewrite (early_test _ _ _ _ _ (fun mins => (Num.formatMinutes mins, Metrics.addRemark b1 "Early Out")))
    in E2.
  change (negb (Metrics.nonEmpty "")) with true in E2. cbv iota in E2.
  set (ds := Metrics.dateStringOf year monthNum day) in *.
  set (lm := minutesBetween (standardStart parseDate ds) (clockOf parseDate ds (Raw.am_arrival record))) in *.
  set (em := minutesBetween (clockOf parseDate ds (Raw.pm_departure record)) (standardEnd parseDate ds)) in *.
  set (w := workedHours parseDate record year monthNum day) in *.
  unfold totalHoursOf, lateOf, earlyOutOf, overtimeOf, remarksOf, remarksFrom, lateTag,
    earlyTag, overtimeTag, lateMinutes, earlyMinutes, undertimeOf, supplied.
  cbv zeta. fold ds lm em w.
  assert (Hlate : (a1, b1) =
            (match (if JS.truthy (Raw.late_excel record) then Raw.late_excel record else None) with
             | Some x => x
             | None => match lm with Some mins => Num.formatMinutes mins | None => "" end
             end,
             if match (if JS.truthy (Raw.late_excel record) then Raw.late_excel record else None), lm with
                | None, Some _ => true
                | _, _ => false
                end
             then Metrics.addRemark "" "Late" else "")).
  { rewrite <- E1. destruct (Raw.late_excel record) as [x|]; simpl.
    - destruct (String.eqb_spec x ""); simpl; [subst x|reflexivity].
      destruct lm; reflexivity.
    - destruct lm; reflexivity. }
  assert (Hearly : (a2, b2) =
            (match em with Some mins => Num.formatMinutes mins | None => "" end,
             if match em with Some _ => true | None => false end
             then Metrics.addRemark b1 "Early Out" else b1)).
  { rewrite <- E2. destruct em; reflexivity. }
  assert (Hover : (a3, b3) =
            (match (if JS.truthy (Raw.overtime_hours_excel record)
                    then Raw.overtime_hours_excel record else None) with
             | Some x => x
             | None => if 8 <? w then Num.formatHours (w - 8) else ""
             end,
             if match (if JS.truthy (Raw.overtime_hours_excel record)
                       then Raw.overtime_hours_excel record else None) with
                | None => 8 <? w
                | Some _ => false
                end
             then Metrics.addRemark b2 "Overtime" else b2)).
  { rewrite <- E3. destruct (Raw.overtime_hours_excel record) as [x|]; simpl.
    - destruct (String.eqb_spec x ""); simpl; [|reflexivity].
      destruct (8 <? w); reflexivity.
    - destruct (8 <? w); reflexivity. }
  assert (Hunder : (Metrics.show a0, Metrics.show b0) =
            match suppliedUndertime record with
            | Some (h, m) =>
                (Metrics.show (Metrics.numberOf h), Metrics.show (Metrics.numberOf m))
            | None =>
                if hasTime record then
                  if 0 <? Num.max0 (480 - workedMinutes parseDate record ds)
                  then (Metrics.show
                          (Metrics.UNum
                             (Num.floor (Num.max0 (480 - workedMinutes parseDate record ds) / 60))),
                        Metrics.show
                          (Metrics.UNum
                             (Num.roundMod60 (Num.max0 (480 - workedMinutes parseDate record ds)))))
                  else ("", "")
                else
                  match Calendar.getDay
                          (Calendar.newDate year (option_map (fun m => (m - 1)%Z) monthNum) day) with
                  | Some 6%Z => ("Saturday", "Saturday")
                  | Some 0%Z => ("Sunday", "Sunday")
                  | _ => ("", "")
                  end
            end).
  { destruct (suppliedUndertime record) as [[h m]|]; pair_eq E.
    - rewrite !numberOf_isNumber in E0. simpl in E0. pair_eq E0. reflexivity.
    - simpl in E0. destruct (hasTime record).
      + destruct (0 <? _); pair_eq E0; reflexivity.
      + destruct (Calendar.getDay _) as [[|p|p]|]; try (pair_eq E0; reflexivity).
        repeat (destruct p as [p|p|]; try (pair_eq E0; reflexivity)). }
  clear E E0 E1 E2 E3.
  pair_eq Hlate. pair_eq Hearly. pair_eq Hover.
  rewrite <- Hunder. simpl.
  f_equal.
  destruct (JS.truthy (Raw.total_hours_excel record)) eqn:Ht; simpl.
  - destruct (Raw.total_hours_excel record); [reflexivity|discriminate].
  - reflexivity.
Qed.


(** *** Overtime *)


End MetricsFacts.




(** ** The weekend sentinel of the undertime *)

Section Weekend.

Variable parseDate : string -> option Z.

(** utils.js: on a weekend day without clock times and without a supplied
    undertime, both undertime fields are the name of the day. *)
Lemma utils_weekend_sentinel (record : Raw.t) (year monthNum : option Z) (day : Z)
    (name : string) :
  weekendName (dayOfWeekOf year monthNum day) = Some name ->
  hasTime record = false ->
  supplied (Raw.undertime_excel record) = None ->
  let out := Metrics.calculateDailyMetricsFromTimes parseDate record year monthNum day in
  Daily.undertime_hours out = name /\ Daily.undertime_minutes out = name.
Proof.
  intros Hday Htime Hsup out. subst out. rewrite calc_fields. cbv zeta. simpl.
  unfold undertimeOf, suppliedUndertime. rewrite Hsup, Htime. cbv zeta.
  unfold dayOfWeekOf in Hday.
  destruct (Calendar.getDay _) as [[|p|p]|]; simpl in Hday; try discriminate.
  - inversion Hday. auto.
  - repeat (destruct p as [p|p|]; simpl in Hday; try discriminate).
    inversion Hday. auto.
Qed.

(** biometricParserSimple.js: on a weekend day both undertime fields are
    empty, whatever the record holds. *)
Lemma simple_weekend_blank (record : Raw.t) (year monthNum : option Z) (day : Z)
    (name : string) :
  weekendName (dayOfWeekOf year monthNum day) = Some name ->
  let out :=
    Metrics.calculateDailyMetricsFromTimesForSimpleParser parseDate record year monthNum day in
  Daily.undertime_hours out = "" /\ Daily.undertime_minutes out = "".
Proof.
  intros Hday out. subst out.
  unfold Metrics.calculateDailyMetricsFromTimesForSimpleParser. cbv zeta.
  unfold dayOfWeekOf in Hday.
  assert (Hflags :
    (match Calendar.getDay
             (Calendar.newDate year (option_map (fun m => m - 1) monthNum) day) with
     | Some 0 => true | _ => false end) ||
    (match Calendar.getDay
             (Calendar.newDate year (option_map (fun m => m - 1) monthNum) day) with
     | Some 6 => true | _ => false end) = true).
  { destruct (Calendar.getDay _) as [[|p|p]|]; simpl in Hday; try discriminate; [reflexivity|].
    repeat (destruct p as [p|p|]; simpl in Hday; try discriminate). reflexivity. }
  split_pair_lets. simpl.
  match goal with
  | H : (if ?c && negb ?sun && negb ?sat then _ else if ?sun || ?sat then _ else _) = (?x, ?y)
    |- _ =>
      assert (Hc : c && negb sun && negb sat = false)
        by (destruct c, sun, sat; simpl in *; congruence);
      rewrite Hc, Hflags in H; pair_eq H
  end.
  split; reflexivity.
Qed.

End Weekend.

(** C2 (the code at the failing input).  On Saturday 2025-04-05, for a day
    without any entry, the calculator of the simple-format parser returns
    empty undertime fields, where the calculator of utils.js, of which it is
    documented to be a copy, returns ["Saturday"]. *)
Theorem simple_calculator_misses_weekend_sentinel (parseDate : string -> option Z) :
  weekendName (dayOfWeekOf Sample.year Sample.monthNum Sample.saturday) = Some "Saturday" /\
  hasTime Sample.blankSaturday = false /\
  supplied (Raw.undertime_excel Sample.blankSaturday) = None /\
  (let out :=
     Metrics.calculateDailyMetricsFromTimesForSimpleParser parseDate Sample.blankSaturday
       Sample.year Sample.monthNum Sample.saturday in
   Daily.undertime_hours out = "" /\ Daily.undertime_minutes out = "") /\
  (let out :=
     Metrics.calculateDailyMetricsFromTimes parseDate Sample.blankSaturday
       Sample.year Sample.monthNum Sample.saturday in
   Daily.undertime_hours out = "Saturday" /\ Daily.undertime_minutes out = "Saturday").
Proof.
  split; [reflexivity|]. split; [reflexivity|]. split; [reflexivity|]. split.
  - apply (simple_weekend_blank parseDate _ _ _ _ "Saturday"). reflexivity.
  - apply (utils_weekend_sentinel parseDate _ _ _ _ "Saturday"); reflexivity.
Qed.

(** ** Precomputed fields *)

(** C4 (the counterexample).  A record whose precomputed undertime is the
    non-empty text ["30"]: the calculator does not emit it; it recomputes
    the undertime from the clock times (45 minutes), as it does for the same
    record without the value. *)
Lemma precomputed_undertime_is_recomputed :
  supplied (Raw.undertime_excel Sample.minutesUndertimeDay) = Some "30" /\
  (let out :=
     Metrics.calculateDailyMetricsFromTimes Metrics.clockParser Sample.minutesUndertimeDay
       Sample.year Sample.monthNum Sample.tuesday in
   Daily.undertime_hours out = "0" /\ Daily.undertime_minutes out = "45" /\
   out = Metrics.calculateDailyMetricsFromTimes Metrics.clockParser
           (withoutUndertime Sample.minutesUndertimeDay)
           Sample.year Sample.monthNum Sample.tuesday).
Proof. vm_compute. repeat split; reflexivity. Qed.

(** The hours and the minutes of a value of the form [H:M] are not
    negative, and [parseInt] and [String] give them back digit for digit
    below [2^53]. *)
Lemma digitsFrom_nonneg (s : string) (acc : Z) :
  0 <= acc -> 0 <= fst (JS.digitsFrom acc s).
Proof.
  revert acc. induction s as [|a s IH]; intros acc Hacc; simpl; [exact Hacc|].
  destruct (JS.isDigit a) eqn:Ha; [|exact Hacc].
  apply IH. unfold JS.isDigit in Ha. unfold JS.digitVal.
  apply andb_true_iff in Ha as [Ha _]. apply Z.leb_le in Ha. lia.
Qed.

Lemma leadingDigits_nonneg (s r : string) (n : Z) :
  JS.leadingDigits s = Some (n, r) -> 0 <= n.
Proof.
  unfold JS.leadingDigits. destruct s as [|a s]; [discriminate|].
  destruct (JS.isDigit a); [|discriminate].
  intros H. assert (E : JS.digitsFrom 0 (String a s) = (n, r)) by congruence.
  change n with (fst (n, r)). rewrite <- E. apply digitsFrom_nonneg. lia.
Qed.

Lemma matchHM_nonneg (x : string) (h m : Z) :
  Metrics.matchHM x = Some (h, m) -> 0 <= h /\ 0 <= m.
Proof.
  unfold Metrics.matchHM.
  destruct (JS.leadingDigits x) as [[h' r]|] eqn:Eh; [|discriminate].
  destruct r as [|c r]; [discriminate|].
  destruct (Ascii.eqb_spec c ":") as [->|Hc].
  - destruct (JS.leadingDigits r) as [[m' r']|] eqn:Em; [|discriminate].
    destruct r'; [|discriminate].
    intros H. inversion H; subst.
    split; eapply leadingDigits_nonneg; eassumption.
  - destruct c as [[] [] [] [] [] [] [] []]; try discriminate. now contradiction Hc.
Qed.

Lemma show_numberOf_exact (n : Z) :
  0 <= n < 2 ^ 53 -> Metrics.show (Metrics.numberOf n) = JS.showZ n.
Proof.
  intros [H0 H53]. unfold Metrics.numberOf, JS.toDouble.
  destruct (Z.ltb_spec n (2 ^ 53)); [|lia].
  unfold Metrics.show, JS.showDouble.
  destruct (Z.ltb_spec (Z.abs n) (2 ^ 53)); [reflexivity|lia].
Qed.

(** Beyond [2^53] the hours are printed as the nearest double is. *)
Lemma show_numberOf_rounds :
  Metrics.show (Metrics.numberOf 99999999999999999999) = "100000000000000000000" /\
  Metrics.show (Metrics.numberOf 9007199254740993) = "9007199254740992" /\
  Metrics.show (Metrics.numberOf 1234567890123456789012) = "1.2345678901234568e+21" /\
  Metrics.show (Metrics.numberOf (2 * 10 ^ 308)) = "Infinity".
Proof. vm_compute. repeat split; reflexivity. Qed.

Lemma huge_undertime_is_rounded :
  let out :=
    Metrics.calculateDailyMetricsFromTimes Metrics.clockParser Sample.hugeUndertimeDay
      Sample.year Sample.monthNum Sample.tuesday in
  Metrics.matchHM "99999999999999999999:7" = Some (99999999999999999999, 7) /\
  Daily.undertime_hours out = "100000000000000000000" /\
  Daily.undertime_minutes out = "7".
Proof. vm_compute. repeat split; reflexivity. Qed.

(** C4 (as amended).  A precomputed late, overtime or total_hours field that
    is present and not empty is emitted as it is, and a precomputed
    undertime of the form [H:M] is emitted as the numbers that [parseInt]
    reads in its hours and in its minutes (H and M themselves below [2^53],
    the nearest doubles beyond); the computation of that field alone is
    skipped: early_out and every other one of these fields are what the
    calculator computes from the six raw time fields for the same record
    without the value, and the remarks are those of that record less the tag
    (Late, Overtime) of the field that was supplied.  A precomputed
    undertime that is not of the form [H:M] is ignored: the result is that
    of the record without it. *)
Theorem precomputed_fields_take_precedence
    (parseDate : string -> option Z) (record : Raw.t) (year monthNum : option Z) (day : Z) :
  let calc := Metrics.calculateDailyMetricsFromTimes parseDate in
  let out := calc record year monthNum day in
  let ds := Metrics.dateStringOf year monthNum day in
  (forall x, supplied (Raw.late_excel record) = Some x ->
     let ref := calc (withoutLate record) year monthNum day in
     Daily.late out = x /\
     Daily.early_out out = Daily.early_out ref /\
     Daily.overtime out = Daily.overtime ref /\
     Daily.total_hours out = Daily.total_hours ref /\
     Daily.undertime_hours out = Daily.undertime_hours ref /\
     Daily.undertime_minutes out = Daily.undertime_minutes ref /\
     Daily.remarks ref =
       remarksFrom (arrivedLate parseDate record ds) (earlyTag parseDate record ds)
         (overtimeTag parseDate record year monthNum day) /\
     Daily.remarks out =
       remarksFrom false (earlyTag parseDate record ds)
         (overtimeTag parseDate record year monthNum day)) /\
  (forall x, supplied (Raw.overtime_hours_excel record) = Some x ->
     let ref := calc (withoutOvertime record) year monthNum day in
     Daily.overtime out = x /\
     Daily.late out = Daily.late ref /\
     Daily.early_out out = Daily.early_out ref /\
     Daily.total_hours out = Daily.total_hours ref /\
     Daily.undertime_hours out = Daily.undertime_hours ref /\
     Daily.undertime_minutes out = Daily.undertime_minutes ref /\
     Daily.remarks ref =
       remarksFrom (lateTag parseDate record ds) (earlyTag parseDate record ds)
         (8 <? workedHours parseDate record year monthNum day)%float /\
     Daily.remarks out =
       remarksFrom (lateTag parseDate record ds) (earlyTag parseDate record ds) false) /\
  (forall x, supplied (Raw.total_hours_excel record) = Some x ->
     let ref := calc (withoutTotalHours record) year monthNum day in
     Daily.total_hours out = x /\
     Daily.late out = Daily.late ref /\
     Daily.early_out out = Daily.early_out ref /\
     Daily.overtime out = Daily.overtime ref /\
     Daily.undertime_hours out = Daily.undertime_hours ref /\
     Daily.undertime_minutes out = Daily.undertime_minutes ref /\
     Daily.remarks out = Daily.remarks ref) /\
  (forall x h m, supplied (Raw.undertime_excel record) = Some x ->
     Metrics.matchHM x = Some (h, m) ->
     let ref := calc (withoutUndertime record) year monthNum day in
     Daily.undertime_hours out = Metrics.show (Metrics.numberOf h) /\
     Daily.undertime_minutes out = Metrics.show (Metrics.numberOf m) /\
     (h < 2 ^ 53 -> Daily.undertime_hours out = JS.showZ h) /\
     (m < 2 ^ 53 -> Daily.undertime_minutes out = JS.showZ m) /\
     Daily.late out = Daily.late ref /\
     Daily.early_out out = Daily.early_out ref /\
     Daily.overtime out = Daily.overtime ref /\
     Daily.total_hours out = Daily.total_hours ref /\
     Daily.remarks out = Daily.remarks ref) /\
  (forall x, supplied (Raw.undertime_excel record) = Some x ->
     Metrics.matchHM x = None ->
     out = calc (withoutUndertime record) year monthNum day).
Proof.
  intros calc out ds. subst calc out. rewrite !calc_fields. cbv zeta. fold ds.
  repeat apply conj.
  - intros x Hx. simpl.
    unfold lateOf, remarksOf, lateTag, arrivedLate, lateMinutes. rewrite Hx.
    repeat split; reflexivity.
  - intros x Hx. simpl.
    unfold overtimeOf, remarksOf, overtimeTag. rewrite Hx.
    repeat split; reflexivity.
  - intros x Hx. simpl.
    unfold totalHoursOf. rewrite Hx.
    repeat split; reflexivity.
  - intros x h m Hx Hm. simpl.
    unfold undertimeOf, suppliedUndertime. rewrite Hx, Hm.
    destruct (matchHM_nonneg x h m Hm) as [Hh0 Hm0]. cbn [fst snd].
    split; [reflexivity|]. split; [reflexivity|].
    split; [intros Hh; apply show_numberOf_exact; lia|].
    split; [intros Hm'; apply show_numberOf_exact; lia|].
    repeat split; reflexivity.
  - intros x Hx Hm.
    f_equal; unfold undertimeOf, suppliedUndertime; rewrite Hx, Hm; reflexivity.
Qed.

(** The five cases at records that supply the fields. *)
Lemma precomputed_fields_witness :
  let out :=
    Metrics.calculateDailyMetricsFromTimes Metrics.clockParser Sample.suppliedDay
      Sample.year Sample.monthNum Sample.tuesday in
  (Daily.late out = "0h 20m" /\ Daily.overtime out = "2h 00m" /\
   Daily.total_hours out = "9h 00m" /\
   Daily.undertime_hours out = "1" /\ Daily.undertime_minutes out = "5") /\
  Metrics.calculateDailyMetricsFromTimes Metrics.clockParser Sample.minutesUndertimeDay
    Sample.year Sample.monthNum Sample.tuesday =
  Metrics.calculateDailyMetricsFromTimes Metrics.clockParser
    (withoutUndertime Sample.minutesUndertimeDay) Sample.year Sample.monthNum Sample.tuesday.
Proof.
  pose proof (precomputed_fields_take_precedence Metrics.clockParser Sample.suppliedDay
                Sample.year Sample.monthNum Sample.tuesday) as (Hl & Ho & Ht & Hu & _).
  pose proof (precomputed_fields_take_precedence Metrics.clockParser Sample.minutesUndertimeDay
                Sample.year Sample.monthNum Sample.tuesday) as (_ & _ & _ & _ & Hn).
  destruct (Hl "0h 20m" eq_refl) as (Hlate & _).
  destruct (Ho "2h 00m" eq_refl) as (Hover & _).
  destruct (Ht "9h 00m" eq_refl) as (Htotal & _).
  destruct (Hu "1:05" 1 5 eq_refl eq_refl) as (_ & _ & Hhours & Hminutes & _).
  specialize (Hhours eq_refl). specialize (Hminutes eq_refl).
  cbv zeta.
  exact (conj (conj Hlate (conj Hover (conj Htotal (conj Hhours Hminutes))))
              (Hn "30" eq_refl eq_refl)).
Defined.

(** ** Samples *)

Lemma sample_sheet_parses : Sample.parseSheet Sample.sheet = Some Sample.parsedSheet.
Proof. vm_compute. reflexivity. Qed.

Lemma sample_sheet_employees :
  List.map (fun e => (Employee.name e, Employee.userId e, Employee.month e,
                      monthDays (Employee.month e), length (Employee.timeCard e)))
    Sample.parsedSheet
  = [("Alice", "7", "2025-04", Some 30, 30%nat); ("Carol", "9", "2025-04", Some 30, 30%nat)].
Proof. vm_compute. reflexivity. Qed.

Lemma sample_anchor_columns (col : Z) :
  (exists row, 0 <= row <= Xlsx.r (Xlsx.e Sample.sheetRange) /\
               0 <= col <= Xlsx.c (Xlsx.e Sample.sheetRange) /\
               dayAnchorCell Sample.sheet row col = true) <->
  col = 1 \/ col = 16 \/ col = 31.
Proof.
  split.
  - intros (row & _ & _ & H). unfold dayAnchorCell, Xlsx.cellAt in H.
    destruct (Xlsx.cells Sample.sheet !! (row, col)) as [v|] eqn:E; [|discriminate].
    apply elem_of_list_to_map_2 in E. unfold Sample.sheetCells in E.
    repeat (apply elem_of_cons in E as [E|E];
            [inversion E; subst; clear E; vm_compute in H;
             first [discriminate | auto]|]).
    now apply elem_of_nil in E.
  - intros [-> | [-> | ->]]; exists 2; (split; [simpl; lia|]); (split; [simpl; lia|]);
      vm_compute; reflexivity.
Qed.

(** C6, on the sample worksheet. *)
Lemma block_spans_B_Q_AF_witness :
  Block.sortedDayColumnIndices (Block.dayHeaderLocations Sample.sheet Sample.sheetRange)
    = [1; 16; 31] /\
  Block.blockSpans Sample.sheet Sample.sheetRange = [(1, 15); (16, 30); (31, 51)].
Proof.
  exact (block_spans_B_Q_AF Sample.sheet Sample.sheetRange sample_anchor_columns).
Defined.

(** C8, on the sample worksheet: of its three blocks, the second has no
    User ID; Alice and Carol remain. *)
Lemma malformed_blocks_are_skipped_witness :
  Sample.parseSheet Sample.sheet =
    Some (omap (blockResult Metrics.clockParser 2026 10 Sample.sheet Sample.sheetRange "")
            (blocksOf Sample.sheet Sample.sheetRange)) /\
  (forall block,
     blockName Sample.sheet Sample.sheetRange block = "" \/
     blockUserId Sample.sheet Sample.sheetRange block = "" ->
     blockResult Metrics.clockParser 2026 10 Sample.sheet Sample.sheetRange "" block = None) /\
  (forall block,
     blockName Sample.sheet Sample.sheetRange block <> "" ->
     blockUserId Sample.sheet Sample.sheetRange block <> "" ->
     exists e, blockResult Metrics.clockParser 2026 10 Sample.sheet Sample.sheetRange "" block
               = Some e /\
               Employee.name e = blockName Sample.sheet Sample.sheetRange block /\
               Employee.userId e = blockUserId Sample.sheet Sample.sheetRange block).
Proof.
  apply (malformed_blocks_are_skipped Metrics.clockParser 2026 10 (-480) Sample.sheet
           Sample.sheetRange "").
  - reflexivity.
  - vm_compute. reflexivity.
Defined.

(** The employees of the sample worksheet: the blocks of Alice and Carol. *)
Lemma sample_blocks_kept :
  omap (blockResult Metrics.clockParser 2026 10 Sample.sheet Sample.sheetRange "")
    (blocksOf Sample.sheet Sample.sheetRange) = Sample.parsedSheet /\
  List.map Employee.name Sample.parsedSheet = ["Alice"; "Carol"].
Proof. vm_compute. split; reflexivity. Qed.

Lemma sample_second_block_has_no_user_id :
  blocksOf Sample.sheet Sample.sheetRange = [(0%nat, 1); (1%nat, 16); (2%nat, 31)] /\
  blockName Sample.sheet Sample.sheetRange (1%nat, 16) = "Bob" /\
  blockUserId Sample.sheet Sample.sheetRange (1%nat, 16) = "".
Proof. vm_compute. repeat split; reflexivity. Qed.

(** ** The days of a time card *)

Lemma numberedDays_daysOf (n : option Z) (timeCard : list Card.t) :
  List.map Card.day timeCard = Block.daysOf n -> numberedDays n timeCard.
Proof.
  intros H. destruct n as [k|]; simpl in *.
  - split; [exact H|].
    rewrite <- (List.length_map Card.day), H. apply length_seqZ.
  - now apply List.map_eq_nil in H.
Qed.

(** [new Date(year, monthNum, 0).getDate()] is the Gregorian length of the
    month, for the years 1900 to 2100. *)
Lemma daysInMonth_gregorian (y m : Z) :
  1900 <= y <= 2100 -> 1 <= m <= 12 ->
  Calendar.daysInMonth (Some y) (Some m) = Some (Calendar.gregorianLength y m).
Proof.
  intros Hy Hm.
  assert (Hall :
    List.forallb
      (fun y => List.forallb
         (fun m => match Calendar.daysInMonth (Some y) (Some m) with
                   | Some n => n =? Calendar.gregorianLength y m
                   | None => false
                   end)
         (seqZ 1 12))
      (seqZ 1900 201) = true) by (vm_compute; reflexivity).
  rewrite forallb_forall in Hall.
  assert (Hiny : In y (seqZ 1900 201)) by (apply list_elem_of_In, elem_of_seqZ; lia).
  specialize (Hall y Hiny). rewrite forallb_forall in Hall.
  assert (Hinm : In m (seqZ 1 12)) by (apply list_elem_of_In, elem_of_seqZ; lia).
  specialize (Hall m Hinm).
  destruct (Calendar.daysInMonth (Some y) (Some m)) as [n|]; [|discriminate].
  apply Z.eqb_eq in Hall. now subst n.
Qed.

(** C1 (the counterexample).  The simple-format parser gives the employee of
    February 2025, a month of 28 days, a time card of 31 entries. *)
Lemma simple_timecard_of_february_has_31_entries :
  List.map (fun e => (Employee.month e, monthDays (Employee.month e),
                      length (Employee.timeCard e)))
    (Simple.parseSimpleBiometric Metrics.clockParser Sample.rows)
  = [("2025-02", Some 28, 31%nat)].
Proof. vm_compute. reflexivity. Qed.

(** C1 (as amended).  Each employee that the block-format parser produces,
    and each time summary that [calculateEmployeeTimeSummary] returns for an
    employee and a month, has exactly [daysInMonth(month)] entries, numbered
    contiguously from day 1; each employee that the simple-format parser
    produces has exactly 31 entries, numbered contiguously from day 1,
    whatever the month. *)
Theorem timecard_days :
  (forall (parseDate : string -> option Z) (todayYear todayMonth timezoneOffset : Z)
          (sheet : Xlsx.Sheet) (emps : list Employee.t),
     Block.parseSingleEmployeeAttendanceSheet parseDate todayYear todayMonth timezoneOffset sheet
       = Some emps ->
     Forall (fun e => numberedDays (monthDays (Employee.month e)) (Employee.timeCard e)) emps) /\
  (forall (calc : Raw.t -> option Z -> option Z -> Z -> Daily.t)
          (timeCard : list Controller.dayRecord) (month : string),
     month <> "" ->
     let result := Controller.calculateEmployeeTimeSummary calc (Some timeCard) month in
     numberedDays (monthDays month) (Controller.timeSummary result) /\
     Controller.daysInMonth result = monthDays month) /\
  (forall (parseDate : string -> option Z) (rows : list Simple.Row),
     Forall (fun e => numberedDays (Some 31) (Employee.timeCard e))
       (Simple.parseSimpleBiometric parseDate rows)).
Proof.
  repeat apply conj.
  - intros parseDate todayYear todayMonth timezoneOffset sheet emps H.
    eapply List.Forall_impl; [|exact (parseSingle_days _ _ _ _ _ _ H)].
    intros e He. now apply numberedDays_daysOf.
  - intros calc timeCard month Hmonth result. subst result.
    unfold Controller.calculateEmployeeTimeSummary.
    apply String.eqb_neq in Hmonth. rewrite Hmonth. simpl. split; [|reflexivity].
    apply numberedDays_daysOf. rewrite List.map_map. simpl. apply List.map_id.
  - intros parseDate rows.
    eapply List.Forall_impl; [|exact (parseSimpleBiometric_shape parseDate rows)].
    intros e (_ & _ & _ & _ & He). simpl. split; [exact He|].
    rewrite <- (List.length_map Card.day), He. reflexivity.
Qed.

(** The three cases: the sample worksheet (April 2025, 30 days), a summary of
    February 2024 (29 days), and the sample rows. *)
Lemma timecard_days_witness :
  Forall (fun e => numberedDays (monthDays (Employee.month e)) (Employee.timeCard e))
    Sample.parsedSheet /\
  numberedDays (Some 29)
    (Controller.timeSummary
       (Controller.calculateEmployeeTimeSummary
          (Metrics.calculateDailyMetricsFromTimes Metrics.clockParser)
          (Some [Controller.mkDay 1 Sample.overtimeDay]) "2024-02")) /\
  Forall (fun e => numberedDays (Some 31) (Employee.timeCard e))
    (Simple.parseSimpleBiometric Metrics.clockParser Sample.rows).
Proof.
  destruct timecard_days as (Hblock & Hsummary & Hsimple).
  split; [|split].
  - exact (Hblock Metrics.clockParser 2026 10 (-480) Sample.sheet Sample.parsedSheet
             sample_sheet_parses).
  - refine (proj1 (Hsummary (Metrics.calculateDailyMetricsFromTimes Metrics.clockParser)
                     [Controller.mkDay 1 Sample.overtimeDay] "2024-02" _)).
    discriminate.
  - exact (Hsimple Metrics.clockParser Sample.rows).
Defined.

(** C10.  Every employee record produced by the simple-format parser has its
    userId equal to its name, and has department, attendanceDateRange and
    tablingDate all equal to the empty string. *)
Theorem simple_parser_identity_fields (parseDate : string -> option Z)
    (rows : list Simple.Row) :
  Forall
    (fun e =>
       Employee.userId e = Employee.name e /\
       Employee.department e = "" /\
       Employee.attendanceDateRange e = "" /\
       Employee.tablingDate e = "")
    (Simple.parseSimpleBiometric parseDate rows).
Proof.
  eapply List.Forall_impl; [|exact (parseSimpleBiometric_shape parseDate rows)].
  intros e (H1 & H2 & H3 & H4 & _). auto.
Qed.

Lemma sample_rows_employee :
  List.map (fun e => (Employee.userId e, Employee.name e, Employee.department e))
    (Simple.parseSimpleBiometric Metrics.clockParser Sample.rows)
  = [("Ann", "Ann", "")].
Proof. vm_compute. reflexivity. Qed.

(** ** Format detection *)

Lemma headersInclude_spec (row : list (option string)) (label : string) :
  Simple.headersInclude (Simple.normalizeHeaders row) label = true <->
  exists h, In (Some h) row /\ JS.toLowerCase (JS.trim h) = label.
Proof.
  unfold Simple.headersInclude, Simple.normalizeHeaders.
  rewrite existsb_exists. split.
  - intros ([x|] & Hin & Hx); [|discriminate].
    apply in_map_iff in Hin as ([h|] & Hh & Hin); [|discriminate].
    inversion Hh; subst x. apply String.eqb_eq in Hx. eauto.
  - intros (h & Hin & Hh). exists (Some label). split; [|apply String.eqb_refl].
    apply in_map_iff. exists (Some h). simpl. now rewrite Hh.
Qed.

Lemma In_header_row (sheet : Xlsx.Sheet) (h : string) :
  In (Some h)
     (List.map (fun col => option_map Xlsx.toStr (Xlsx.cellAt sheet 0 col)) (seqZ 0 26)) <->
  exists col x, 0 <= col < 26 /\ Xlsx.cellAt sheet 0 col = Some x /\ Xlsx.toStr x = h.
Proof.
  rewrite in_map_iff. split.
  - intros (col & Hcol & Hin). apply list_elem_of_In, elem_of_seqZ in Hin.
    destruct (Xlsx.cellAt sheet 0 col) as [x|] eqn:E; [|discriminate].
    inversion Hcol. exists col, x. repeat split; auto; lia.
  - intros (col & x & Hcol & Hx & Hh). exists col. rewrite Hx. split; [simpl; now rewrite Hh|].
    apply list_elem_of_In, elem_of_seqZ. lia.
Qed.

(** C7.  Format detection classifies a workbook as simple if and only if the
    lower-cased, trimmed header texts of row 1 (columns A to Z) of the first
    worksheet include all five labels name, date, timetable, clock in and
    clock out, in whatever columns they stand; the loader then parses it
    with the simple-format parser, and otherwise with the block-format
    parser, sheet by sheet. *)
Theorem format_detection
    (parseDate : string -> option Z) (todayYear todayMonth timezoneOffset : Z)
    (sheet_to_json : Xlsx.Sheet -> list Simple.Row)
    (workbook : Load.Workbook) (firstSheet : Xlsx.Sheet) :
  (Simple.isSimpleBiometricFormat firstSheet = true <->
   Xlsx.ref firstSheet <> None /\
   forall label, In label ["name"; "date"; "timetable"; "clock in"; "clock out"] ->
     exists col x, 0 <= col < 26 /\ Xlsx.cellAt firstSheet 0 col = Some x /\
                   JS.toLowerCase (JS.trim (Xlsx.toStr x)) = label) /\
  Load.parseWorkbook parseDate todayYear todayMonth timezoneOffset sheet_to_json
    workbook firstSheet =
  (if Simple.isSimpleBiometricFormat firstSheet
   then Some (Simple.parseSimpleBiometric parseDate (sheet_to_json firstSheet))
   else Load.parseSheets parseDate todayYear todayMonth timezoneOffset (take 20 workbook) []).
Proof.
  split.
  - unfold Simple.isSimpleBiometricFormat, Simple.rawHeadersOf.
    destruct (Xlsx.ref firstSheet) as [full|].
    + rewrite forallb_forall. unfold Simple.requiredSimpleHeaders. split.
      * intros H. split; [discriminate|]. intros label Hlabel.
        apply H, headersInclude_spec in Hlabel as (h & Hin & Hh).
        apply In_header_row in Hin as (col & x & Hcol & Hx & <-). eauto.
      * intros [_ H] label Hlabel.
        destruct (H label Hlabel) as (col & x & Hcol & Hx & Hh).
        apply headersInclude_spec. exists (Xlsx.toStr x). split; [|exact Hh].
        apply In_header_row. eauto.
    + split; [discriminate|]. intros [H _]. now contradiction H.
  - unfold Load.parseWorkbook, Load.detect.
    destruct (Simple.isSimpleBiometricFormat firstSheet); reflexivity.
Qed.

(** The two formats on the samples: the simple sheet, whose headers are in
    mixed case and in an order of their own, and the block sheet. *)
Lemma format_detection_samples :
  Simple.isSimpleBiometricFormat Sample.simpleSheet = true /\
  Simple.isSimpleBiometricFormat Sample.sheet = false.
Proof. vm_compute. split; reflexivity. Qed.

(** ** The store: one employee *)

Arguments Db.keyEqb : simpl never.

Lemma keyEqb_eq (a b : Db.key) : Db.keyEqb a b = true <-> a = b.
Proof.
  destruct a as [[u1 n1] m1], b as [[u2 n2] m2]. unfold Db.keyEqb.
  rewrite !andb_true_iff, !String.eqb_eq. split.
  - intros [[-> ->] ->]. reflexivity.
  - intros [= -> -> ->]. auto.
Qed.

Lemma findEmployee_Some (k : Db.key) (rows : list Db.employeeRow) (i : Z) :
  Db.findEmployee k rows = Some i ->
  exists row, In row rows /\ Db.keyOfRow row = k /\ Db.id row = i.
Proof.
  unfold Db.findEmployee. destruct (List.find _ rows) as [row|] eqn:E; [|discriminate].
  intros [= <-]. apply find_some in E as [Hin Hk]. apply keyEqb_eq in Hk. eauto.
Qed.

Lemma findEmployee_None (k : Db.key) (rows : list Db.employeeRow) :
  Db.findEmployee k rows = None <-> ~ In k (List.map Db.keyOfRow rows).
Proof.
  unfold Db.findEmployee. split.
  - destruct (List.find _ rows) as [row|] eqn:E; [discriminate|]. intros _ Hin.
    apply in_map_iff in Hin as (row & Hk & Hin).
    pose proof (find_none _ _ E row Hin) as H. cbv beta in H.
    assert (Db.keyEqb (Db.keyOfRow row) k = true) by now apply keyEqb_eq. congruence.
  - intros Hnot. destruct (List.find _ rows) as [row|] eqn:E; [|reflexivity].
    apply find_some in E as [Hin Hk]. apply keyEqb_eq in Hk.
    contradiction Hnot. apply in_map_iff. eauto.
Qed.

(** With unique keys, the row of a key is the one that the lookup finds. *)
Lemma findEmployee_row (rows : list Db.employeeRow) (row : Db.employeeRow) :
  List.NoDup (List.map Db.keyOfRow rows) -> In row rows ->
  Db.findEmployee (Db.keyOfRow row) rows = Some (Db.id row).
Proof.
  induction rows as [|r rows IH]; intros Hnd Hin; [contradiction|].
  inversion Hnd as [|? ? Hnotin Hnd']; subst.
  unfold Db.findEmployee. simpl.
  destruct (Db.keyEqb (Db.keyOfRow r) (Db.keyOfRow row)) eqn:E.
  - apply keyEqb_eq in E. destruct Hin as [->|Hin]; [reflexivity|].
    contradiction Hnotin. rewrite E. now apply in_map.
  - destruct Hin as [->|Hin].
    + assert (Db.keyEqb (Db.keyOfRow row) (Db.keyOfRow row) = true) by now apply keyEqb_eq.
      congruence.
    + now apply IH.
Qed.

Lemma NoDup_map_inj {A B : Type} (f : A -> B) (l : list A) (x y : A) :
  List.NoDup (List.map f l) -> In x l -> In y l -> f x = f y -> x = y.
Proof.
  induction l as [|a l IH]; intros Hnd Hx Hy Hf; [contradiction|].
  inversion Hnd as [|? ? Hnotin Hnd']; subst.
  destruct Hx as [->|Hx], Hy as [->|Hy]; auto.
  - contradiction Hnotin. rewrite Hf. now apply in_map.
  - contradiction Hnotin. rewrite <- Hf. now apply in_map.
Qed.

Lemma updateEmployee_ids (e : Employee.t) (i : Z) (rows : list Db.employeeRow) :
  List.map Db.id (Db.updateEmployee e i rows) = List.map Db.id rows /\
  List.map Db.keyOfRow (Db.updateEmployee e i rows) = List.map Db.keyOfRow rows.
Proof.
  unfold Db.updateEmployee. rewrite !List.map_map. split; apply List.map_ext;
    intros row; destruct (Db.id row =? i); reflexivity.
Qed.

Lemma findEmployee_keys (k : Db.key) (rows rows' : list Db.employeeRow) :
  List.map (fun row => (Db.id row, Db.keyOfRow row)) rows =
  List.map (fun row => (Db.id row, Db.keyOfRow row)) rows' ->
  Db.findEmployee k rows = Db.findEmployee k rows'.
Proof.
  revert rows'. induction rows as [|r rows IH]; intros [|r' rows'] H; try discriminate;
    [reflexivity|].
  simpl in H.
  assert (Hhead : (Db.id r, Db.keyOfRow r) = (Db.id r', Db.keyOfRow r'))
    by exact (f_equal (fun l => List.hd (Db.id r, Db.keyOfRow r) l) H).
  assert (Hrest : List.map (fun row => (Db.id row, Db.keyOfRow row)) rows =
                  List.map (fun row => (Db.id row, Db.keyOfRow row)) rows')
    by exact (f_equal (@List.tl _) H).
  pose proof (f_equal fst Hhead) as Hid. pose proof (f_equal snd Hhead) as Hkey.
  cbn [fst snd] in Hid, Hkey.
  unfold Db.findEmployee in *. cbn [List.find]. rewrite Hkey.
  destruct (Db.keyEqb (Db.keyOfRow r') k); [cbn [option_map]; congruence|]. now apply IH.
Qed.

Lemma updateEmployee_skeleton (e : Employee.t) (i : Z) (rows : list Db.employeeRow) :
  List.map (fun row => (Db.id row, Db.keyOfRow row)) (Db.updateEmployee e i rows) =
  List.map (fun row => (Db.id row, Db.keyOfRow row)) rows.
Proof.
  unfold Db.updateEmployee. rewrite List.map_map. apply List.map_ext.
  intros row. destruct (Db.id row =? i); reflexivity.
Qed.

(** The rows that the loop over a time card adds. *)
Lemma insertRecords_spec (i : Z) (timeCard : list Card.t) (records : list Db.timeRecord)
    (seq : Z) :
  exists new,
    fst (Db.insertRecords i timeCard records seq) = (records ++ new)%list /\
    List.map Db.entry new = List.filter Card.hasRawTime timeCard /\
    Forall (fun rec => Db.employee_id rec = i) new.
Proof.
  unfold Db.insertRecords. revert records seq.
  induction timeCard as [|c timeCard IH]; intros records seq; simpl.
  - exists []. rewrite app_nil_r. repeat split. constructor.
  - destruct (Card.hasRawTime c).
    + destruct (IH (records ++ [Db.mkRecord (seq + 1) i c])%list (seq + 1))
        as (new & Hnew & Hmap & Hall).
      exists (Db.mkRecord (seq + 1) i c :: new). rewrite Hnew, <- app_assoc. simpl.
      repeat split; [now rewrite Hmap|]. constructor; [reflexivity|exact Hall].
    + apply IH.
Qed.

Lemma dayRecords_after (i j : Z) (timeCard : list Card.t) (records : list Db.timeRecord)
    (seq : Z) (rows : list Db.employeeRow) (eseq rseq : Z) :
  Db.dayRecords j
    (Db.mk rows (fst (Db.insertRecords i timeCard (Db.deleteRecords i records) seq)) eseq rseq)
  = if j =? i then List.filter Card.hasRawTime timeCard
    else Db.dayRecords j (Db.mk rows records eseq rseq).
Proof.
  destruct (insertRecords_spec i timeCard (Db.deleteRecords i records) seq)
    as (new & -> & Hmap & Hall).
  unfold Db.dayRecords, Db.deleteRecords. simpl.
  rewrite List.filter_app, List.map_app.
  destruct (Z.eqb_spec j i) as [->|Hne].
  - replace (List.filter (fun rec => Db.employee_id rec =? i)
               (List.filter (fun rec => negb (Db.employee_id rec =? i)) records))
      with (@nil Db.timeRecord).
    + simpl. rewrite <- Hmap. f_equal.
      apply List.forallb_filter_id, forallb_forall. intros rec Hrec.
      rewrite List.Forall_forall in Hall. apply Z.eqb_eq, Hall, Hrec.
    + symmetry. induction records as [|rec records IH]; [reflexivity|]. simpl.
      destruct (Db.employee_id rec =? i) eqn:E; simpl; [exact IH|]. now rewrite E.
  - replace (List.filter (fun rec => Db.employee_id rec =? j) new) with (@nil Db.timeRecord).
    + rewrite app_nil_r. f_equal.
      induction records as [|rec records IH]; [reflexivity|]. simpl.
      destruct (Z.eqb_spec (Db.employee_id rec) i) as [Hi|Hi]; simpl.
      * destruct (Z.eqb_spec (Db.employee_id rec) j); [congruence|exact IH].
      * destruct (Db.employee_id rec =? j); [now rewrite IH|exact IH].
    + symmetry. clear Hmap. induction Hall as [|rec new Hrec Hall IH]; [reflexivity|]. simpl.
      destruct (Z.eqb_spec (Db.employee_id rec) j); [congruence|exact IH].
Qed.

(** The two cases of the loop's body. *)
Lemma persistEmployee_found (e : Employee.t) (db : Db.t) (i : Z) :
  Db.findEmployee (Db.keyOf e) (Db.employees db) = Some i ->
  snd (Db.persistEmployee e db) = Db.Updated i /\
  Db.employees (fst (Db.persistEmployee e db)) = Db.updateEmployee e i (Db.employees db) /\
  Db.employees_seq (fst (Db.persistEmployee e db)) = Db.employees_seq db /\
  forall j, Db.dayRecords j (fst (Db.persistEmployee e db)) =
            if j =? i then storedDays e else Db.dayRecords j db.
Proof.
  intros Hfind. unfold Db.persistEmployee. rewrite Hfind.
  pose proof (fun j => dayRecords_after i j (Employee.timeCard e) (Db.time_records db)
                         (Db.time_records_seq db) (Db.updateEmployee e i (Db.employees db))
                         (Db.employees_seq db)) as Hrec.
  destruct (Db.insertRecords i (Employee.timeCard e) _ _) as [records rseq] eqn:E. simpl in *.
  repeat split. intros j. specialize (Hrec j rseq).
  unfold Db.dayRecords in *. simpl in *. rewrite Hrec. destruct db; reflexivity.
Qed.

Lemma persistEmployee_new (e : Employee.t) (db : Db.t) :
  Db.findEmployee (Db.keyOf e) (Db.employees db) = None ->
  let i := Db.employees_seq db + 1 in
  snd (Db.persistEmployee e db) = Db.Inserted i /\
  Db.employees (fst (Db.persistEmployee e db)) = (Db.employees db ++ [Db.rowOf i e])%list /\
  Db.employees_seq (fst (Db.persistEmployee e db)) = i /\
  forall j, Db.dayRecords j (fst (Db.persistEmployee e db)) =
            if j =? i then storedDays e else Db.dayRecords j db.
Proof.
  intros Hfind i. unfold Db.persistEmployee. rewrite Hfind. fold i.
  pose proof (fun j => dayRecords_after i j (Employee.timeCard e) (Db.time_records db)
                         (Db.time_records_seq db) (Db.employees db ++ [Db.rowOf i e])%list i)
    as Hrec.
  destruct (Db.insertRecords i (Employee.timeCard e) _ _) as [records rseq] eqn:E. simpl in *.
  repeat split. intros j. specialize (Hrec j rseq).
  unfold Db.dayRecords in *. simpl in *. rewrite Hrec. destruct db; reflexivity.
Qed.

(** The days of an employee are replaced: the rows of its id are deleted,
    then one row is inserted for each day that has a raw time. *)
Lemma persistEmployee_replaces (e : Employee.t) (db : Db.t) :
  let i := actionId (snd (Db.persistEmployee e db)) in
  exists new,
    Db.time_records (fst (Db.persistEmployee e db)) =
      (Db.deleteRecords i (Db.time_records db) ++ new)%list /\
    List.map Db.entry new = storedDays e /\
    Forall (fun rec => Db.employee_id rec = i) new.
Proof.
  unfold Db.persistEmployee.
  destruct (Db.findEmployee (Db.keyOf e) (Db.employees db)) as [i|].
  - destruct (insertRecords_spec i (Employee.timeCard e)
                (Db.deleteRecords i (Db.time_records db)) (Db.time_records_seq db))
      as (new & Hnew & Hmap & Hall).
    destruct (Db.insertRecords i _ _ _) as [records rseq]. simpl in *. eauto.
  - destruct (insertRecords_spec (Db.employees_seq db + 1) (Employee.timeCard e)
                (Db.deleteRecords (Db.employees_seq db + 1) (Db.time_records db))
                (Db.time_records_seq db))
      as (new & Hnew & Hmap & Hall).
    destruct (Db.insertRecords (Db.employees_seq db + 1) _ _ _) as [records rseq].
    simpl in *. eauto.
Qed.

Lemma persistEmployee_days (e : Employee.t) (db : Db.t) :
  Db.dayRecords (actionId (snd (Db.persistEmployee e db))) (fst (Db.persistEmployee e db))
  = storedDays e.
Proof.
  destruct (Db.findEmployee (Db.keyOf e) (Db.employees db)) as [i|] eqn:E.
  - destruct (persistEmployee_found e db i E) as (-> & _ & _ & H).
    rewrite H. simpl. now rewrite Z.eqb_refl.
  - destruct (persistEmployee_new e db E) as (-> & _ & _ & H).
    rewrite H. simpl. now rewrite Z.eqb_refl.
Qed.

(** ** The store: the schema's constraints are kept *)

Lemma wellFormed_empty : wellFormed Db.empty.
Proof. repeat split; constructor. Qed.

Lemma wellFormed_step (e : Employee.t) (db : Db.t) :
  wellFormed db -> wellFormed (fst (Db.persistEmployee e db)).
Proof.
  intros (Hids & Hkeys & Hseq).
  destruct (Db.findEmployee (Db.keyOf e) (Db.employees db)) as [i|] eqn:E.
  - destruct (persistEmployee_found e db i E) as (_ & Hrows & Hs & _).
    unfold wellFormed. rewrite Hrows, Hs.
    destruct (updateEmployee_ids e i (Db.employees db)) as [-> ->].
    repeat split; try assumption.
    unfold Db.updateEmployee. apply List.Forall_forall. intros row Hrow.
    apply in_map_iff in Hrow as (row0 & <- & Hrow0).
    rewrite List.Forall_forall in Hseq. specialize (Hseq row0 Hrow0).
    destruct (Db.id row0 =? i); exact Hseq.
  - destruct (persistEmployee_new e db E) as (_ & Hrows & Hs & _).
    unfold wellFormed. rewrite Hrows, Hs, !List.map_app. simpl.
    rewrite List.Forall_forall in Hseq.
    repeat split.
    + apply NoDup_ListNoDup, NoDup_app. repeat split.
      * now apply NoDup_ListNoDup.
      * intros x Hx Hx'. apply list_elem_of_In in Hx. apply list_elem_of_In in Hx'.
        destruct Hx' as [<-|[]]. apply in_map_iff in Hx as (row & Hid & Hrow).
        specialize (Hseq row Hrow). lia.
      * apply NoDup_ListNoDup. constructor; [intros []|constructor].
    + apply NoDup_ListNoDup, NoDup_app. repeat split.
      * now apply NoDup_ListNoDup.
      * intros x Hx Hx'. apply list_elem_of_In in Hx. apply list_elem_of_In in Hx'.
        destruct Hx' as [<-|[]]. apply findEmployee_None in E. contradiction.
      * apply NoDup_ListNoDup. constructor; [intros []|constructor].
    + apply List.Forall_forall. intros row Hrow. apply in_app_iff in Hrow as [Hrow|[<-|[]]].
      * specialize (Hseq row Hrow). lia.
      * simpl. lia.
Qed.

(** ** The store: all the employees *)

Lemma persistAll_fold (l : list Employee.t) (db : Db.t) (log : list Db.action) :
  fold_left
    (fun '(d, log) employee =>
       let '(d', act) := Db.persistEmployee employee d in (d', (log ++ [act])%list))
    l (db, log)
  = (persisted l db, (log ++ snd (Db.persistAll l db))%list).
Proof.
  unfold persisted, Db.persistAll. revert db log.
  induction l as [|e l IH]; intros db log; simpl.
  - now rewrite app_nil_r.
  - destruct (Db.persistEmployee e db) as [d' act]. simpl.
    rewrite (IH d' (log ++ [act])%list), (IH d' [act]). simpl.
    now rewrite <- app_assoc.
Qed.

Lemma persistAll_cons (e : Employee.t) (l : list Employee.t) (db : Db.t) :
  Db.persistAll (e :: l) db =
  (persisted l (fst (Db.persistEmployee e db)),
   snd (Db.persistEmployee e db) :: snd (Db.persistAll l (fst (Db.persistEmployee e db)))).
Proof.
  unfold Db.persistAll at 1. simpl.
  destruct (Db.persistEmployee e db) as [d' act]. simpl.
  now rewrite persistAll_fold.
Qed.

Lemma persisted_cons (e : Employee.t) (l : list Employee.t) (db : Db.t) :
  persisted (e :: l) db = persisted l (fst (Db.persistEmployee e db)).
Proof. unfold persisted at 1. now rewrite persistAll_cons. Qed.

Lemma persisted_snoc (l : list Employee.t) (e : Employee.t) (db : Db.t) :
  persisted (l ++ [e]) db = fst (Db.persistEmployee e (persisted l db)).
Proof.
  revert db. induction l as [|x l IH]; intros db; simpl.
  - now rewrite persisted_cons.
  - now rewrite !persisted_cons, IH.
Qed.

Lemma wellFormed_persisted (l : list Employee.t) (db : Db.t) :
  wellFormed db -> wellFormed (persisted l db).
Proof.
  revert db. induction l as [|e l IH]; intros db Hwf; [exact Hwf|].
  rewrite persisted_cons. now apply IH, wellFormed_step.
Qed.

Lemma findEmployee_app (k : Db.key) (rows more : list Db.employeeRow) :
  Db.findEmployee k (rows ++ more) =
  match Db.findEmployee k rows with
  | Some i => Some i
  | None => Db.findEmployee k more
  end.
Proof.
  unfold Db.findEmployee. induction rows as [|r rows IH]; [reflexivity|]. cbn [List.find app].
  destruct (Db.keyEqb (Db.keyOfRow r) k); [reflexivity|exact IH].
Qed.

(** A lookup that succeeds keeps its answer through a load. *)
Lemma findEmployee_step (k : Db.key) (i : Z) (e : Employee.t) (db : Db.t) :
  Db.findEmployee k (Db.employees db) = Some i ->
  Db.findEmployee k (Db.employees (fst (Db.persistEmployee e db))) = Some i.
Proof.
  intros H. destruct (Db.findEmployee (Db.keyOf e) (Db.employees db)) as [j|] eqn:E.
  - destruct (persistEmployee_found e db j E) as (_ & -> & _ & _).
    rewrite (findEmployee_keys k _ (Db.employees db)); [exact H|].
    apply updateEmployee_skeleton.
  - destruct (persistEmployee_new e db E) as (_ & -> & _ & _).
    now rewrite findEmployee_app, H.
Qed.

(** After an employee is persisted, its key resolves to its row. *)
Lemma findEmployee_own (e : Employee.t) (db : Db.t) :
  Db.findEmployee (Db.keyOf e) (Db.employees (fst (Db.persistEmployee e db))) =
  Some (actionId (snd (Db.persistEmployee e db))).
Proof.
  destruct (Db.findEmployee (Db.keyOf e) (Db.employees db)) as [j|] eqn:E.
  - rewrite (findEmployee_step _ j e db E).
    now destruct (persistEmployee_found e db j E) as (-> & _).
  - destruct (persistEmployee_new e db E) as (-> & -> & _ & _).
    rewrite findEmployee_app, E. unfold Db.findEmployee. cbn [List.find].
    assert (Hk : Db.keyEqb (Db.keyOfRow (Db.rowOf (Db.employees_seq db + 1) e)) (Db.keyOf e)
                 = true) by now apply keyEqb_eq.
    rewrite Hk. reflexivity.
Qed.

Lemma step_own_row (e : Employee.t) (db : Db.t) :
  exists row,
    In row (Db.employees (fst (Db.persistEmployee e db))) /\
    Db.keyOfRow row = Db.keyOf e /\
    payload row = payloadOf e /\
    Db.dayRecords (Db.id row) (fst (Db.persistEmployee e db)) = storedDays e.
Proof.
  destruct (Db.findEmployee (Db.keyOf e) (Db.employees db)) as [i|] eqn:E.
  - destruct (persistEmployee_found e db i E) as (_ & Hrows & _ & Hrec).
    destruct (findEmployee_Some _ _ _ E) as (row0 & Hin & Hkey & Hid).
    exists (Db.mkEmployee (Db.id row0) (Db.userId row0) (Db.name row0)
              (Employee.department e) (Db.month row0) (Employee.attendanceDateRange e)
              (Employee.tablingDate e)).
    repeat split.
    + rewrite Hrows. unfold Db.updateEmployee. apply in_map_iff. exists row0.
      split; [|exact Hin]. rewrite Hid, Z.eqb_refl. reflexivity.
    + exact Hkey.
    + rewrite Hrec. simpl. now rewrite Hid, Z.eqb_refl.
  - destruct (persistEmployee_new e db E) as (_ & Hrows & _ & Hrec).
    exists (Db.rowOf (Db.employees_seq db + 1) e). repeat split.
    + rewrite Hrows. apply in_app_iff. right. now left.
    + rewrite Hrec. simpl. now rewrite Z.eqb_refl.
Qed.

Lemma step_other_row (e : Employee.t) (db : Db.t) (row : Db.employeeRow) :
  wellFormed db -> In row (Db.employees db) -> Db.keyOfRow row <> Db.keyOf e ->
  In row (Db.employees (fst (Db.persistEmployee e db))) /\
  Db.dayRecords (Db.id row) (fst (Db.persistEmployee e db)) = Db.dayRecords (Db.id row) db.
Proof.
  intros (Hids & Hkeys & Hseq) Hin Hne.
  destruct (Db.findEmployee (Db.keyOf e) (Db.employees db)) as [i|] eqn:E.
  - destruct (persistEmployee_found e db i E) as (_ & Hrows & _ & Hrec).
    destruct (findEmployee_Some _ _ _ E) as (row0 & Hin0 & Hkey0 & Hid0).
    assert (Hid : Db.id row <> i).
    { intros Heq. apply Hne. rewrite <- Hkey0. f_equal.
      apply (NoDup_map_inj Db.id (Db.employees db)); auto. congruence. }
    split.
    + rewrite Hrows. unfold Db.updateEmployee. apply in_map_iff. exists row.
      split; [|exact Hin]. now destruct (Z.eqb_spec (Db.id row) i).
    + rewrite Hrec. now destruct (Z.eqb_spec (Db.id row) i).
  - destruct (persistEmployee_new e db E) as (_ & Hrows & _ & Hrec).
    rewrite List.Forall_forall in Hseq. specialize (Hseq row Hin).
    split.
    + rewrite Hrows. apply in_app_iff. now left.
    + rewrite Hrec. destruct (Z.eqb_spec (Db.id row) (Db.employees_seq db + 1)); [lia|reflexivity].
Qed.

Lemma snoc_split {A : Type} (l before after : list A) (x y : A) :
  (l ++ [x])%list = (before ++ y :: after)%list ->
  (after = [] /\ l = before /\ x = y) \/
  exists after', after = (after' ++ [x])%list /\ l = (before ++ y :: after')%list.
Proof.
  intros H. destruct (@List.exists_last _ (y :: after)) as (l' & z & Hz); [discriminate|].
  destruct after as [|a after].
  - left. apply app_inj_tail in H as [-> ->]. auto.
  - right. destruct (@List.exists_last _ (a :: after)) as (after' & w & Hw); [discriminate|].
    rewrite Hw in H. change (before ++ y :: (after' ++ [w]))%list
      with (before ++ (y :: after') ++ [w])%list in H.
    rewrite app_assoc in H. apply app_inj_tail in H as [-> ->].
    exists after'. rewrite Hw. auto.
Qed.

(** After a load, every employee that is the last with its key has its row,
    its columns and its days in the store. *)
Lemma persisted_settled (l : list Employee.t) (db : Db.t) :
  wellFormed db -> settled l (persisted l db).
Proof.
  intros Hwf. induction l as [|e l IH] using List.rev_ind.
  - intros e' (before & after & H & _). now destruct before.
  - intros e' (before & after & H & Hafter). rewrite persisted_snoc.
    apply snoc_split in H as [(-> & -> & ->)|(after' & -> & ->)].
    + apply step_own_row.
    + apply Forall_app in Hafter as [Hafter' He]. inversion He as [|? ? Hne _]; subst.
      destruct (IH e') as (row & Hin & Hkey & Hpay & Hrec).
      { exists before, after'. auto. }
      destruct (step_other_row e (persisted (before ++ e' :: after') db) row)
        as [Hin' Hrec']; [now apply wellFormed_persisted|exact Hin|congruence|].
      exists row. repeat split; try assumption. now rewrite Hrec'.
Qed.

(** After a load, the key of every employee of the file resolves. *)
Lemma persisted_found (l : list Employee.t) (db : Db.t) (e : Employee.t) :
  In e l ->
  exists i, Db.findEmployee (Db.keyOf e) (Db.employees (persisted l db)) = Some i.
Proof.
  induction l as [|x l IH] using List.rev_ind; [contradiction|].
  intros Hin. rewrite persisted_snoc. apply in_app_iff in Hin as [Hin|[->|[]]].
  - destruct (IH Hin) as (i & Hi). exists i. now apply findEmployee_step.
  - eexists. apply findEmployee_own.
Qed.

(** ** The store: loading the same employees again *)

Lemma agrees_skeleton (pending : list Employee.t) (rows rows' : list Db.employeeRow) :
  Forall2 (sameRowUnless pending) rows rows' ->
  List.map (fun row => (Db.id row, Db.keyOfRow row)) rows =
  List.map (fun row => (Db.id row, Db.keyOfRow row)) rows'.
Proof.
  induction 1 as [|r r' rows rows' (Hid & Hkey & _) _ IH]; [reflexivity|].
  simpl. now rewrite Hid, Hkey, IH.
Qed.

Lemma Forall2_map_In {A B : Type} (R R' : A -> B -> Prop) (g : A -> A)
    (l : list A) (k : list B) :
  Forall2 R l k ->
  (forall x y, In y k -> R x y -> R' (g x) y) ->
  Forall2 R' (List.map g l) k.
Proof.
  induction 1 as [|x y l k Hxy _ IH]; intros Hg; simpl; constructor.
  - apply Hg; [now left|exact Hxy].
  - apply IH. intros x' y' Hy'. apply Hg. now right.
Qed.

Lemma later_same_key_dec (e : Employee.t) (pending : list Employee.t) :
  (exists e', In e' pending /\ Db.keyOf e' = Db.keyOf e) \/
  Forall (fun other => Db.keyOf other <> Db.keyOf e) pending.
Proof.
  induction pending as [|x pending [(e' & Hin & Hk)|IH]].
  - right. constructor.
  - left. exists e'. split; [now right|exact Hk].
  - destruct (Db.keyEqb (Db.keyOf x) (Db.keyOf e)) eqn:E.
    + left. exists x. split; [now left|now apply keyEqb_eq].
    + right. constructor; [|exact IH]. intros Hk. apply keyEqb_eq in Hk. congruence.
Qed.

Lemma settled_tail (e : Employee.t) (pending : list Employee.t) (db : Db.t) :
  settled (e :: pending) db -> settled pending db.
Proof.
  intros H e' (before & after & -> & Hafter). apply H.
  exists (e :: before), after. auto.
Qed.

(** One step of the second load. *)
Lemma reload_step (e : Employee.t) (pending : list Employee.t) (now before : Db.t) :
  wellFormed before -> settled (e :: pending) before ->
  (exists i, Db.findEmployee (Db.keyOf e) (Db.employees before) = Some i) ->
  agreesUnless (e :: pending) now before ->
  updates (Db.employees before) e (snd (Db.persistEmployee e now)) /\
  agreesUnless pending (fst (Db.persistEmployee e now)) before.
Proof.
  intros (Hids & Hkeys & Hseq) Hsettled (i & Hfind) (Hrows & Hs & Hrecs).
  assert (Hfind' : Db.findEmployee (Db.keyOf e) (Db.employees now) = Some i).
  { rewrite (findEmployee_keys _ _ (Db.employees before)); [exact Hfind|].
    now apply (agrees_skeleton (e :: pending)). }
  destruct (persistEmployee_found e now i Hfind') as (Hact & Hrows' & Hs' & Hrecs').
  rewrite Hact. split; [exists i; auto|].
  destruct (findEmployee_Some _ _ _ Hfind) as (row0 & Hin0 & Hkey0 & Hid0).
  (* the row of [e] before, when no pending employee has its key *)
  assert (Hlast : Forall (fun other => Db.keyOf other <> Db.keyOf e) pending ->
                  payload row0 = payloadOf e /\ Db.dayRecords i before = storedDays e).
  { intros Hnone. destruct (Hsettled e) as (row & Hin & Hkey & Hpay & Hrec).
    { exists [], pending. auto. }
    assert (row = row0) as ->.
    { apply (NoDup_map_inj Db.keyOfRow (Db.employees before)); auto. congruence. }
    rewrite <- Hid0. auto. }
  repeat split.
  - rewrite Hrows'. unfold Db.updateEmployee.
    apply (Forall2_map_In (sameRowUnless (e :: pending))); [exact Hrows|].
    intros rN rB HinB (Hid & Hkey & Hsame).
    destruct (Z.eqb_spec (Db.id rN) i) as [Hi|Hi].
    + assert (rB = row0) as ->.
      { apply (NoDup_map_inj Db.id (Db.employees before)); auto. congruence. }
      repeat split; try assumption.
      destruct (later_same_key_dec e pending) as [(e' & Hin' & Hk')|Hnone].
      * right. exists e'. split; [exact Hin'|congruence].
      * left. destruct (Hlast Hnone) as [Hpay _].
        unfold payload, payloadOf, Db.keyOfRow in *.
        destruct rN, row0. simpl in *. congruence.
    + repeat split; try assumption.
      destruct Hsame as [->|(e' & [<-|Hin'] & Hk')]; [now left| |right; eauto].
      exfalso. apply Hi. rewrite Hid, <- Hid0. f_equal.
      apply (NoDup_map_inj Db.keyOfRow (Db.employees before)); auto. congruence.
  - congruence.
  - intros j. rewrite Hrecs'. destruct (Z.eqb_spec j i) as [->|Hj].
    + destruct (later_same_key_dec e pending) as [(e' & Hin' & Hk')|Hnone].
      * right. exists e'. split; [exact Hin'|]. now rewrite Hk'.
      * left. destruct (Hlast Hnone) as [_ Hrec]. now rewrite Hrec.
    + destruct (Hrecs j) as [Hsame|(e' & [<-|Hin'] & Hk')]; [now left| |right; eauto].
      congruence.
Qed.

(** The second load: every employee is updated, and the store ends as it
    began. *)
Lemma reload_agrees (pending : list Employee.t) (now before : Db.t) :
  wellFormed before -> settled pending before ->
  (forall e, In e pending ->
     exists i, Db.findEmployee (Db.keyOf e) (Db.employees before) = Some i) ->
  agreesUnless pending now before ->
  Forall2 (updates (Db.employees before)) pending (snd (Db.persistAll pending now)) /\
  agreesUnless [] (persisted pending now) before.
Proof.
  intros Hwf. revert now.
  induction pending as [|e pending IH]; intros now Hsettled Hfound Hagree.
  - split; [constructor|exact Hagree].
  - destruct (reload_step e pending now before Hwf Hsettled) as [Hact Hnext];
      [apply Hfound; now left|exact Hagree|].
    rewrite persistAll_cons, persisted_cons. simpl.
    destruct (IH (fst (Db.persistEmployee e now))) as [Hlog Hend];
      [now apply settled_tail in Hsettled|intros e' He'; apply Hfound; now right|exact Hnext|].
    split; [constructor; assumption|exact Hend].
Qed.

Lemma agreesUnless_refl (pending : list Employee.t) (db : Db.t) :
  agreesUnless pending db db.
Proof.
  repeat split; [|now left].
  induction (Db.employees db) as [|row rows IH]; constructor; [|exact IH].
  repeat split. now left.
Qed.

Lemma sameRows_nil (rows rows' : list Db.employeeRow) :
  Forall2 (sameRowUnless []) rows rows' -> rows = rows'.
Proof.
  induction 1 as [|r r' rows rows' (_ & _ & [->|(e & [] & _)]) _ IH]; [reflexivity|].
  now rewrite IH.
Qed.

Lemma agreesUnless_nil (now before : Db.t) :
  agreesUnless [] now before ->
  Db.employees now = Db.employees before /\
  forall i, Db.dayRecords i now = Db.dayRecords i before.
Proof.
  intros (Hrows & _ & Hrecs). split; [now apply sameRows_nil|].
  intros i. destruct (Hrecs i) as [H|(e & [] & _)]. exact H.
Qed.

(** Persisting the same employees a second time. *)
Lemma persist_twice (employees : list Employee.t) (db : Db.t) :
  wellFormed db ->
  let once := persisted employees db in
  let twice := persisted employees once in
  Db.employees twice = Db.employees once /\
  (forall i, Db.dayRecords i twice = Db.dayRecords i once) /\
  Forall2 (updates (Db.employees once)) employees (snd (Db.persistAll employees once)).
Proof.
  intros Hwf once twice.
  destruct (reload_agrees employees once once) as [Hlog Hend].
  - now apply wellFormed_persisted.
  - now apply persisted_settled.
  - intros e He. now apply persisted_found.
  - apply agreesUnless_refl.
  - apply agreesUnless_nil in Hend as [Hrows Hrecs]. auto.
Qed.

(** ** The store: the rows of [time_records] *)

(** The rows that the loop over a time card adds take the next row ids. *)
Lemma insertRecords_ids (i : Z) (timeCard : list Card.t) (records : list Db.timeRecord)
    (seq : Z) :
  exists new,
    fst (Db.insertRecords i timeCard records seq) = (records ++ new)%list /\
    Forall (fun rec => Db.employee_id rec = i /\
                       seq < Db.record_id rec <= snd (Db.insertRecords i timeCard records seq))
           new /\
    seq <= snd (Db.insertRecords i timeCard records seq).
Proof.
  unfold Db.insertRecords. revert records seq.
  induction timeCard as [|c timeCard IH]; intros records seq; simpl.
  - exists []. rewrite app_nil_r. repeat split; [constructor|lia].
  - destruct (Card.hasRawTime c).
    + destruct (IH (records ++ [Db.mkRecord (seq + 1) i c])%list (seq + 1))
        as (new & Hnew & Hall & Hseq).
      exists (Db.mkRecord (seq + 1) i c :: new). rewrite Hnew, <- app_assoc. simpl.
      repeat split; [|lia].
      constructor; [simpl; repeat split; lia|].
      eapply List.Forall_impl; [|exact Hall]. simpl. intros rec (H1 & H2 & H3).
      repeat split; [exact H1|lia|exact H3].
    + apply IH.
Qed.

(** One step of the transaction on [time_records]: the rows of the employee
    are deleted, and the rows inserted for it are new. *)
Lemma persistEmployee_records (e : Employee.t) (db : Db.t) :
  let i := actionId (snd (Db.persistEmployee e db)) in
  let db' := fst (Db.persistEmployee e db) in
  exists new,
    Db.time_records db' = (Db.deleteRecords i (Db.time_records db) ++ new)%list /\
    Forall (fun rec => Db.employee_id rec = i /\
                       Db.time_records_seq db < Db.record_id rec <= Db.time_records_seq db')
           new /\
    Db.time_records_seq db <= Db.time_records_seq db'.
Proof.
  unfold Db.persistEmployee.
  destruct (Db.findEmployee (Db.keyOf e) (Db.employees db)) as [i|].
  - destruct (insertRecords_ids i (Employee.timeCard e)
                (Db.deleteRecords i (Db.time_records db)) (Db.time_records_seq db))
      as (new & Hnew & Hall & Hseq).
    destruct (Db.insertRecords i _ _ _) as [records rseq]. simpl in *. eauto.
  - destruct (insertRecords_ids (Db.employees_seq db + 1) (Employee.timeCard e)
                (Db.deleteRecords (Db.employees_seq db + 1) (Db.time_records db))
                (Db.time_records_seq db))
      as (new & Hnew & Hall & Hseq).
    destruct (Db.insertRecords (Db.employees_seq db + 1) _ _ _) as [records rseq].
    simpl in *. eauto.
Qed.

Lemma In_deleteRecords (i : Z) (records : list Db.timeRecord) (rec : Db.timeRecord) :
  In rec (Db.deleteRecords i records) <-> In rec records /\ Db.employee_id rec <> i.
Proof.
  unfold Db.deleteRecords. rewrite filter_In, negb_true_iff, Z.eqb_neq. reflexivity.
Qed.

Lemma persistAll_snoc (l : list Employee.t) (e : Employee.t) (db : Db.t) :
  snd (Db.persistAll (l ++ [e]) db) =
  (snd (Db.persistAll l db) ++ [snd (Db.persistEmployee e (persisted l db))])%list.
Proof.
  revert db. induction l as [|x l IH]; intros db; simpl.
  - rewrite persistAll_cons. reflexivity.
  - rewrite !persistAll_cons, persisted_cons. simpl. now rewrite IH.
Qed.

(** The rows of [time_records] through a transaction: the row ids stay in
    step with the counter; the rows that remain from before are those of
    the employees that the transaction did not visit; every other row is new
    and belongs to an employee that it visited. *)
Lemma persistAll_records (l : list Employee.t) (db : Db.t) :
  recordsNumbered db ->
  let after := persisted l db in
  let visited := List.map actionId (snd (Db.persistAll l db)) in
  recordsNumbered after /\
  Db.time_records_seq db <= Db.time_records_seq after /\
  (forall rec, In rec (Db.time_records after) ->
     Db.record_id rec <= Db.time_records_seq db ->
     In rec (Db.time_records db) /\ ~ In (Db.employee_id rec) visited) /\
  (forall rec, In rec (Db.time_records db) ->
     ~ In (Db.employee_id rec) visited -> In rec (Db.time_records after)) /\
  (forall rec, In rec (Db.time_records after) ->
     Db.time_records_seq db < Db.record_id rec -> In (Db.employee_id rec) visited).
Proof.
  intros Hnum. induction l as [|e l IH] using List.rev_ind.
  - cbv zeta. change (persisted [] db) with db.
    change (Db.persistAll [] db) with (db, @nil Db.action). simpl.
    split; [exact Hnum|]. split; [lia|]. split; [auto|]. split; [auto|].
    intros rec Hin Hlt. unfold recordsNumbered in Hnum.
    rewrite List.Forall_forall in Hnum. specialize (Hnum rec Hin). lia.
  - cbv zeta in *. rewrite persisted_snoc, persistAll_snoc, List.map_app. simpl.
    destruct IH as (Hnum' & Hseq' & Hold & Hkept & Hnew).
    set (d := persisted l db) in *.
    destruct (persistEmployee_records e d) as (new & Hrecs & Hall & Hseq). cbv zeta in *.
    set (i := actionId (snd (Db.persistEmployee e d))) in *.
    set (d' := fst (Db.persistEmployee e d)) in *.
    rewrite List.Forall_forall in Hall.
    unfold recordsNumbered in *. rewrite List.Forall_forall in Hnum'.
    split; [|split; [lia|split; [|split]]].
    + rewrite List.Forall_forall. intros rec Hin. rewrite Hrecs in Hin.
      apply in_app_iff in Hin as [Hin|Hin].
      * apply In_deleteRecords in Hin as [Hin _]. specialize (Hnum' rec Hin). lia.
      * apply Hall in Hin. lia.
    + intros rec Hin Hid. rewrite Hrecs in Hin. apply in_app_iff in Hin as [Hin|Hin].
      * apply In_deleteRecords in Hin as [Hin Hne].
        destruct (Hold rec Hin Hid) as [Hdb Hnot]. split; [exact Hdb|].
        rewrite in_app_iff. simpl. intros [H|[H|[]]]; [now apply Hnot|congruence].
      * apply Hall in Hin. lia.
    + intros rec Hin Hnot. rewrite Hrecs. apply in_app_iff. left.
      apply In_deleteRecords. rewrite in_app_iff in Hnot. simpl in Hnot. split.
      * apply Hkept; [exact Hin|]. intros H. apply Hnot. now left.
      * intros H. apply Hnot. right. left. congruence.
    + intros rec Hin Hlt. rewrite Hrecs in Hin. rewrite in_app_iff. simpl.
      apply in_app_iff in Hin as [Hin|Hin].
      * apply In_deleteRecords in Hin as [Hin _]. left. now apply Hnew.
      * apply Hall in Hin as [Hi _]. right. left. congruence.
Qed.

(** ** Loading a file, and loading it again *)

(** A load persists the employees that it parses. *)
Lemma load_persists (parseDate : string -> option Z) (todayYear todayMonth timezoneOffset : Z)
    (sheet_to_json : Xlsx.Sheet -> list Simple.Row) (workbook : Load.Workbook) (db : Db.t) :
  Load.loadMultiSheetEmployeeAttendance parseDate todayYear todayMonth timezoneOffset
    sheet_to_json workbook db
  = Db.persistAll
      (parsedOf parseDate todayYear todayMonth timezoneOffset sheet_to_json workbook) db.
Proof.
  unfold Load.loadMultiSheetEmployeeAttendance, parsedOf.
  destruct workbook as [|[firstSheetName firstSheet] rest]; [reflexivity|].
  destruct (String.eqb firstSheetName ""); [reflexivity|].
  destruct (Load.parseWorkbook _ _ _ _ _ _ _) as [employees|]; reflexivity.
Qed.

(** The current month is read only where the date range of a sheet does not
    give the month. *)
Lemma parseSingle_dated (parseDate : string -> option Z)
    (todayYear todayMonth todayYear' todayMonth' timezoneOffset : Z) (sheet : Xlsx.Sheet) :
  datedSheet sheet ->
  Block.parseSingleEmployeeAttendanceSheet parseDate todayYear todayMonth timezoneOffset sheet =
  Block.parseSingleEmployeeAttendanceSheet parseDate todayYear' todayMonth' timezoneOffset sheet.
Proof.
  intros Hdated. unfold Block.parseSingleEmployeeAttendanceSheet.
  destruct (Xlsx.ref sheet) as [full|] eqn:Href; [|reflexivity].
  specialize (Hdated full Href).
  unfold Block.reportMonthOf. rewrite Hdated. reflexivity.
Qed.

Lemma parseSheets_dated (parseDate : string -> option Z)
    (todayYear todayMonth todayYear' todayMonth' timezoneOffset : Z)
    (sheets : list (string * Xlsx.Sheet)) (acc : list Employee.t) :
  Forall (fun sheet => datedSheet (snd sheet)) sheets ->
  Load.parseSheets parseDate todayYear todayMonth timezoneOffset sheets acc =
  Load.parseSheets parseDate todayYear' todayMonth' timezoneOffset sheets acc.
Proof.
  intros Hall. revert acc.
  induction Hall as [|[sheetName sheet] sheets Hsheet Hall IH]; intros acc; simpl;
    [reflexivity|].
  destruct (String.eqb sheetName ""); [reflexivity|].
  rewrite (parseSingle_dated parseDate todayYear todayMonth todayYear' todayMonth'
             timezoneOffset sheet Hsheet).
  destruct (Block.parseSingleEmployeeAttendanceSheet _ _ _ _ _); [apply IH|reflexivity].
Qed.

(** A file that gives its month is parsed alike in any month. *)
Lemma parsedOf_dated (parseDate : string -> option Z)
    (todayYear todayMonth todayYear' todayMonth' timezoneOffset : Z)
    (sheet_to_json : Xlsx.Sheet -> list Simple.Row) (workbook : Load.Workbook) :
  (todayYear, todayMonth) = (todayYear', todayMonth') \/ givesItsMonth workbook ->
  parsedOf parseDate todayYear todayMonth timezoneOffset sheet_to_json workbook =
  parsedOf parseDate todayYear' todayMonth' timezoneOffset sheet_to_json workbook.
Proof.
  intros [[= <- <-]|Hgives]; [reflexivity|].
  unfold parsedOf, givesItsMonth in *.
  destruct workbook as [|[firstSheetName firstSheet] rest]; [reflexivity|].
  destruct (String.eqb firstSheetName ""); [reflexivity|].
  unfold Load.parseWorkbook, Load.detect.
  destruct (Simple.isSimpleBiometricFormat firstSheet); [reflexivity|].
  destruct Hgives as [Hsimple|Hall]; [discriminate|].
  rewrite (parseSheets_dated parseDate todayYear todayMonth todayYear' todayMonth'
             timezoneOffset); [reflexivity|].
  apply List.Forall_forall. intros sheet Hin. rewrite List.Forall_forall in Hall.
  apply Hall. apply list_elem_of_In. apply list_elem_of_In in Hin.
  eapply (subseteq_take 20). exact Hin.
Qed.

Lemma updates_id (rows : list Db.employeeRow) (employees : list Employee.t)
    (log : list Db.action) :
  Forall2 (updates rows) employees log ->
  forall i, In i (List.map actionId log) <->
            exists e, In e employees /\ Db.findEmployee (Db.keyOf e) rows = Some i.
Proof.
  induction 1 as [|e act employees log (j & -> & Hfind) _ IH]; intros i; simpl.
  - split; [intros []|intros (e & [] & _)].
  - rewrite IH. split.
    + intros [<-|(e' & Hin & He')]; eauto.
    + intros (e' & [<-|Hin] & He'); [left; congruence|right; eauto].
Qed.

(** C5 (the counterexample).  A block-format file that carries no date
    range takes the current month: loaded in November 2026 and again,
    unmodified, in December 2026, it has its employee inserted twice, and
    the table holds two rows for her. *)
Lemma reload_in_another_month_inserts_again :
  let first := Sample.load Sample.undatedWorkbook Db.empty in
  let second := Sample.loadNextMonth Sample.undatedWorkbook (fst first) in
  snd first = [Db.Inserted 1] /\
  snd second = [Db.Inserted 2] /\
  List.map (fun row => (Db.userId row, Db.name row, Db.month row)) (Db.employees (fst second))
    = [("7", "Alice", "2026-11"); ("7", "Alice", "2026-12")].
Proof. vm_compute. repeat split; reflexivity. Qed.

(** C5 (as amended).  Loading the same unmodified file twice, in the same
    calendar month or the file giving the month of its report (it is in the
    simple format, or each of its sheets carries a date range
    [YYYY-MM-DD~YYYY-MM-DD]), into a store that meets the constraints of its
    schema, leaves the persisted employees and their days as one load leaves
    them.  Both loads persist the employees parsed from the file.  After the
    first, every employee of the file (the last one with its key) has its
    row, with its columns and the days of its time card that have a raw
    time.  On the second load each (userId, name, month) key resolves to an
    update of the existing employee row, so that the rows of [employees] are
    as they were and none is added, and the days of each employee are
    replaced: they read as before, every row of [time_records] of an
    employee of the file is a row that the second load inserted, and the
    rows of the other employees are kept. *)
Theorem reload_is_idempotent
    (parseDate : string -> option Z) (timezoneOffset : Z)
    (sheet_to_json : Xlsx.Sheet -> list Simple.Row) (workbook : Load.Workbook) (db : Db.t)
    (todayYear todayMonth todayYear' todayMonth' : Z) :
  wellFormed db -> recordsNumbered db ->
  (todayYear, todayMonth) = (todayYear', todayMonth') \/ givesItsMonth workbook ->
  let employees :=
    parsedOf parseDate todayYear todayMonth timezoneOffset sheet_to_json workbook in
  let first :=
    Load.loadMultiSheetEmployeeAttendance parseDate todayYear todayMonth timezoneOffset
      sheet_to_json workbook db in
  let once := fst first in
  let second :=
    Load.loadMultiSheetEmployeeAttendance parseDate todayYear' todayMonth' timezoneOffset
      sheet_to_json workbook once in
  let twice := fst second in
  first = Db.persistAll employees db /\
  second = Db.persistAll employees once /\
  wellFormed once /\
  settled employees once /\
  Forall2 (updates (Db.employees once)) employees (snd second) /\
  Db.employees twice = Db.employees once /\
  (forall i, Db.dayRecords i twice = Db.dayRecords i once) /\
  (forall rec e, In rec (Db.time_records twice) -> In e employees ->
     Db.findEmployee (Db.keyOf e) (Db.employees once) = Some (Db.employee_id rec) ->
     Db.time_records_seq once < Db.record_id rec) /\
  (forall rec, In rec (Db.time_records once) ->
     (forall e, In e employees ->
        Db.findEmployee (Db.keyOf e) (Db.employees once) <> Some (Db.employee_id rec)) ->
     In rec (Db.time_records twice)).
Proof.
  intros Hwf Hnum Hmonth employees first once second twice.
  assert (Hfirst : first = Db.persistAll employees db) by apply load_persists.
  assert (Hsecond : second = Db.persistAll employees once).
  { unfold second. rewrite load_persists. f_equal. symmetry. now apply parsedOf_dated. }
  assert (Honce : once = persisted employees db) by (unfold once; now rewrite Hfirst).
  assert (Htwice : twice = persisted employees once) by (unfold twice; now rewrite Hsecond).
  destruct (persist_twice employees db Hwf) as (Hrows & Hrecs & Hlog). cbv zeta in *.
  rewrite <- Honce in Hrows, Hrecs, Hlog. rewrite <- Htwice in Hrows, Hrecs.
  destruct (persistAll_records employees db Hnum) as (Hnum' & _). cbv zeta in Hnum'.
  rewrite <- Honce in Hnum'.
  destruct (persistAll_records employees once Hnum') as (_ & _ & Hold & Hkept & _).
  cbv zeta in *. rewrite <- Htwice in Hold, Hkept.
  pose proof (updates_id _ _ _ Hlog) as Hids.
  split; [exact Hfirst|]. split; [exact Hsecond|].
  split; [rewrite Honce; now apply wellFormed_persisted|].
  split; [rewrite Honce; now apply persisted_settled|].
  split; [now rewrite Hsecond|]. split; [exact Hrows|]. split; [exact Hrecs|]. split.
  - intros rec e Hin He Hfind.
    destruct (Z.lt_ge_cases (Db.time_records_seq once) (Db.record_id rec)) as [Hlt|Hge];
      [exact Hlt|].
    destruct (Hold rec Hin) as [_ Hnot]; [lia|].
    contradiction Hnot. apply Hids. eauto.
  - intros rec Hin Hnone. apply Hkept; [exact Hin|].
    intros Hvisited. apply Hids in Hvisited as (e & He & Hfind). now apply (Hnone e).
Qed.

(** The sample workbook in the simple format, loaded into an empty store in
    November 2026 and again in December 2026. *)
Lemma reload_is_idempotent_witness :
  let employees :=
    parsedOf Metrics.clockParser 2026 10 (-480) Sample.rowsOf Sample.clockWorkbook in
  let first := Sample.load Sample.clockWorkbook Db.empty in
  let once := fst first in
  let second := Sample.loadNextMonth Sample.clockWorkbook once in
  let twice := fst second in
  first = Db.persistAll employees Db.empty /\
  second = Db.persistAll employees once /\
  wellFormed once /\
  settled employees once /\
  Forall2 (updates (Db.employees once)) employees (snd second) /\
  Db.employees twice = Db.employees once /\
  (forall i, Db.dayRecords i twice = Db.dayRecords i once) /\
  (forall rec e, In rec (Db.time_records twice) -> In e employees ->
     Db.findEmployee (Db.keyOf e) (Db.employees once) = Some (Db.employee_id rec) ->
     Db.time_records_seq once < Db.record_id rec) /\
  (forall rec, In rec (Db.time_records once) ->
     (forall e, In e employees ->
        Db.findEmployee (Db.keyOf e) (Db.employees once) <> Some (Db.employee_id rec)) ->
     In rec (Db.time_records twice)).
Proof.
  apply (reload_is_idempotent Metrics.clockParser (-480) Sample.rowsOf Sample.clockWorkbook
           Db.empty 2026 10 2026 11).
  - exact wellFormed_empty.
  - constructor.
  - right. left. vm_compute. reflexivity.
Defined.

(** The rows that the sample reader lists. *)
Lemma sample_rows_read :
  Sample.rowsOf Sample.clockSheet = Sample.rows /\
  Sample.rowsOf Sample.simpleSheet = [] /\
  Simple.isSimpleBiometricFormat Sample.clockSheet = true.
Proof. vm_compute. repeat split; reflexivity. Qed.

Lemma sample_load_twice :
  let once := Sample.load Sample.clockWorkbook Db.empty in
  let twice := Sample.loadNextMonth Sample.clockWorkbook (fst once) in
  snd once = [Db.Inserted 1] /\ snd twice = [Db.Updated 1] /\
  List.map Db.name (Db.employees (fst twice)) = ["Ann"] /\
  List.map Card.day (Db.dayRecords 1 (fst twice)) = [13] /\
  List.map Db.record_id (Db.time_records (fst once)) = [1] /\
  List.map Db.record_id (Db.time_records (fst twice)) = [2].
Proof. vm_compute. repeat split; reflexivity. Qed.

(** The sample worksheet of three blocks carries its date range: loaded
    again a month later, its two employees are updated. *)
Lemma sample_dated_block_reload :
  let once := Sample.load Sample.blockWorkbook Db.empty in
  let twice := Sample.loadNextMonth Sample.blockWorkbook (fst once) in
  snd once = [Db.Inserted 1; Db.Inserted 2] /\
  snd twice = [Db.Updated 1; Db.Updated 2] /\
  List.map (fun row => (Db.userId row, Db.name row, Db.month row)) (Db.employees (fst twice))
    = [("7", "Alice", "2025-04"); ("9", "Carol", "2025-04")].
Proof. vm_compute. repeat split; reflexivity. Qed.

(** ** Stored days and their reading back *)

Lemma truthy_spec (v : option string) :
  JS.truthy v = true <-> exists x, v = Some x /\ x <> "".
Proof.
  unfold JS.truthy. destruct v as [x|].
  - destruct (String.eqb_spec x ""); simpl; split.
    + discriminate.
    + intros (y & [= <-] & Hy). contradiction.
    + intros _. eauto.
    + reflexivity.
  - split; [discriminate|]. intros (x & Hx & _). discriminate.
Qed.

Lemma hasRawTime_spec (c : Card.t) :
  Card.hasRawTime c = true <-> exists x, In (Some x) (rawTimes c) /\ x <> "".
Proof.
  unfold Card.hasRawTime, rawTimes. rewrite !orb_true_iff, !truthy_spec. simpl. split.
  - intros [[[[[(x & H & Hx)|(x & H & Hx)]|(x & H & Hx)]|(x & H & Hx)]|(x & H & Hx)]|(x & H & Hx)];
      exists x; rewrite H; tauto.
  - intros (x & [H|[H|[H|[H|[H|[H|[]]]]]]] & Hx); eauto 10.
Qed.

Lemma dailyRecordMap_lookup (timeCards : list Db.timeRecord) (m : gmap Z Db.timeRecord)
    (day : Z) :
  match fold_left (fun m record => <[ Card.day (Db.entry record) := record ]> m) timeCards m
        !! day with
  | Some row => (In row timeCards /\ Card.day (Db.entry row) = day) \/ m !! day = Some row
  | None => m !! day = None /\
            forall row, In row timeCards -> Card.day (Db.entry row) <> day
  end.
Proof.
  revert m. induction timeCards as [|rec timeCards IH]; intros m; simpl.
  - destruct (m !! day); [now right|]. split; [reflexivity|]. intros row [].
  - specialize (IH (<[ Card.day (Db.entry rec) := rec ]> m)).
    destruct (fold_left _ timeCards _ !! day) as [row|].
    + destruct IH as [[Hin Hday]|Hm]; [left; auto|].
      destruct (decide (Card.day (Db.entry rec) = day)) as [Hd|Hd].
      * subst day. rewrite lookup_insert_eq in Hm. inversion Hm; subst. left. auto.
      * rewrite lookup_insert_ne in Hm by exact Hd. now right.
    + destruct IH as [Hm Hrows].
      destruct (decide (Card.day (Db.entry rec) = day)) as [Hd|Hd].
      * subst day. rewrite lookup_insert_eq in Hm. discriminate.
      * rewrite lookup_insert_ne in Hm by exact Hd. split; [exact Hm|].
        intros row [<-|Hin]; auto.
Qed.

Lemma In_selectRecords (i : Z) (db : Db.t) (row : Db.timeRecord) :
  In row (Load.selectRecords i db) <->
  In row (Db.time_records db) /\ Db.employee_id row = i.
Proof.
  unfold Load.selectRecords.
  rewrite <- list_elem_of_In, merge_sort_Permutation, list_elem_of_In, filter_In, Z.eqb_eq.
  reflexivity.
Qed.

Lemma weekend_label (date : Calendar.Date) :
  (if match Calendar.getDay date with
      | Some 0 | Some 6 => true
      | _ => false
      end
   then Calendar.weekdayLong date else "")
  = default "" (weekendName (Calendar.getDay date)).
Proof.
  unfold Calendar.weekdayLong, weekendName.
  destruct (Calendar.getDay date) as [[|p|p]|]; try reflexivity.
  repeat (destruct p as [p|p|]; try reflexivity).
Qed.

Lemma Forall2_map_self {A B : Type} (R : A -> B -> Prop) (f : A -> B) (l : list A) :
  (forall x, In x l -> R x (f x)) -> Forall2 R l (List.map f l).
Proof.
  induction l as [|a l IH]; intros H; simpl; constructor.
  - apply H. now left.
  - apply IH. intros x Hx. apply H. now right.
Qed.

(** Without a name and a month to look for, every employee is selected. *)
Lemma selectEmployees_all (nameLike : string -> string -> bool) (db : Db.t) :
  Load.selectEmployees nameLike "" "" db = Db.employees db.
Proof.
  unfold Load.selectEmployees. simpl.
  induction (Db.employees db) as [|emp rows IH]; simpl; [reflexivity|]. now rewrite IH.
Qed.

(** C9.  When the loader persists an employee, a row of [time_records] is
    inserted for a day if and only if at least one of the six raw time fields
    of the day is not empty, so that a day holding computed metrics only
    (such as the weekend sentinel of the undertime) is not stored; and
    [getEmployeeDataFromDb] returns one result for each employee that it
    selects (every employee of the table when it is given no name and no
    month), in the order of the table; the result shows every day of the
    month, the stored row of a day that has one, and for each day that has
    no stored row a default record with empty fields, whose undertime_hours
    and undertime_minutes are the long weekday name on a weekend. *)
Theorem stored_days_and_read_back :
  (forall c, Card.hasRawTime c = true <-> exists x, In (Some x) (rawTimes c) /\ x <> "") /\
  (forall employee db,
     let i := actionId (snd (Db.persistEmployee employee db)) in
     let db' := fst (Db.persistEmployee employee db) in
     Db.dayRecords i db' = List.filter Card.hasRawTime (Employee.timeCard employee) /\
     forall c, In c (Db.dayRecords i db') <->
               In c (Employee.timeCard employee) /\ Card.hasRawTime c = true) /\
  (forall (nameLike : string -> string -> bool) (db : Db.t),
     Load.selectEmployees nameLike "" "" db = Db.employees db) /\
  (forall (nameLike : string -> string -> bool) (nameQuery monthQuery : string) (db : Db.t),
     Forall2
       (fun emp res =>
          In emp (Db.employees db) /\
          Load.empId res = Db.userId emp /\ Load.empName res = Db.name emp /\
          fst (Load.formData res) = Db.month emp /\
          List.map fst (snd (Load.formData res)) = shownDays (Db.month emp) /\
          forall day entry, In (day, entry) (snd (Load.formData res)) ->
            let year := Block.yearOf (Db.month emp) in
            let monthNum := Block.monthNumOf (Db.month emp) in
            match entry with
            | Load.Stored row =>
                In row (Db.time_records db) /\ Db.employee_id row = Db.id emp /\
                Card.day (Db.entry row) = day
            | Load.Default record =>
                (forall row, In row (Db.time_records db) -> Db.employee_id row = Db.id emp ->
                             Card.day (Db.entry row) <> day) /\
                record =
                  Card.blank day
                    (Block.formatDateWeekday year monthNum day)
                    (default "" (weekendName (dayOfWeekOf year monthNum day)))
                    (default "" (weekendName (dayOfWeekOf year monthNum day)))
            end)
       (Load.selectEmployees nameLike nameQuery monthQuery db)
       (Load.getEmployeeDataFromDb nameLike nameQuery monthQuery db)).
Proof.
  split; [exact hasRawTime_spec|]. split.
  - intros employee db i db'. subst i db'. rewrite persistEmployee_days.
    split; [reflexivity|]. intros c. unfold storedDays. apply filter_In.
  - split; [exact selectEmployees_all|].
    intros nameLike nameQuery monthQuery db.
    unfold Load.getEmployeeDataFromDb. apply Forall2_map_self. intros emp Hemp.
    unfold Load.selectEmployees in Hemp. apply filter_In in Hemp as [Hemp _].
    simpl. repeat split; try assumption.
    { unfold Load.formDataForDisplay, shownDays, Block.yearOf, Block.monthNumOf.
      rewrite List.map_map. simpl. rewrite List.map_id.
      destruct (Block.parseIntOf (JS.split "-" (Db.month emp) !! 0%nat)) as [year|];
        [|reflexivity].
      destruct (Block.parseIntOf (JS.split "-" (Db.month emp) !! 1%nat)) as [monthNum|];
        [|reflexivity].
      destruct ((1 <=? monthNum) && (monthNum <=? 12)); reflexivity. }
    intros day entry Hentry.
    unfold Load.formDataForDisplay in Hentry.
    apply in_map_iff in Hentry as (day' & Heq & _).
    inversion Heq as [[Hday Hent]]. subst day'. clear Heq.
    pose proof (dailyRecordMap_lookup (Load.selectRecords (Db.id emp) db) ∅ day) as Hmap.
    unfold Load.dailyRecordMapOf.
    destruct (fold_left _ (Load.selectRecords (Db.id emp) db) ∅ !! day) as [row|].
    + destruct Hmap as [[Hin Hd]|Hm]; [|now rewrite lookup_empty in Hm].
      apply In_selectRecords in Hin as [Hin Hid]. auto.
    + destruct Hmap as [_ Hrows]. split.
      * intros row Hin Hid. apply Hrows, In_selectRecords. auto.
      * unfold dayOfWeekOf, Block.formatDateWeekday. rewrite <- weekend_label. reflexivity.
Qed.

(** The sample rows, stored and read back: of the 28 days of February 2025
    the 13th alone is stored; Saturday the 1st comes back as a default
    record that carries the name of the day. *)
Lemma sample_read_back :
  let db := fst (Sample.load Sample.clockWorkbook Db.empty) in
  List.map (fun res =>
              (Load.empName res, length (snd (Load.formData res)),
               List.map (fun '(day, entry) =>
                           match entry with
                           | Load.Stored row => (day, true, Card.undertime_hours (Db.entry row))
                           | Load.Default record => (day, false, Card.undertime_hours record)
                           end)
                 (List.filter (fun '(day, _) => (day =? 1) || (day =? 13))
                    (snd (Load.formData res)))))
    (Load.getEmployeeDataFromDb (fun _ _ => true) "" "" db)
  = [("Ann", 28%nat, [(1, false, "Saturday"); (13, true, "")])].
Proof. vm_compute. reflexivity. Qed.
